(** * SlothBot: the Torn City API client (bot/torn_api.py)

    A shallow embedding of the request pipeline of [TornAPI]: the rate
    limiter gate, the lazily created HTTP session, [_make_request] with its
    failure classification, the endpoint adapters and the two-tier market
    lookup [get_item_market].

    Python coroutines are modelled as state transformers over an explicit
    world (the client object, the heap of parameter dicts and of session
    objects, the clock, and a trace of observable events); exceptions are an
    explicit result. *)

From Stdlib Require Import ZArith String List Lia Bool.
From Stdlib Require Import SpecFloat.
From stdpp Require Import gmap strings list pretty sorting.

Set Warnings "-register-all".
Open Scope Z_scope.

(* ===================================================================== *)
(** * The rate limiter *)
(* ===================================================================== *)

Module RateLimiter.

(** Modelled from the spec: the class [RateLimiter] of bot/rate_limiter.py,
    which torn_api.py imports and constructs as
    [RateLimiter(config.API_RATE_LIMIT, 60)], is not among the sources.
    The spec (4.1) gives its contract: "capacity tokens are available per
    rolling window of length W"; [acquire()] "suspends the calling task
    until a token is available, then atomically decrements the token count
    and returns"; callers are served in arrival order.

    The quota state keeps the capacity, the window length and the instants
    of the granted acquisitions, newest first.  A token taken at instant
    [g] is back at [g + window]. *)
Record t : Type := mk {
  capacity : nat;
  window : Z;
  grants : list Z
}.

Definition init (cap : nat) (w : Z) : t :=
  {| capacity := cap; window := w; grants := [] |}.

(** Tokens in use at instant [now]: the grants of the window that ends
    at [now], that is those after [now - window]. *)
Definition in_use (rl : t) (now : Z) : nat :=
  length (List.filter (fun g => now - window rl <? g) (grants rl)).

(** The current token count. *)
Definition tokens (rl : t) (now : Z) : nat := (capacity rl - in_use rl now)%nat.

(** A caller is served after those that came before it. *)
Definition not_before (rl : t) (now : Z) : Z :=
  match grants rl with
  | [] => now
  | g :: _ => Z.max now g
  end.

(** The first instant, from the caller's turn on, at which a token is
    available; there is none when the bucket has no token at all. *)
Definition next_slot (rl : t) (now : Z) : option Z :=
  match capacity rl with
  | O => None
  | S k =>
      Some (match grants rl !! k with
            | Some g => Z.max (not_before rl now) (g + window rl)
            | None => not_before rl now
            end)
  end.

(** What the caller of [acquire()] observes: it resumes at some instant,
    or it stays suspended.  There is no failure outcome. *)
Inductive outcome : Type :=
| Granted (at_time : Z)
| Suspended.

Definition acquire (rl : t) (now : Z) : outcome * t :=
  match next_slot rl now with
  | Some g =>
      (Granted g,
       {| capacity := capacity rl; window := window rl;
          grants := g :: grants rl |})
  | None => (Suspended, rl)
  end.

(** A sequence of [acquire()] calls, given by the callers' arrival
    instants in the order they are served. *)
Fixpoint run (rl : t) (arrivals : list Z) : t :=
  match arrivals with
  | [] => rl
  | now :: rest => run (snd (acquire rl now)) rest
  end.

(** Acquisitions completed in the window of length [window rl] that
    starts at [a]. *)
Definition in_window (a w g : Z) : bool := (a <=? g) && (g <? a + w).

Definition completed_in (rl : t) (a : Z) : nat :=
  length (List.filter (in_window a (window rl)) (grants rl)).

(** The invariants of the log of grants. *)
Definition ordered (l : list Z) : Prop :=
  forall i j g h, (i <= j)%nat -> l !! i = Some g -> l !! j = Some h -> h <= g.

Definition spaced (cap : nat) (w : Z) (l : list Z) : Prop :=
  forall i g h, l !! i = Some g -> l !! (i + cap)%nat = Some h -> h + w <= g.

Definition wf (rl : t) : Prop :=
  ordered (grants rl) /\ spaced (capacity rl) (window rl) (grants rl).

End RateLimiter.


(* ===================================================================== *)
(** * Python values *)
(* ===================================================================== *)

(** A decoded JSON payload, as [response.json()] returns it.  A dict is a
    finite map from strings; a float is kept by its exact binary value; a
    str is read one character of the Rocq string at a time, which is
    Python's reading for ASCII text. *)
Inductive pyval : Type :=
| VNone
| VBool (b : bool)
| VInt (z : Z)
| VFloat (f : spec_float)
| VStr (s : string)
| VList (l : list pyval)
| VDict (d : gmap string pyval).

(** The exceptions of the model, all of them subclasses of [Exception].
    [TimeoutError] is [asyncio.TimeoutError]; [ClientError] stands for any
    other exception of the HTTP library, with its text.  Exceptions that
    derive from [BaseException] only (task cancellation, interpreter exit)
    are outside the model. *)
Inductive exn : Type :=
| TimeoutError
| TypeError (msg : string)
| AttributeError (msg : string)
| KeyError (msg : string)
| RuntimeError (msg : string)
| ClientError (msg : string).

(** [str(e)] *)
Definition exn_str (e : exn) : string :=
  match e with
  | TimeoutError => ""
  | TypeError m | AttributeError m | KeyError m | RuntimeError m
  | ClientError m => m
  end.

(** The result of an expression that may raise. *)
Inductive attempt (A : Type) : Type :=
| Ok (a : A)
| Err (e : exn).
Arguments Ok {A} a.
Arguments Err {A} e.

Definition type_name (v : pyval) : string :=
  match v with
  | VNone => "NoneType"
  | VBool _ => "bool"
  | VInt _ => "int"
  | VFloat _ => "float"
  | VStr _ => "str"
  | VList _ => "list"
  | VDict _ => "dict"
  end.

Definition float_truthy (f : spec_float) : bool :=
  match f with
  | S754_zero _ => false
  | _ => true
  end.

(** [f == z] for a float and an int: Python compares the exact values. *)
Definition float_eq_int (f : spec_float) (z : Z) : bool :=
  match f with
  | S754_zero _ => z =? 0
  | S754_finite s m e =>
      let mz := if s then Z.neg m else Z.pos m in
      if 0 <=? e then mz * 2 ^ e =? z else mz =? z * 2 ^ (- e)
  | S754_infinity _ | S754_nan => false
  end.

(** [bool(v)] *)
Definition truthy (v : pyval) : bool :=
  match v with
  | VNone => false
  | VBool b => b
  | VInt z => negb (z =? 0)
  | VFloat f => float_truthy f
  | VStr s => negb (String.eqb s "")
  | VList l => match l with [] => false | _ => true end
  | VDict d => negb (bool_decide (d = ∅))
  end.

(** [a or b] *)
Definition py_or (a b : pyval) : pyval := if truthy a then a else b.

(** [v == z] for an int [z] *)
Definition eq_int (v : pyval) (z : Z) : bool :=
  match v with
  | VInt y => y =? z
  | VBool b => (if b then 1 else 0) =? z
  | VFloat f => float_eq_int f z
  | _ => false
  end.

(** [v == s] for a str [s] *)
Definition eq_str (v : pyval) (s : string) : bool :=
  match v with
  | VStr t => String.eqb t s
  | _ => false
  end.

Definition is_dict (v : pyval) : bool :=
  match v with VDict _ => true | _ => false end.

Definition is_list (v : pyval) : bool :=
  match v with VList _ => true | _ => false end.

(** [d.get(k)] and [d.get(k, dflt)] on a dict *)
Definition dict_get (d : gmap string pyval) (k : string) (dflt : pyval) : pyval :=
  default dflt (d !! k).

Fixpoint is_substring (needle hay : string) : bool :=
  String.prefix needle hay
  || match hay with
     | EmptyString => false
     | String _ rest => is_substring needle rest
     end.

Fixpoint chars (s : string) : list pyval :=
  match s with
  | EmptyString => []
  | String c rest => VStr (String c EmptyString) :: chars rest
  end.

(** [k in v] for a str [k] *)
Definition contains (k : string) (v : pyval) : attempt bool :=
  match v with
  | VDict d => Ok (bool_decide (is_Some (d !! k)))
  | VList l => Ok (existsb (fun x => eq_str x k) l)
  | VStr s => Ok (is_substring k s)
  | _ => Err (TypeError ("argument of type '" +:+ type_name v +:+ "' is not iterable"))
  end.

(** [v[k]] for a str [k] *)
Definition getitem (v : pyval) (k : string) : attempt pyval :=
  match v with
  | VDict d =>
      match d !! k with
      | Some x => Ok x
      | None => Err (KeyError k)
      end
  | VList _ => Err (TypeError "list indices must be integers or slices, not str")
  | VStr _ => Err (TypeError "string indices must be integers, not 'str'")
  | _ => Err (TypeError ("'" +:+ type_name v +:+ "' object is not subscriptable"))
  end.

(** [v.get(k, dflt)]: only a dict has the method. *)
Definition get_method (v : pyval) (k : string) (dflt : pyval) : attempt pyval :=
  match v with
  | VDict d => Ok (dict_get d k dflt)
  | _ => Err (AttributeError ("'" +:+ type_name v +:+ "' object has no attribute 'get'"))
  end.

(** The elements a [for] loop over [v] visits.  A dict yields its keys
    (strings; their order plays no role below). *)
Definition iterate (v : pyval) : attempt (list pyval) :=
  match v with
  | VList l => Ok l
  | VDict d => Ok ((fun kv => VStr (fst kv)) <$> map_to_list d)
  | VStr s => Ok (chars s)
  | _ => Err (TypeError ("'" +:+ type_name v +:+ "' object is not iterable"))
  end.

(** [len(v)] *)
Definition len (v : pyval) : attempt Z :=
  match v with
  | VList l => Ok (Z.of_nat (length l))
  | VDict d => Ok (Z.of_nat (size d))
  | VStr s => Ok (Z.of_nat (String.length s))
  | _ => Err (TypeError ("object of type '" +:+ type_name v +:+ "' has no len()"))
  end.

(* ===================================================================== *)
(** * The world of the client *)
(* ===================================================================== *)

(** config.py, the fields the client reads.  [TORN_API_KEY] is
    [os.getenv(...)]: absent, or a string that may be empty.
    [API_RATE_LIMIT] is a number of requests per minute, a natural
    number. *)
Record Config : Type := {
  TORN_API_KEY : option string;
  TORN_API_BASE_URL : string;
  API_RATE_LIMIT : nat;
  USER_AGENT : string;
  REQUEST_TIMEOUT : Z
}.

(** The client object, [TornAPI.__init__].  [session] is [None] or a
    reference to a session object. *)
Record TornAPI : Type := {
  config : Config;
  base_url : string;
  api_key : option string;
  rate_limiter : RateLimiter.t;
  session : option nat
}.

Definition TornAPI_init (cfg : Config) : TornAPI :=
  {| config := cfg;
     base_url := TORN_API_BASE_URL cfg;
     api_key := TORN_API_KEY cfg;
     rate_limiter := RateLimiter.init (API_RATE_LIMIT cfg) 60;
     session := None |}.

(** An [aiohttp.ClientSession] object. *)
Record ClientSession : Type := {
  closed : bool;
  timeout_total : Z;
  headers : gmap string string
}.

(** What the HTTP library answers to a GET: a response with its status
    and what [response.json()] gives, or an exception. *)
Inductive body : Type :=
| Json (data : pyval)
| BodyError (e : exn).

Inductive reply : Type :=
| Response (status : Z) (b : body)
| Failed (e : exn).

Inductive level : Type := INFO | ERROR.

(** The observable actions of the client. *)
Inductive event : Type :=
| Log (lv : level) (msg : string)
| Acquired (at_time : Z)
| NewSession (h : nat)
| Get (h : nat) (url : string) (params : gmap string string)
| Closed (h : nat).

(** The client, the heap of parameter dicts and the heap of session
    objects (a reference is an index; a dict that two names refer to is
    one entry), the clock, the number of GETs sent and the trace. *)
Record World : Type := {
  self : TornAPI;
  dicts : list (gmap string string);
  sessions : list ClientSession;
  clock : Z;
  sent : nat;
  trace : list event
}.

(** What lies outside the client: the network ([network n url params] is
    the answer to the [n]-th GET), Python's [str()] as f-strings apply it
    to a value, and [safe_get] of bot/utils.py, which is not among the
    sources and may do anything, including raise. *)
Record Runtime : Type := {
  network : nat -> string -> gmap string string -> reply;
  py_str : pyval -> string;
  safe_get : pyval -> string -> pyval -> attempt pyval
}.

Definition initial (cfg : Config) : World :=
  {| self := TornAPI_init cfg; dicts := []; sessions := [];
     clock := 0; sent := 0%nat; trace := [] |}.

(** The outcome of awaiting a coroutine: a value, an exception, or the
    coroutine never resumes. *)
Inductive result (A : Type) : Type :=
| Return (a : A)
| Raise (e : exn)
| Pending.
Arguments Return {A} a.
Arguments Raise {A} e.
Arguments Pending {A}.

Definition M (A : Type) : Type := World -> result A * World.

Definition ret {A} (a : A) : M A := fun w => (Return a, w).

Definition bind {A B} (m : M A) (k : A -> M B) : M B :=
  fun w =>
    match m w with
    | (Return a, w') => k a w'
    | (Raise e, w') => (Raise e, w')
    | (Pending, w') => (Pending, w')
    end.

#[global] Instance M_ret : MRet M := @ret.
#[global] Instance M_bind : MBind M := fun A B k m => bind m k.

Definition raise {A} (e : exn) : M A := fun w => (Raise e, w).

Definition lift {A} (a : attempt A) : M A :=
  match a with
  | Ok x => ret x
  | Err e => raise e
  end.

(** [try: m  except Exception as e: handler e] *)
Definition try_except {A} (m : M A) (handler : exn -> M A) : M A :=
  fun w =>
    match m w with
    | (Raise e, w') => handler e w'
    | r => r
    end.

Definition emit (ev : event) : M unit :=
  fun w =>
    (Return tt,
     {| self := self w; dicts := dicts w; sessions := sessions w;
        clock := clock w; sent := sent w; trace := trace w ++ [ev] |}).

Definition read_world : M World := fun w => (Return w, w).

(** [logger.error(msg)], [logger.info(msg)] *)
Definition log (lv : level) (msg : string) : M unit := emit (Log lv msg).

Definition set_self (s : TornAPI) (w : World) : World :=
  {| self := s; dicts := dicts w; sessions := sessions w;
     clock := clock w; sent := sent w; trace := trace w |}.

Definition set_session (o : option nat) (s : TornAPI) : TornAPI :=
  {| config := config s; base_url := base_url s; api_key := api_key s;
     rate_limiter := rate_limiter s; session := o |}.

Definition set_rate_limiter (rl : RateLimiter.t) (s : TornAPI) : TornAPI :=
  {| config := config s; base_url := base_url s; api_key := api_key s;
     rate_limiter := rl; session := session s |}.

(** [await self.rate_limiter.acquire()]: the caller resumes at the granted
    instant. *)
Definition acquire : M unit :=
  fun w =>
    match RateLimiter.acquire (rate_limiter (self w)) (clock w) with
    | (RateLimiter.Granted g, rl) =>
        (Return tt,
         {| self := set_rate_limiter rl (self w); dicts := dicts w;
            sessions := sessions w; clock := g; sent := sent w;
            trace := trace w ++ [Acquired g] |})
    | (RateLimiter.Suspended, _) => (Pending, w)
    end.

(** A dict display [{...}]: a new object on the heap. *)
Definition new_dict (d : gmap string string) : M nat :=
  fun w =>
    (Return (length (dicts w)),
     {| self := self w; dicts := dicts w ++ [d]; sessions := sessions w;
        clock := clock w; sent := sent w; trace := trace w |}).

(** The dict a reference denotes. *)
Definition deref (w : World) (r : nat) : gmap string string :=
  default ∅ (dicts w !! r).

(** [params[k] = v]: the object is updated in place.  (A reference that
    the program holds denotes a dict of the heap; at any other index the
    heap is left as it is.) *)
Definition setitem (r : nat) (k v : string) : M unit :=
  fun w =>
    (Return tt,
     {| self := self w; dicts := <[r := <[k := v]> (deref w r)]> (dicts w);
        sessions := sessions w; clock := clock w; sent := sent w;
        trace := trace w |}).

(** [s.closed] for the session object at [h]. *)
Definition is_closed (w : World) (h : nat) : bool :=
  match sessions w !! h with
  | Some s => closed s
  | None => true
  end.

(** A session object is live when it exists and is not closed. *)
Definition live (w : World) (h : nat) : Prop := is_closed w h = false.

(* ===================================================================== *)
(** * The client: bot/torn_api.py *)
(* ===================================================================== *)

Section Client.
Context (rt : Runtime).

(** [aiohttp.ClientSession(timeout=ClientTimeout(total=REQUEST_TIMEOUT),
    headers={'User-Agent': USER_AGENT})]: a new, open session object. *)
Definition new_session : M nat :=
  fun w =>
    let cfg := config (self w) in
    let h := length (sessions w) in
    (Return h,
     {| self := self w; dicts := dicts w;
        sessions := sessions w ++
          [{| closed := false; timeout_total := REQUEST_TIMEOUT cfg;
              headers := {[ "User-Agent" := USER_AGENT cfg ]} |}];
        clock := clock w; sent := sent w;
        trace := trace w ++ [NewSession h] |}).

(** [self.session = h] *)
Definition cache_session (h : nat) : M unit :=
  fun w => (Return tt, set_self (set_session (Some h) (self w)) w).

(** [_get_session], lines 26-33. *)
Definition _get_session : M nat :=
  w ← read_world;
  match session (self w) with
  | Some h =>
      if is_closed w h
      then h' ← new_session; cache_session h';; mret h'
      else mret h
  | None => h' ← new_session; cache_session h';; mret h'
  end.

(** [session.close()] on the object at [h]. *)
Definition close_session (h : nat) : M unit :=
  fun w =>
    match sessions w !! h with
    | Some s =>
        (Return tt,
         {| self := self w; dicts := dicts w;
            sessions := <[h := {| closed := true;
                                  timeout_total := timeout_total s;
                                  headers := headers s |}]> (sessions w);
            clock := clock w; sent := sent w;
            trace := trace w ++ [Closed h] |})
    | None => (Return tt, w)
    end.

(** [close], lines 190-193. *)
Definition close : M unit :=
  w ← read_world;
  match session (self w) with
  | Some h => if is_closed w h then mret tt else close_session h
  | None => mret tt
  end.

(** [session.get(url, params=params)] with the dict at [r]: a closed
    session refuses; otherwise the request goes out and the network
    answers. *)
Definition session_get (h : nat) (url : string) (r : nat) : M (Z * body) :=
  fun w =>
    if is_closed w h then (Raise (RuntimeError "Session is closed"), w)
    else
      let p := deref w r in
      let w' := {| self := self w; dicts := dicts w; sessions := sessions w;
                   clock := clock w; sent := S (sent w);
                   trace := trace w ++ [Get h url p] |} in
      match network rt (sent w) url p with
      | Response status b => (Return (status, b), w')
      | Failed e => (Raise e, w')
      end.

(** [await response.json()] *)
Definition json (b : body) : M pyval :=
  match b with
  | Json data => mret data
  | BodyError e => raise e
  end.

(** [not self.api_key] *)
Definition no_key (k : option string) : bool :=
  match k with
  | None => true
  | Some s => String.eqb s ""
  end.

Definition key_text (k : option string) : string := default "" k.

(** [_make_request], lines 35-71.  [params] is [None] or a reference to
    the caller's dict. *)
Definition _make_request (endpoint : string) (params : option nat) : M pyval :=
  w ← read_world;
  if no_key (api_key (self w)) then
    log ERROR "No API key configured";; mret VNone
  else
    (acquire;;
     let url := base_url (self w) +:+ "/" +:+ endpoint in
     r ← match params with
         | None => new_dict ∅
         | Some r => mret r
         end;
     setitem r "key" (key_text (api_key (self w)));;
     try_except
       (h ← _get_session;
        resp ← session_get h url r;
        if fst resp =? 200 then
          data ← json (snd resp);
          has_error ← lift (contains "error" data);
          if (has_error : bool) then
            detail ← lift (getitem data "error");
            log ERROR ("API error: " +:+ py_str rt detail);;
            mret VNone
          else mret data
        else
          log ERROR ("HTTP error " +:+ py_str rt (VInt (fst resp))
                     +:+ " for " +:+ url);;
          mret VNone)
       (fun e =>
          match e with
          | TimeoutError =>
              log ERROR ("Timeout for API request to " +:+ url);;
              mret VNone
          | _ =>
              log ERROR ("Error making API request to " +:+ url
                         +:+ ": " +:+ exn_str e);;
              mret VNone
          end)).

(** [get_user_profile], lines 73-81. *)
Definition get_user_profile (user_id : pyval) : M pyval :=
  try_except
    (p ← new_dict {[ "selections" := "basic,profile" ]};
     data ← _make_request ("user/" +:+ py_str rt user_id) (Some p);
     mret data)
    (fun e =>
       log ERROR ("Error getting user profile for " +:+ py_str rt user_id
                  +:+ ": " +:+ exn_str e);;
       mret VNone).

(** [get_faction_info], lines 83-91. *)
Definition get_faction_info (faction_id : pyval) : M pyval :=
  try_except
    (p ← new_dict {[ "selections" := "basic" ]};
     data ← _make_request ("faction/" +:+ py_str rt faction_id) (Some p);
     mret data)
    (fun e =>
       log ERROR ("Error getting faction info for " +:+ py_str rt faction_id
                  +:+ ": " +:+ exn_str e);;
       mret VNone).

(** [get_faction_members], lines 93-102. *)
Definition get_faction_members (faction_id : pyval) : M pyval :=
  try_except
    (p ← new_dict {[ "selections" := "members" ]};
     data ← _make_request ("faction/" +:+ py_str rt faction_id) (Some p);
     if truthy data then lift (get_method data "members" (VDict ∅))
     else mret (VDict ∅))
    (fun e =>
       log ERROR ("Error getting faction members for "
                  +:+ py_str rt faction_id +:+ ": " +:+ exn_str e);;
       mret (VDict ∅)).

(** [get_item_info], lines 104-111. *)
Definition get_item_info (item_id : pyval) : M pyval :=
  try_except
    (p ← new_dict {[ "selections" := "items" ]};
     data ← _make_request "torn" (Some p);
     items ← lift (safe_get rt data "items" (VDict ∅));
     lift (get_method items (py_str rt item_id) (VDict ∅)))
    (fun e =>
       log ERROR ("Error getting item info for " +:+ py_str rt item_id
                  +:+ ": " +:+ exn_str e);;
       mret VNone).

(** The identifier of a primary listing, lines 127-129:
    [item.get('item_id') or item.get('ID') or item.get('itemID')]. *)
Definition item_market_id (item : gmap string pyval) : pyval :=
  py_or (py_or (dict_get item "item_id" VNone) (dict_get item "ID" VNone))
        (dict_get item "itemID" VNone).

(** The test of the first loop, lines 125-130. *)
Definition primary_match (item_id : Z) (item : pyval) : bool :=
  match item with
  | VDict d => eq_int (item_market_id d) item_id
  | _ => false
  end.

(** The test of the second loop, line 146. *)
Definition bazaar_match (item_id : Z) (item : pyval) : bool :=
  match item with
  | VDict d => eq_int (dict_get d "ID" VNone) item_id
  | _ => false
  end.

(** Lines 119-131: the listings selected from the primary payload. *)
Definition primary_listings (item_id : Z) (data : pyval) : list pyval :=
  match data with
  | VDict d =>
      if truthy data then
        match dict_get d "itemmarket" data with
        | VList market_items => List.filter (primary_match item_id) market_items
        | _ => []
        end
      else []
  | _ => []
  end.

(** The [try] block of [get_item_market], lines 116-156. *)
Definition get_item_market_try (item_id : Z) : M pyval :=
  p ← new_dict ∅;
  data ← _make_request "itemmarket" (Some p);
  match primary_listings item_id data with
  | (_ :: _) as item_listings =>
      log INFO ("Found " +:+ py_str rt (VInt (Z.of_nat (length item_listings)))
                +:+ " itemmarket listings for item "
                +:+ py_str rt (VInt item_id));;
      mret (VList item_listings)
  | [] =>
      q ← new_dict {[ "selections" := "bazaar" ]};
      data ← _make_request "market" (Some q);
      has_bazaar ← (if truthy data then lift (contains "bazaar" data)
                    else mret false);
      if (has_bazaar : bool) then
        bazaar_items ← lift (get_method data "bazaar" (VList []));
        items ← lift (iterate bazaar_items);
        match List.filter (bazaar_match item_id) items with
        | (_ :: _) as item_listings =>
            log INFO ("Found "
                      +:+ py_str rt (VInt (Z.of_nat (length item_listings)))
                      +:+ " bazaar listings for item "
                      +:+ py_str rt (VInt item_id));;
            mret (VList item_listings)
        | [] =>
            log INFO ("No market data found for item "
                      +:+ py_str rt (VInt item_id));;
            mret (VList [])
        end
      else
        log INFO ("No market data found for item "
                  +:+ py_str rt (VInt item_id));;
        mret (VList [])
  end.

(** [get_item_market], lines 113-160. *)
Definition get_item_market (item_id : Z) : M pyval :=
  try_except
    (get_item_market_try item_id)
    (fun e =>
       log ERROR ("Error getting item market for " +:+ py_str rt (VInt item_id)
                  +:+ ": " +:+ exn_str e);;
       mret (VList [])).

(** [get_player_bazaar], lines 162-188. *)
Definition get_player_bazaar (player_id : pyval) : M pyval :=
  try_except
    (p ← new_dict {[ "selections" := "bazaar" ]};
     data ← _make_request ("user/" +:+ py_str rt player_id) (Some p);
     has_bazaar ← (if truthy data then lift (contains "bazaar" data)
                   else mret false);
     if (has_bazaar : bool) then
       bazaar_items ← lift (get_method data "bazaar" (VList []));
       n ← lift (len bazaar_items);
       log INFO ("Found " +:+ py_str rt (VInt n) +:+ " bazaar items for player "
                 +:+ py_str rt player_id);;
       mret bazaar_items
     else
       log INFO ("No bazaar data found for player " +:+ py_str rt player_id);;
       mret (VList []))
    (fun e =>
       log ERROR ("Error getting bazaar for player " +:+ py_str rt player_id
                  +:+ ": " +:+ exn_str e);;
       mret (VList [])).

End Client.

(* ===================================================================== *)
(** * Specifications *)
(* ===================================================================== *)

(** [triple I raises pends m R]: from a world that satisfies [I], the
    coroutine [m] leads to a world that satisfies [I]; a value it returns
    satisfies [R]; it raises only if [raises] allows it and stays pending
    only if [pends] allows it. *)
Definition triple (I : World -> Prop) (raises pends : bool) {A : Type}
    (m : M A) (R : A -> Prop) : Prop :=
  forall w, I w ->
    I (snd (m w)) /\
    match fst (m w) with
    | Return a => R a
    | Raise _ => raises = true
    | Pending => pends = true
    end.

(** The limiter of the client has at least one token to give. *)
Definition has_tokens (w : World) : Prop :=
  (0 < RateLimiter.capacity (rate_limiter (self w)))%nat.

(** Every live session object is the one the client has cached: there is
    at most one. *)
Definition one_live (w : World) : Prop :=
  forall h, live w h -> session (self w) = Some h.

(** The GETs of a trace: URL and query parameters. *)
Fixpoint gets (tr : list event) : list (string * gmap string string) :=
  match tr with
  | [] => []
  | Get _ url p :: rest => (url, p) :: gets rest
  | _ :: rest => gets rest
  end.

(** The messages of a trace. *)
Fixpoint messages (tr : list event) : list string :=
  match tr with
  | [] => []
  | Log _ msg :: rest => msg :: messages rest
  | _ :: rest => messages rest
  end.

(** The message of the two [except] clauses of [_make_request]. *)
Definition failure_text (url : string) (e : exn) : string :=
  match e with
  | TimeoutError => "Timeout for API request to " +:+ url
  | _ => "Error making API request to " +:+ url +:+ ": " +:+ exn_str e
  end.

(** What [_make_request] makes of the answer to its GET: the value it
    returns and the message it logs, if any (lemma [_make_request_eq]). *)
Definition outcome_of (rt : Runtime) (url : string) (rep : reply)
    : pyval * option string :=
  match rep with
  | Failed e => (VNone, Some (failure_text url e))
  | Response status b =>
      if status =? 200 then
        match b with
        | BodyError e => (VNone, Some (failure_text url e))
        | Json data =>
            match contains "error" data with
            | Err e => (VNone, Some (failure_text url e))
            | Ok false => (data, None)
            | Ok true =>
                match getitem data "error" with
                | Ok detail => (VNone, Some ("API error: " +:+ py_str rt detail))
                | Err e => (VNone, Some (failure_text url e))
                end
            end
        end
      else (VNone, Some ("HTTP error " +:+ py_str rt (VInt status)
                         +:+ " for " +:+ url))
  end.

(** The listings of a secondary payload whose ['ID'] equals the requested
    identifier. *)
Definition bazaar_listings (item_id : Z) (data : pyval) : list pyval :=
  match data with
  | VDict d =>
      match d !! "bazaar" with
      | Some (VList items) => List.filter (bazaar_match item_id) items
      | _ => []
      end
  | _ => []
  end.

(** An invariant that the primitive actions of the client keep; [pends]
    tells whether the limiter may leave the caller suspended. *)
Record stable (rt : Runtime) (I : World -> Prop) (pends : bool) : Prop := {
  stable_emit : forall ev w, I w -> I (snd (emit ev w));
  stable_acquire : forall w, I w ->
    I (snd (acquire w)) /\ (fst (acquire w) = Pending -> pends = true);
  stable_new_dict : forall d w, I w -> I (snd (new_dict d w));
  stable_setitem : forall r k v w, I w -> I (snd (setitem r k v w));
  stable_get_session : forall w, I w -> I (snd (_get_session w));
  stable_session_get : forall h url r w, I w -> I (snd (session_get rt h url r w));
  stable_close : forall w, I w -> I (snd (close w))
}.

(** The request [_make_request] sends from [w]: its URL, its query
    parameters (the caller's, or none, and the key), the session object it
    goes through and the worlds's heaps afterwards. *)
Definition request_url (w : World) (endpoint : string) : string :=
  base_url (self w) +:+ "/" +:+ endpoint.

Definition request_params (w : World) (params : option nat) : gmap string string :=
  <["key" := key_text (api_key (self w))]>
    match params with
    | None => ∅
    | Some r => deref w r
    end.

Definition valid_params (w : World) (params : option nat) : Prop :=
  match params with
  | None => True
  | Some r => is_Some (dicts w !! r)
  end.

Definition cached_live (w : World) : option nat :=
  match session (self w) with
  | Some h => if is_closed w h then None else Some h
  | None => None
  end.

Definition request_session (w : World) : nat :=
  default (length (sessions w)) (cached_live w).

Definition fresh_session (w : World) : ClientSession :=
  {| closed := false; timeout_total := REQUEST_TIMEOUT (config (self w));
     headers := {[ "User-Agent" := USER_AGENT (config (self w)) ]} |}.

(** The world [_get_session] leaves. *)
Definition with_session (w : World) : World :=
  match cached_live w with
  | Some _ => w
  | None =>
      {| self := set_session (Some (length (sessions w))) (self w);
         dicts := dicts w;
         sessions := sessions w ++ [fresh_session w];
         clock := clock w; sent := sent w;
         trace := trace w ++ [NewSession (length (sessions w))] |}
  end.

(** The message a trace gains from an outcome. *)
Definition logged (o : option string) : list event :=
  match o with
  | Some msg => [Log ERROR msg]
  | None => []
  end.

(** The world a granted [_make_request] leaves (lemma [_make_request_eq]):
    the limiter has granted at [g], the key is set in the dict, the session
    is there, the GET is sent and the failure, if any, is logged. *)
Definition after_request (rt : Runtime) (endpoint : string)
    (params : option nat) (g : Z) (rl : RateLimiter.t) (w : World) : World :=
  let url := request_url w endpoint in
  let p := request_params w params in
  let w1 :=
    {| self := set_rate_limiter rl (self w);
       dicts := match params with
                | None => dicts w ++ [p]
                | Some r => <[r := p]> (dicts w)
                end;
       sessions := sessions w; clock := g; sent := sent w;
       trace := trace w ++ [Acquired g] |} in
  let w2 := with_session w1 in
  {| self := self w2; dicts := dicts w2; sessions := sessions w2;
     clock := clock w2; sent := S (sent w2);
     trace := (trace w2 ++ [Get (request_session w1) url p])
              ++ logged (snd (outcome_of rt url (network rt (sent w) url p))) |}.

(** The identifier of a listing as the spec words it (4.5): the first
    non-null value among the accepted field names, in priority order. *)
Definition first_non_null (item : gmap string pyval) : pyval :=
  match dict_get item "item_id" VNone with
  | VNone =>
      match dict_get item "ID" VNone with
      | VNone => dict_get item "itemID" VNone
      | v => v
      end
  | v => v
  end.

(** A value is null, or it is truthy. *)
Definition null_or_truthy (v : pyval) : Prop := v = VNone \/ truthy v = true.

(** The calls a user of the client can make, and their effect on the
    world. *)
Inductive call : Type :=
| Call_get_session
| Call_close
| Call_make_request (endpoint : string) (params : option nat)
| Call_get_user_profile (user_id : pyval)
| Call_get_faction_info (faction_id : pyval)
| Call_get_faction_members (faction_id : pyval)
| Call_get_item_info (item_id : pyval)
| Call_get_item_market (item_id : Z)
| Call_get_player_bazaar (player_id : pyval).

Definition perform (rt : Runtime) (c : call) (w : World) : World :=
  match c with
  | Call_get_session => snd (_get_session w)
  | Call_close => snd (close w)
  | Call_make_request endpoint params => snd (_make_request rt endpoint params w)
  | Call_get_user_profile user_id => snd (get_user_profile rt user_id w)
  | Call_get_faction_info faction_id => snd (get_faction_info rt faction_id w)
  | Call_get_faction_members faction_id => snd (get_faction_members rt faction_id w)
  | Call_get_item_info item_id => snd (get_item_info rt item_id w)
  | Call_get_item_market item_id => snd (get_item_market rt item_id w)
  | Call_get_player_bazaar player_id => snd (get_player_bazaar rt player_id w)
  end.

Fixpoint perform_all (rt : Runtime) (cs : list call) (w : World) : World :=
  match cs with
  | [] => w
  | c :: rest => perform_all rt rest (perform rt c w)
  end.

(* ===================================================================== *)
(** * Concrete worlds *)
(* ===================================================================== *)

Module Example.

Definition str (v : pyval) : string :=
  match v with
  | VNone => "None"
  | VBool true => "True"
  | VBool false => "False"
  | VInt z => pretty z
  | VStr s => s
  | _ => "..."
  end.

Definition lenient_get (v : pyval) (k : string) (dflt : pyval) : attempt pyval :=
  match v with
  | VDict d => Ok (dict_get d k dflt)
  | _ => Ok dflt
  end.

Definition runtime (net : nat -> string -> gmap string string -> reply) : Runtime :=
  {| network := net; py_str := str; safe_get := lenient_get |}.

Definition cfg (key : option string) : Config :=
  {| TORN_API_KEY := key;
     TORN_API_BASE_URL := "https://api.torn.com";
     API_RATE_LIMIT := 100;
     USER_AGENT := "TornCityBot/1.0 (Discord Bot)";
     REQUEST_TIMEOUT := 30 |}.

(** A client with the key ["SECRET"], and one without a key. *)
Definition world : World := initial (cfg (Some "SECRET")).
Definition world_no_key : World := initial (cfg None).

(** A world in which a caller holds the dict [{'selections': 'basic'}]. *)
Definition with_caller_dict (w : World) : World :=
  snd (new_dict {[ "selections" := "basic" ]} w).

(** The provider reports an error: 200 and [{"error": {"code": 2}}]. *)
Definition net_error : nat -> string -> gmap string string -> reply :=
  fun _ _ _ =>
    Response 200 (Json (VDict {[ "error" := VDict {[ "code" := VInt 2 ]} ]})).

(** The provider answers 503, with an error in the payload. *)
Definition net_503_error : nat -> string -> gmap string string -> reply :=
  fun _ _ _ =>
    Response 503 (Json (VDict {[ "error" := VDict {[ "code" := VInt 2 ]} ]})).

(** The server is down: 503. *)
Definition net_503 : nat -> string -> gmap string string -> reply :=
  fun _ _ _ => Response 503 (BodyError (ClientError "no body")).

(** The body is not JSON: [response.json()] raises, and the text of the
    exception names the URL that was requested, query string included. *)
Definition net_not_json : nat -> string -> gmap string string -> reply :=
  fun _ url p =>
    Response 200
      (BodyError
         (ClientError
            ("200, message='Attempt to decode JSON with unexpected mimetype: text/html', url='"
             +:+ url +:+ "?key=" +:+ default "" (p !! "key") +:+ "'"))).

Definition listing (id price : Z) : pyval :=
  VDict {[ "ID" := VInt id; "price" := VInt price ]}.

(** The primary feed lists items 7 and 9; the secondary one item 42. *)
Definition net_market : nat -> string -> gmap string string -> reply :=
  fun _ url _ =>
    if String.eqb url "https://api.torn.com/itemmarket" then
      Response 200 (Json (VDict {[ "itemmarket" :=
                                   VList [listing 7 100; listing 9 5] ]}))
    else
      Response 200 (Json (VDict {[ "bazaar" := VList [listing 42 50] ]})).

(** The secondary payload holds [null] where the listings should be. *)
Definition net_null_bazaar : nat -> string -> gmap string string -> reply :=
  fun _ url _ =>
    if String.eqb url "https://api.torn.com/itemmarket" then
      Response 200 (Json (VDict {[ "itemmarket" := VList [] ]}))
    else Response 200 (Json (VDict {[ "bazaar" := VNone ]})).

End Example.

(** The limiter of the client is the one [TornAPI.__init__] builds for
    [cfg], after some acquisitions. *)
Definition limiter_of (cfg : Config) (w : World) : Prop :=
  RateLimiter.wf (rate_limiter (self w))
  /\ RateLimiter.capacity (rate_limiter (self w)) = API_RATE_LIMIT cfg
  /\ RateLimiter.window (rate_limiter (self w)) = 60.

(** The messages logged between two worlds of a run. *)
Definition messages_since (w w' : World) : list string :=
  drop (length (messages (trace w))) (messages (trace w')).

(** The two requests of [get_item_market] from [w], and what
    [_make_request] makes of their answers. *)
Definition primary_params (w : World) : gmap string string :=
  <["key" := key_text (api_key (self w))]> ∅.

Definition secondary_params (w : World) : gmap string string :=
  <["key" := key_text (api_key (self w))]> {[ "selections" := "bazaar" ]}.

Definition primary_data (rt : Runtime) (w : World) : pyval :=
  fst (outcome_of rt (request_url w "itemmarket")
         (network rt (sent w) (request_url w "itemmarket") (primary_params w))).

Definition secondary_data (rt : Runtime) (w : World) : pyval :=
  fst (outcome_of rt (request_url w "market")
         (network rt (S (sent w)) (request_url w "market") (secondary_params w))).

(* ===================================================================== *)
(** * Accounts of a run *)
(* ===================================================================== *)

(** The acquisitions the limiter of the client has granted so far. *)
Definition tokens_taken (w : World) : nat :=
  length (RateLimiter.grants (rate_limiter (self w))).

(** The session objects opened and closed along a trace. *)
Fixpoint opened (tr : list event) : nat :=
  match tr with
  | [] => 0
  | NewSession _ :: rest => S (opened rest)
  | _ :: rest => opened rest
  end.

Fixpoint closings (tr : list event) : nat :=
  match tr with
  | [] => 0
  | Closed _ :: rest => S (closings rest)
  | _ :: rest => closings rest
  end.

(** As many GETs as acquisitions. *)
Definition balanced (w : World) : Prop := sent w = tokens_taken w.

(** As many session objects opened as closed, and one more while one is
    cached and open. *)
Definition sessions_accounted (w : World) : Prop :=
  opened (trace w)
  = (closings (trace w) + match cached_live w with Some _ => 1 | None => 0 end)%nat.

(** An invariant that logging, a new dict and a request keep. *)
Record adapter_stable (rt : Runtime) (I : World -> Prop) (pd : bool) : Prop := {
  adapter_log : forall lv msg w, I w -> I (snd (log lv msg w));
  adapter_new_dict : forall d w, I w -> I (snd (new_dict d w));
  adapter_request : forall rs endpoint params,
    triple I rs pd (_make_request rt endpoint params) (fun _ => True)
}.

Definition is_str (v : pyval) : bool :=
  match v with VStr _ => true | _ => false end.

(** What [get_faction_members] makes of a payload (lines 98 and 102): the
    value under ['members'] of a dict, [{}] for anything else. *)
Definition members_of (data : pyval) : pyval :=
  match data with
  | VDict d => dict_get d "members" (VDict ∅)
  | _ => VDict ∅
  end.

(** What [get_player_bazaar] makes of a payload (lines 168-188): the value
    under ['bazaar'] of a dict when it has a length, [[]] otherwise. *)
Definition bazaar_of (data : pyval) : pyval :=
  match data with
  | VDict d =>
      match d !! "bazaar" with
      | Some v => if is_list v || is_dict v || is_str v then v else VList []
      | None => VList []
      end
  | _ => VList []
  end.

(** What [get_item_info] makes of a payload (lines 108 and 111). *)
Definition item_of (rt : Runtime) (item_id : pyval) (data : pyval) : pyval :=
  match safe_get rt data "items" (VDict ∅) with
  | Ok (VDict items) => dict_get items (py_str rt item_id) (VDict ∅)
  | _ => VNone
  end.

(** The parameters of an adapter's request: its selection and the key. *)
Definition selection_params (w : World) (selections : string) : gmap string string :=
  <["key" := key_text (api_key (self w))]> {[ "selections" := selections ]}.

(** What the pipeline returns for the GET to [endpoint] with [selections]
    sent from [w]. *)
Definition fetched (rt : Runtime) (w : World) (endpoint selections : string) : pyval :=
  fst (outcome_of rt (request_url w endpoint)
         (network rt (sent w) (request_url w endpoint)
            (selection_params w selections))).

(** A returned listing matches the requested identifier, by one of the
    two tests of [get_item_market]. *)
Definition matches (item_id : Z) (item : pyval) : Prop :=
  primary_match item_id item = true \/ bazaar_match item_id item = true.

(** Nothing went out between [w] and [w']: no GET, no token, no session. *)
Definition quiet (w w' : World) : Prop :=
  sent w' = sent w /\ self w' = self w /\ sessions w' = sessions w
  /\ gets (trace w') = gets (trace w).

(* ===================================================================== *)
(** * Python numbers and their order *)
(* ===================================================================== *)

Module Number.
Import QArith.

(** The value of an int, a bool or a float: a rational, an infinity, or
    not a number. *)
Inductive t : Type :=
| Fin (q : Q)
| PosInf
| NegInf
| NaN.

Definition of_float (f : spec_float) : t :=
  match f with
  | S754_zero _ => Fin 0
  | S754_infinity false => PosInf
  | S754_infinity true => NegInf
  | S754_nan => NaN
  | S754_finite s m e =>
      let mz := if s then Z.neg m else Z.pos m in
      Fin (if (0 <=? e)%Z then inject_Z (mz * 2 ^ e)
           else Qmake mz (Pos.pow 2 (Z.to_pos (- e))))
  end.

Definition of_val (v : pyval) : option t :=
  match v with
  | VInt z => Some (Fin (inject_Z z))
  | VBool b => Some (Fin (inject_Z (if b then 1 else 0)))
  | VFloat f => Some (of_float f)
  | _ => None
  end.

Definition qlt (a b : Q) : bool :=
  (Qnum a * Zpos (Qden b) <? Qnum b * Zpos (Qden a))%Z.

(** [a < b]: exact, as Python compares ints and floats; false whenever
    one side is not a number. *)
Definition lt (a b : t) : bool :=
  match a, b with
  | NaN, _ | _, NaN => false
  | _, NegInf => false
  | NegInf, _ => true
  | PosInf, _ => false
  | Fin _, PosInf => true
  | Fin x, Fin y => qlt x y
  end.

(** A number that compares: anything but NaN. *)
Definition ordered (a : t) : bool :=
  match a with NaN => false | _ => true end.

End Number.

(** [v > 0]; an operand that is no number raises. *)
Definition gt0 (v : pyval) : attempt bool :=
  match Number.of_val v with
  | Some n => Ok (Number.lt (Number.Fin (QArith_base.inject_Z 0)) n)
  | None =>
      Err (TypeError ("'>' not supported between instances of '"
                      +:+ type_name v +:+ "' and 'int'"))
  end.

(** [sorted(l, key=key)] and [l.sort(key=key)]: the stable sort, which
    compares keys with [<] only; written as an insertion from the right,
    which puts an element before the ones of the rest that are not
    smaller. *)
Fixpoint insert_by {A : Type} (key : A -> Number.t) (x : A) (l : list A) : list A :=
  match l with
  | [] => [x]
  | y :: rest =>
      if Number.lt (key y) (key x) then y :: insert_by key x rest
      else x :: y :: rest
  end.

Fixpoint sort_by {A : Type} (key : A -> Number.t) (l : list A) : list A :=
  match l with
  | [] => []
  | x :: rest => insert_by key x (sort_by key rest)
  end.


(* ===================================================================== *)
(** * The commands: bot/commands.py *)
(* ===================================================================== *)

(** The computations the commands make on what the client returned.  What
    they show goes through [create_embed] and [format_number] of
    bot/utils.py and through discord.py, which are not among the sources;
    the model stops at the values. *)

Section Commands.
Context (rt : Runtime).

(** [faction], lines 199-212: one turn of the loop over
    [members_data.items()]. *)
Inductive member_line : Type :=
| Healthy (line : string)
| Hospitalized (line : string)
| NoLine.

Definition member_status (member_id : string) (member_info : pyval) : member_line :=
  match member_info with
  | VDict info =>
      let name := dict_get info "name" (VStr ("User " +:+ member_id)) in
      match dict_get info "status" (VDict ∅) with
      | VDict status =>
          if eq_str (dict_get status "state" (VStr "")) "Hospital"
          then Hospitalized ("🔴 " +:+ py_str rt name)
          else Healthy ("🟢 " +:+ py_str rt name)
      | _ => Healthy ("🟢 " +:+ py_str rt name)
      end
  | _ => NoLine
  end.

(** The two lists the loop builds, lines 196-212; [items] is
    [members_data.items()], in its order. *)
Fixpoint healthy_members (items : list (string * pyval)) : list string :=
  match items with
  | [] => []
  | (member_id, member_info) :: rest =>
      match member_status member_id member_info with
      | Healthy line => line :: healthy_members rest
      | _ => healthy_members rest
      end
  end.

Fixpoint hospitalized_members (items : list (string * pyval)) : list string :=
  match items with
  | [] => []
  | (member_id, member_info) :: rest =>
      match member_status member_id member_info with
      | Hospitalized line => line :: hospitalized_members rest
      | _ => hospitalized_members rest
      end
  end.

(** Lines 216-219 and 227-230: the first ten, and a line for the rest. *)
Definition member_list (members : list string) : list string :=
  if (10 <? length members)%nat
  then take 10 members
       ++ ["... and " +:+ py_str rt (VInt (Z.of_nat (length members) - 10))
           +:+ " more"]
  else take 10 members.

(** [prices], lines 297-307: the listings with a price. *)
Record Listing : Type := { price : pyval; quantity : pyval }.

Fixpoint valid_listings (market_data : list pyval) : attempt (list Listing) :=
  match market_data with
  | [] => Ok []
  | listing :: rest =>
      match listing with
      | VDict d =>
          let p := py_or (dict_get d "cost" (VInt 0)) (dict_get d "price" (VInt 0)) in
          let q := dict_get d "quantity" (VInt 1) in
          if truthy p then
            match gt0 p with
            | Ok true =>
                match valid_listings rest with
                | Ok ls => Ok ({| price := p; quantity := q |} :: ls)
                | Err e => Err e
                end
            | Ok false => valid_listings rest
            | Err e => Err e
            end
          else valid_listings rest
      | _ => valid_listings rest
      end
  end.




(** [bazaar], lines 426-429: the key of the sort, the cost if it is
    positive and infinity otherwise. *)
Definition cost_key (x : pyval) : attempt Number.t :=
  match x with
  | VDict d =>
      match gt0 (dict_get d "cost" (VInt 0)) with
      | Ok true =>
          Ok (default Number.NaN (Number.of_val (dict_get d "cost" (VInt 0))))
      | Ok false => Ok Number.PosInf
      | Err e => Err e
      end
  | _ => Err (AttributeError ("'" +:+ type_name x
                              +:+ "' object has no attribute 'get'"))
  end.

(** The keys of all the items, in order; the first failure ends it. *)
Fixpoint with_keys (bazaar_items : list pyval) : attempt (list (Number.t * pyval)) :=
  match bazaar_items with
  | [] => Ok []
  | x :: rest =>
      match cost_key x with
      | Ok k =>
          match with_keys rest with
          | Ok l => Ok ((k, x) :: l)
          | Err e => Err e
          end
      | Err e => Err e
      end
  end.

(** Lines 426-432: [sorted(bazaar_items, key=...)] and its first 15. *)
Definition sorted_items (bazaar_items : list pyval) : attempt (list pyval) :=
  match with_keys bazaar_items with
  | Ok l => Ok (snd <$> sort_by fst l)
  | Err e => Err e
  end.

Definition items_to_show (bazaar_items : list pyval) : attempt (list pyval) :=
  match sorted_items bazaar_items with
  | Ok l => Ok (take 15 l)
  | Err e => Err e
  end.

(** Lines 461-467: [item_list] cut into fields of [chunk_size] lines, for
    [i] in [range(0, len(item_list), chunk_size)]. *)
Definition chunk_size : nat := 10.

Definition chunk_starts (n : nat) : list nat :=
  (fun k => k * chunk_size)%nat <$> seq 0 ((n + (chunk_size - 1)) / chunk_size).

Definition field_name (i : nat) : string :=
  if (i =? 0)%nat then "🏪 Bazaar Items" else "🏪 Bazaar Items (continued)".

Definition item_fields (item_list : list string) : list (string * list string) :=
  (fun i => (field_name i, take chunk_size (drop i item_list)))
    <$> chunk_starts (length item_list).

End Commands.

(** A member in hospital: a dict whose ['status'] is a dict whose
    ['state'] is the str ['Hospital']. *)
Definition in_hospital (member_info : pyval) : bool :=
  match member_info with
  | VDict info =>
      match info !! "status" with
      | Some (VDict status) =>
          match status !! "state" with
          | Some (VStr s) => String.eqb s "Hospital"
          | _ => false
          end
      | _ => false
      end
  | _ => false
  end.

(** The price and the quantity the [prices] command reads from a
    listing, lines 300-302. *)
Definition listing_of (d : gmap string pyval) : Listing :=
  {| price := py_or (dict_get d "cost" (VInt 0)) (dict_get d "price" (VInt 0));
     quantity := dict_get d "quantity" (VInt 1) |}.



(** The test of line 303, [price and price > 0], on a listing. *)
Definition valid_price (l : Listing) : Prop :=
  truthy (price l) = true /\ gt0 (price l) = Ok true.

(** What the loop of lines 298-307 keeps of one element of
    [market_data]. *)
Definition kept (listing : pyval) : option Listing :=
  match listing with
  | VDict d =>
      if truthy (price (listing_of d)) then
        match gt0 (price (listing_of d)) with
        | Ok true => Some (listing_of d)
        | _ => None
        end
      else None
  | _ => None
  end.

(** An element on which the loop raises: a dict whose price is truthy and
    no number. *)
Definition bad_price (listing : pyval) : Prop :=
  exists d, listing = VDict d
            /\ truthy (price (listing_of d)) = true
            /\ Number.of_val (price (listing_of d)) = None.

(** An item whose key raises: no dict, or a cost that is no number. *)
Definition bad_cost (x : pyval) : Prop :=
  match x with
  | VDict d => Number.of_val (dict_get d "cost" (VInt 0)) = None
  | _ => True
  end.

(** [bazaar], lines 424-429: the sort of what [get_player_bazaar]
    returned, made when that is truthy and of a positive length; [sorted]
    iterates over it, whatever it is.  (The order in which a dict gives
    its keys plays no part: the key function fails on each of them.) *)
Definition bazaar_sorted (bazaar_items : pyval) : attempt (option (list pyval)) :=
  if truthy bazaar_items then
    match len bazaar_items with
    | Ok n =>
        if (0 <? n)%Z then
          match iterate bazaar_items with
          | Ok items =>
              match sorted_items items with
              | Ok l => Ok (Some l)
              | Err e => Err e
              end
          | Err e => Err e
          end
        else Ok None
    | Err e => Err e
    end
  else Ok None.

(** What the pipeline returns for the second GET sent from [w], to
    [endpoint] with [selections]. *)
Definition fetched_next (rt : Runtime) (w : World) (endpoint selections : string)
    : pyval :=
  fst (outcome_of rt (request_url w endpoint)
         (network rt (S (sent w)) (request_url w endpoint)
            (selection_params w selections))).

(** The world after an adapter's request: one more GET sent, the same
    key and base URL, and a limiter that still has a token to give. *)
Definition next_world (w w' : World) : Prop :=
  sent w' = S (sent w)
  /\ api_key (self w') = api_key (self w)
  /\ base_url (self w') = base_url (self w)
  /\ has_tokens w'.

(** The requests of the commands, which they make one after the other
    once their own check of the key has passed: [faction], lines 173-174,
    [prices], lines 268-269, and [bazaar], lines 391-392. *)
Definition faction_fetch (rt : Runtime) (faction_id : Z) : M (pyval * pyval) :=
  faction_data ← get_faction_info rt (VInt faction_id);
  members_data ← get_faction_members rt (VInt faction_id);
  mret (faction_data, members_data).

Definition prices_fetch (rt : Runtime) (item_id : Z) : M (pyval * pyval) :=
  item_info ← get_item_info rt (VInt item_id);
  market_data ← get_item_market rt item_id;
  mret (item_info, market_data).

Definition bazaar_fetch (rt : Runtime) (player_id : Z) : M (pyval * pyval) :=
  player_info ← get_user_profile rt (VInt player_id);
  bazaar_items ← get_player_bazaar rt (VInt player_id);
  mret (player_info, bazaar_items).

(* ===================================================================== *)
(** * What the operations are to return, in the words of the
      specification *)
(* ===================================================================== *)

(** [v] is a number whose value is the int [z]: what [v == z] asks of a
    decoded JSON value. *)
Definition is_int (v : pyval) (z : Z) : Prop :=
  exists q, Number.of_val v = Some (Number.Fin q)
            /\ QArith_base.Qeq q (QArith_base.inject_Z z).

(** A listing whose field [field] equals the requested identifier. *)
Definition field_equals (field : string) (item_id : Z) (item : pyval) : Prop :=
  exists d v, item = VDict d /\ d !! field = Some v /\ is_int v item_id.

(** The first truthy value of the candidates, and the last candidate when
    none is truthy. *)
Fixpoint first_truthy (candidates : list pyval) : pyval :=
  match candidates with
  | [] => VNone
  | v :: rest =>
      match rest with
      | [] => v
      | _ => if truthy v then v else first_truthy rest
      end
  end.

(** The identifier of a listing of the primary feed: the first truthy
    value among its fields ['item_id'], ['ID'] and ['itemID'], a missing
    field counting as [None]. *)
Definition identifier (d : gmap string pyval) : pyval :=
  first_truthy [default VNone (d !! "item_id");
                default VNone (d !! "ID");
                default VNone (d !! "itemID")].

(** A listing of the primary feed whose identifier equals the requested
    one. *)
Definition identified (item_id : Z) (item : pyval) : Prop :=
  exists d, item = VDict d /\ is_int (identifier d) item_id.

(** [None], or a decoded payload: a dict, a list or a str of which
    ['error'] is no key, element or part. *)
Definition payload_or_none (v : pyval) : Prop :=
  v = VNone
  \/ (is_dict v || is_list v || is_str v = true /\ contains "error" v = Ok false).

(** The sessions the GETs of a trace went through, in order. *)
Fixpoint sessions_used (tr : list event) : list nat :=
  match tr with
  | [] => []
  | Get h _ _ :: rest => h :: sessions_used rest
  | _ :: rest => sessions_used rest
  end.

(** The name the faction command shows for a member: its ['name'], or
    ['User <id>'] when it has none. *)
Definition member_name (rt : Runtime) (member : string * pyval) : string :=
  match snd member with
  | VDict info =>
      py_str rt (default (VStr ("User " +:+ fst member)) (info !! "name"))
  | _ => ""
  end.

(* ===================================================================== *)
(** * More concrete worlds and payloads *)
(* ===================================================================== *)

Module Sample.

(** The world after one request that was answered 503: a session is
    cached and open. *)
Definition after_one : World :=
  snd (_make_request (Example.runtime Example.net_503) "user/1" None Example.world).

Definition member (name state : string) : pyval :=
  VDict {[ "name" := VStr name; "status" := VDict {[ "state" := VStr state ]} ]}.

(** A faction of two, one of them in hospital. *)
Definition members : pyval :=
  VDict {[ "1" := member "Ann" "Hospital"; "2" := member "Bob" "Okay" ]}.

Definition net_members : nat -> string -> gmap string string -> reply :=
  fun _ _ _ => Response 200 (Json (VDict {[ "members" := members ]})).

Definition net_bazaar : nat -> string -> gmap string string -> reply :=
  fun _ _ _ =>
    Response 200 (Json (VDict {[ "bazaar" := VList [Example.listing 3 10] ]})).

Definition net_items : nat -> string -> gmap string string -> reply :=
  fun _ _ _ =>
    Response 200
      (Json (VDict {[ "items" :=
                        VDict {[ "7" := VDict {[ "name" := VStr "Sword" ]} ]} ]})).

(** Market data: three listings with a price above 0, a str, and a
    listing whose cost is 0. *)
Definition market_data : list pyval :=
  [ VDict {[ "cost" := VInt 30 ]};
    VStr "x";
    VDict {[ "price" := VInt 10 ]};
    VDict {[ "cost" := VInt 0 ]};
    VDict {[ "cost" := VInt 20; "quantity" := VInt 2 ]} ].

Definition listings : list Listing :=
  [ {| price := VInt 30; quantity := VInt 1 |};
    {| price := VInt 10; quantity := VInt 1 |};
    {| price := VInt 20; quantity := VInt 2 |} ].

(** Bazaar items: one without a cost between two with one. *)
Definition bazaar_items : list pyval :=
  [ VDict {[ "cost" := VInt 30 ]};
    VDict {[ "name" := VStr "free" ]};
    VDict {[ "cost" := VInt 10 ]} ].

(** The same items, the cheapest first and the one without a cost last. *)
Definition sorted : list pyval :=
  [ VDict {[ "cost" := VInt 10 ]};
    VDict {[ "cost" := VInt 30 ]};
    VDict {[ "name" := VStr "free" ]} ].

(** A listing whose cost is a str. *)
Definition bad_market_data : list pyval :=
  [ VDict {[ "cost" := VInt 30 ]}; VDict {[ "cost" := VStr "1,000" ]} ].

(** The provider answers with a number where the members should be, and
    with a bool where an item of the catalogue should be. *)
Definition net_members_int : nat -> string -> gmap string string -> reply :=
  fun _ _ _ => Response 200 (Json (VDict {[ "members" := VInt 5 ]})).

Definition net_items_bool : nat -> string -> gmap string string -> reply :=
  fun _ _ _ =>
    Response 200
      (Json (VDict {[ "items" := VDict {[ "7" := VBool true ]} ]})).

(** The primary feed lists item 9 under ['item_id'] and 7 under ['ID'] in
    one listing, item 7 twice, and a str; the secondary feed lists items
    42, 8 and 42, a listing without ['ID'] and a str. *)
Definition both_ids : pyval :=
  VDict {[ "item_id" := VInt 9; "ID" := VInt 7 ]}.

Definition net_market_mixed : nat -> string -> gmap string string -> reply :=
  fun _ url _ =>
    if String.eqb url "https://api.torn.com/itemmarket" then
      Response 200
        (Json (VDict {[ "itemmarket" :=
                          VList [both_ids; Example.listing 7 100; VStr "7";
                                 VDict {[ "itemID" := VInt 7 ]}] ]}))
    else
      Response 200
        (Json (VDict {[ "bazaar" :=
                          VList [Example.listing 42 50; Example.listing 8 1;
                                 VDict {[ "item_id" := VInt 42 ]}; VStr "42";
                                 Example.listing 42 60] ]})).

(** The world after one request and a [close()]: no session is open. *)
Definition after_close : World := snd (close after_one).

(** Three entries of a faction: one in hospital, one not, and one that
    is no dict. *)
Definition member_items : list (string * pyval) :=
  [ ("1", member "Ann" "Hospital"); ("2", member "Bob" "Okay"); ("3", VInt 0);
    ("4", VDict {[ "status" := VStr "Hospital" ]}) ].

(** A payload whose bazaar is a dict keyed by item, not a list. *)
Definition keyed_bazaar : pyval :=
  VDict {[ "bazaar" := VDict {[ "1" := Example.listing 3 10 ]} ]}.

End Sample.
(* ===================================================================== *)
(** * The tests of the market lookup, in the words of the specification *)
(* ===================================================================== *)

Lemma float_eq_int_value f z :
  float_eq_int f z = true
  <-> exists q, Number.of_float f = Number.Fin q
                /\ QArith_base.Qeq q (QArith_base.inject_Z z).
Proof.
  unfold QArith_base.Qeq.
  destruct f as [s|s| |s m e]; simpl.
  - rewrite Z.eqb_eq. split.
    + intros ->. by eexists.
    + intros (q & [= <-] & Hq). simpl in Hq. lia.
  - split; [done|]. by destruct s; intros (q & [=] & _).
  - split; [done|]. by intros (q & [=] & _).
  - destruct (0 <=? e) eqn:He.
    + rewrite Z.eqb_eq. split.
      * intros <-. eexists. split; [done|]. done.
      * intros (q & [= <-] & Hq). simpl in Hq. lia.
    + apply Z.leb_gt in He. rewrite Z.eqb_eq.
      assert (Hp : Z.pos (2 ^ Z.to_pos (- e)) = 2 ^ (- e)).
      { rewrite Pos2Z.inj_pow, Z2Pos.id by lia. done. }
      split.
      * intros Hm. eexists. split; [done|]. simpl. rewrite Hp. lia.
      * intros (q & [= <-] & Hq). simpl in Hq. rewrite Hp in Hq. lia.
Qed.

Lemma eq_int_is_int v z : eq_int v z = true <-> is_int v z.
Proof.
  unfold is_int. destruct v as [|b|y|f|s|l|d]; simpl;
    try (split; [done|by intros (q & [=] & _)]).
  - rewrite Z.eqb_eq. unfold QArith_base.Qeq. split.
    + intros <-. by eexists.
    + intros (q & [= <-] & Hq). simpl in Hq. lia.
  - rewrite Z.eqb_eq. unfold QArith_base.Qeq. split.
    + intros <-. by eexists.
    + intros (q & [= <-] & Hq). simpl in Hq. lia.
  - rewrite float_eq_int_value. split.
    + intros (q & Hf & Hq). exists q. by rewrite Hf.
    + intros (q & [= Hf] & Hq). by exists q.
Qed.

Lemma bazaar_match_spec item_id item :
  bazaar_match item_id item = true <-> field_equals "ID" item_id item.
Proof.
  unfold bazaar_match, field_equals. destruct item as [|b|y|f|s|l|d];
    try (split; [done|by intros (? & ? & [=] & _)]).
  rewrite eq_int_is_int. unfold dict_get. split.
  - intros H. destruct (d !! "ID") as [v|] eqn:Hv; simpl in H.
    + by exists d, v.
    + by destruct H as (q & [=] & _).
  - intros (d' & v & [= <-] & Hv & Hi). by rewrite Hv.
Qed.

Lemma item_market_id_identifier d : item_market_id d = identifier d.
Proof.
  unfold item_market_id, identifier, py_or, dict_get. simpl.
  destruct (truthy (default VNone (d !! "item_id"))) eqn:H1; simpl;
    rewrite ?H1; done.
Qed.

Lemma primary_match_spec item_id item :
  primary_match item_id item = true <-> identified item_id item.
Proof.
  unfold primary_match, identified. destruct item as [|b|y|f|s|l|d];
    try (split; [done|by intros (? & [=] & _)]).
  rewrite eq_int_is_int, item_market_id_identifier. split.
  - intros H. by exists d.
  - by intros (d' & [= <-] & H).
Qed.

Lemma elem_of_filter_bool {A} (P : A -> bool) (l : list A) (x : A) :
  x ∈ List.filter P l <-> x ∈ l /\ P x = true.
Proof.
  induction l as [|y l IH]; simpl.
  - rewrite elem_of_nil. tauto.
  - destruct (P y) eqn:Hy; rewrite ?elem_of_cons, IH, ?elem_of_cons.
    + split; [intros [->|[? ?]]; tauto | tauto].
    + split; [tauto|]. intros [[->|?] ?]; [congruence|tauto].
Qed.

(* ===================================================================== *)
(** * Properties of the rate limiter *)
(* ===================================================================== *)

Section RateLimiterFacts.
Import RateLimiter.

Lemma ordered_tail g l : ordered (g :: l) -> ordered l.
Proof.
  intros H i j x y Hij Hi Hj.
  apply (H (S i) (S j) x y); [lia | exact Hi | exact Hj].
Qed.

Lemma spaced_tail cap w g l : spaced cap w (g :: l) -> spaced cap w l.
Proof.
  intros H i x y Hi Hj. apply (H (S i) x y); [exact Hi | exact Hj].
Qed.

Lemma wf_init cap w : wf (init cap w).
Proof.
  split; [intros i j g h _ Hi | intros i g h Hi]; simpl in Hi;
    rewrite lookup_nil in Hi; discriminate.
Qed.

Lemma not_before_ge rl now : now <= not_before rl now.
Proof. unfold not_before. destruct (grants rl); lia. Qed.

Lemma not_before_head rl now g l :
  grants rl = g :: l -> g <= not_before rl now.
Proof. unfold not_before. intros ->. lia. Qed.

Lemma next_slot_ge rl now g : next_slot rl now = Some g -> now <= g.
Proof.
  unfold next_slot. pose proof (not_before_ge rl now).
  destruct (capacity rl) as [|k]; [discriminate|].
  destruct (grants rl !! k); intros [= <-]; lia.
Qed.

Lemma next_slot_some rl now :
  (0 < capacity rl)%nat -> exists g, next_slot rl now = Some g.
Proof.
  unfold next_slot. destruct (capacity rl) as [|k]; [lia|]. eauto.
Qed.

Lemma wf_acquire rl now : wf rl -> wf (snd (acquire rl now)).
Proof.
  intros [Hord Hsp]. unfold acquire.
  destruct (next_slot rl now) as [g|] eqn:Hslot; simpl; [|by split].
  unfold next_slot in Hslot.
  destruct (capacity rl) as [|k] eqn:Hcap; [discriminate|].
  assert (Hhead : forall h, grants rl !! 0%nat = Some h -> h <= g).
  { intros h Hh. destruct (grants rl) as [|x l] eqn:Hg; [discriminate|].
    simpl in Hh. injection Hh as ->.
    pose proof (not_before_head rl now h l Hg).
    destruct ((h :: l) !! k); injection Hslot as <-; lia. }
  split; simpl.
  - intros i j x y Hij Hi Hj. destruct i as [|i], j as [|j]; simpl in *.
    + injection Hi as <-. injection Hj as <-. lia.
    + injection Hi as <-.
      destruct (grants rl !! 0%nat) as [h|] eqn:Hh.
      * pose proof (Hord 0%nat j h y ltac:(lia) Hh Hj).
        pose proof (Hhead h eq_refl). lia.
      * apply lookup_ge_None in Hh. apply lookup_lt_Some in Hj. lia.
    + lia.
    + apply (Hord i j x y); [lia | done | done].
  - intros i x y Hi Hj. destruct i as [|i]; simpl in *.
    + injection Hi as <-. rewrite Hj in Hslot. injection Hslot as <-. lia.
    + apply (Hsp i x y); [done | exact Hj].
Qed.

Lemma wf_run arrivals : forall rl, wf rl -> wf (run rl arrivals).
Proof.
  induction arrivals as [|now rest IH]; intros rl Hwf; simpl; [done|].
  apply IH, wf_acquire, Hwf.
Qed.

Lemma capacity_acquire rl now : capacity (snd (acquire rl now)) = capacity rl.
Proof. unfold acquire. by destruct (next_slot rl now). Qed.

Lemma window_acquire rl now : window (snd (acquire rl now)) = window rl.
Proof. unfold acquire. by destruct (next_slot rl now). Qed.

Lemma capacity_run arrivals : forall rl, capacity (run rl arrivals) = capacity rl.
Proof.
  induction arrivals as [|now rest IH]; intros rl; simpl; [done|].
  by rewrite IH, capacity_acquire.
Qed.

Lemma window_run arrivals : forall rl, window (run rl arrivals) = window rl.
Proof.
  induction arrivals as [|now rest IH]; intros rl; simpl; [done|].
  by rewrite IH, window_acquire.
Qed.

Lemma filter_length_le (P : Z -> bool) l : (length (List.filter P l) <= length l)%nat.
Proof. induction l as [|x l IH]; simpl; [lia|]. destruct (P x); simpl; lia. Qed.

Lemma filter_none (P : Z -> bool) l :
  (forall i x, l !! i = Some x -> P x = false) -> List.filter P l = [].
Proof.
  induction l as [|x l IH]; intros H; simpl; [done|].
  rewrite (H 0%nat x eq_refl). apply IH. intros i y Hy. apply (H (S i) y Hy).
Qed.

Lemma filter_take_drop (P : Z -> bool) n l :
  List.filter P l = List.filter P (take n l) ++ List.filter P (drop n l).
Proof. by rewrite <- List.filter_app, take_drop. Qed.

(** In a well-formed log no window of length [w] holds more than [cap]
    grants. *)
Lemma spaced_window_bound cap w a l :
  ordered l -> spaced cap w l ->
  (length (List.filter (in_window a w) l) <= cap)%nat.
Proof.
  induction l as [|g l IH]; intros Hord Hsp; simpl; [lia|].
  pose proof (IH (ordered_tail _ _ Hord) (spaced_tail _ _ _ _ Hsp)) as IH'.
  destruct (in_window a w g) eqn:Hg; [|exact IH'].
  unfold in_window in Hg. apply andb_true_iff in Hg as [Ha Hb].
  apply Z.leb_le in Ha. apply Z.ltb_lt in Hb.
  destruct cap as [|k].
  { pose proof (Hsp 0%nat g g eq_refl eq_refl). lia. }
  simpl. apply le_n_S.
  rewrite (filter_take_drop _ k l).
  rewrite (filter_none _ (drop k l)).
  - rewrite app_nil_r.
    etrans; [apply filter_length_le|]. rewrite length_take. lia.
  - intros i x Hx. rewrite lookup_drop in Hx.
    unfold in_window. apply andb_false_iff. left. apply Z.leb_gt.
    destruct (l !! k) as [h|] eqn:Hk.
    + pose proof (Hsp 0%nat g h eq_refl Hk).
      pose proof (ordered_tail _ _ Hord k (k + i)%nat h x ltac:(lia) Hk Hx).
      lia.
    + apply lookup_ge_None in Hk. apply lookup_lt_Some in Hx. lia.
Qed.

(** The granted instant is one at which a token is available. *)
Lemma next_slot_token rl now g :
  wf rl -> next_slot rl now = Some g -> (0 < tokens rl g)%nat.
Proof.
  intros [Hord Hsp] Hslot. unfold tokens, in_use, next_slot in *.
  destruct (capacity rl) as [|k]; [discriminate|].
  rewrite (filter_take_drop _ k (grants rl)).
  rewrite (filter_none _ (drop k (grants rl))).
  - rewrite app_nil_r.
    pose proof (filter_length_le (fun x => g - window rl <? x) (take k (grants rl))).
    rewrite length_take in H. lia.
  - intros i x Hx. rewrite lookup_drop in Hx. apply Z.ltb_ge.
    destruct (grants rl !! k) as [h|] eqn:Hk.
    + pose proof (Hord k (k + i)%nat h x ltac:(lia) Hk Hx).
      injection Hslot as <-. lia.
    + apply lookup_ge_None in Hk. apply lookup_lt_Some in Hx. lia.
Qed.

Lemma filter_all (P : Z -> bool) l :
  (forall i x, l !! i = Some x -> P x = true) -> List.filter P l = l.
Proof.
  induction l as [|x l IH]; intros H; simpl; [done|].
  rewrite (H 0%nat x eq_refl). f_equal. apply IH.
  intros i y Hy. apply (H (S i) y Hy).
Qed.

(** And it is the first such instant from the caller's turn on: before
    it the bucket is empty. *)
Lemma next_slot_earliest rl now g t :
  wf rl -> next_slot rl now = Some g ->
  not_before rl now <= t < g -> tokens rl t = 0%nat.
Proof.
  intros [Hord Hsp] Hslot [Hlo Hhi]. unfold tokens, in_use, next_slot in *.
  destruct (capacity rl) as [|k]; [discriminate|].
  destruct (grants rl !! k) as [h|] eqn:Hk; injection Hslot as <-; [|lia].
  assert (Hlen : (k < length (grants rl))%nat) by (by eapply lookup_lt_Some).
  rewrite (filter_take_drop _ (S k) (grants rl)).
  rewrite (filter_all _ (take (S k) (grants rl))).
  - rewrite length_app, length_take. lia.
  - intros i x Hx. apply Z.ltb_lt.
    assert (Hi : (i < S k)%nat).
    { apply lookup_lt_Some in Hx. rewrite length_take in Hx. lia. }
    rewrite lookup_take_lt in Hx by done.
    pose proof (Hord i k x h ltac:(lia) Hx Hk). lia.
Qed.

End RateLimiterFacts.

(** The limiter proper: the bound on every window, and the grant. *)
Lemma run_window_bound (cap : nat) (w : Z) (arrivals : list Z) :
  let rl := RateLimiter.run (RateLimiter.init cap w) arrivals in
  (forall a, (RateLimiter.completed_in rl a <= cap)%nat)
  /\ (forall now, (0 < cap)%nat ->
        exists g, fst (RateLimiter.acquire rl now) = RateLimiter.Granted g
                  /\ now <= g /\ (0 < RateLimiter.tokens rl g)%nat).
Proof.
  intros rl.
  assert (Hwf : RateLimiter.wf rl) by apply wf_run, wf_init.
  assert (Hcap : RateLimiter.capacity rl = cap) by apply capacity_run.
  split.
  - intros a. unfold RateLimiter.completed_in.
    destruct Hwf as [Hord Hsp]. rewrite Hcap in Hsp.
    by apply spaced_window_bound.
  - intros now Hpos.
    destruct (next_slot_some rl now) as [g Hg]; [lia|].
    exists g. unfold RateLimiter.acquire. rewrite Hg. simpl.
    split; [done|]. split; [by eapply next_slot_ge | by eapply next_slot_token].
Qed.

(* ===================================================================== *)
(** * Rules for triples *)
(* ===================================================================== *)

Section Rules.
Context (I : World -> Prop).

Lemma triple_ret {A} (rs pd : bool) (a : A) (R : A -> Prop) :
  R a -> triple I rs pd (mret a) R.
Proof. intros Ha w Hw. by split. Qed.

Lemma triple_bind {A B} (rs pd : bool) (m : M A) (k : A -> M B)
    (R1 : A -> Prop) (R : B -> Prop) :
  triple I rs pd m R1 ->
  (forall a, R1 a -> triple I rs pd (k a) R) ->
  triple I rs pd (m ≫= k) R.
Proof.
  intros Hm Hk w Hw. unfold mbind, M_bind, bind.
  destruct (Hm w Hw) as [Hi Hr].
  destruct (m w) as [[a|e|] w1]; simpl in *; [|by split..].
  apply (Hk a Hr w1 Hi).
Qed.

Lemma triple_try {A} (rs pd : bool) (m : M A) (h : exn -> M A) (R : A -> Prop) :
  triple I true pd m R ->
  (forall e, triple I rs pd (h e) R) ->
  triple I rs pd (try_except m h) R.
Proof.
  intros Hm Hh w Hw. unfold try_except.
  destruct (Hm w Hw) as [Hi Hr].
  destruct (m w) as [[a|e|] w1]; simpl in *; [by split| |by split].
  apply (Hh e w1 Hi).
Qed.

Lemma triple_weaken {A} (rs rs' pd pd' : bool) (m : M A) (R R' : A -> Prop) :
  triple I rs pd m R ->
  (rs = true -> rs' = true) -> (pd = true -> pd' = true) ->
  (forall a, R a -> R' a) ->
  triple I rs' pd' m R'.
Proof.
  intros Hm Hrs Hpd HR w Hw. destruct (Hm w Hw) as [Hi Hr]. split; [done|].
  destruct (fst (m w)); auto.
Qed.

Lemma triple_read {A} (rs pd : bool) (k : World -> M A) (R : A -> Prop) :
  (forall w0, triple I rs pd (k w0) R) ->
  triple I rs pd (read_world ≫= k) R.
Proof. intros Hk w Hw. apply (Hk w w Hw). Qed.

Lemma triple_lift {A} (pd : bool) (a : attempt A) :
  triple I true pd (lift a) (fun _ => True).
Proof. intros w Hw. by destruct a. Qed.

Lemma triple_raise {A} (pd : bool) (e : exn) (R : A -> Prop) :
  triple I true pd (raise e) R.
Proof. intros w Hw. by split. Qed.

End Rules.

(* ===================================================================== *)
(** * Every operation keeps a stable invariant, and does not raise *)
(* ===================================================================== *)

Section Stable.
Context (rt : Runtime) (I : World -> Prop) (pd : bool).
Context (Hst : stable rt I pd).

Lemma triple_log rs lv msg : triple I rs pd (log lv msg) (fun _ => True).
Proof. intros w Hw. split; [by apply (stable_emit _ _ _ Hst)|done]. Qed.

Lemma triple_acquire rs : triple I rs pd acquire (fun _ => True).
Proof.
  intros w Hw. destruct (stable_acquire _ _ _ Hst w Hw) as [Hi Hp].
  split; [done|]. revert Hp. unfold acquire.
  destruct (RateLimiter.acquire _ _) as [[g|] rl]; simpl; auto.
Qed.

Lemma triple_new_dict rs d : triple I rs pd (new_dict d) (fun _ => True).
Proof. intros w Hw. split; [by apply (stable_new_dict _ _ _ Hst)|done]. Qed.

Lemma triple_setitem rs r k v : triple I rs pd (setitem r k v) (fun _ => True).
Proof. intros w Hw. split; [by apply (stable_setitem _ _ _ Hst)|done]. Qed.

Lemma _get_session_returns w : exists h, fst (_get_session w) = Return h.
Proof.
  unfold _get_session, mbind, M_bind, bind, read_world. simpl.
  destruct (session (self w)) as [h|]; [destruct (is_closed w h)|]; simpl; eauto.
Qed.

Lemma triple_get_session rs : triple I rs pd _get_session (fun _ => True).
Proof.
  intros w Hw. split; [by apply (stable_get_session _ _ _ Hst)|].
  by destruct (_get_session_returns w) as [h ->].
Qed.

Lemma triple_session_get h url r :
  triple I true pd (session_get rt h url r) (fun _ => True).
Proof.
  intros w Hw. split; [by apply (stable_session_get _ _ _ Hst)|].
  unfold session_get. destruct (is_closed w h); [done|].
  by destruct (network rt _ _ _).
Qed.

Lemma triple_json b : triple I true pd (json b) (fun _ => True).
Proof. intros w Hw. by destruct b. Qed.

Lemma triple_close rs : triple I rs pd close (fun _ => True).
Proof.
  intros w Hw. split; [by apply (stable_close _ _ _ Hst)|].
  unfold close, mbind, M_bind, bind, read_world, close_session. simpl.
  destruct (session (self w)) as [h|]; [|done].
  destruct (is_closed w h); [done|]. by destruct (sessions w !! h).
Qed.

End Stable.

(** One step of a derivation: the rule for the head of the coroutine. *)
Ltac triple_step :=
  lazymatch goal with
  | |- triple _ _ _ (read_world ≫= _) _ => apply triple_read; intros ?
  | |- triple _ _ _ (_ ≫= _) _ => eapply triple_bind; [|intros ? _]
  | |- triple _ _ _ (try_except _ _) _ => apply triple_try; [|intros ?]
  | |- triple _ _ _ (mret _) _ =>
      first [by apply triple_ret | by apply triple_ret with (R := fun _ => True)]
  | |- triple _ _ _ (log _ _) _ => eapply triple_log; eassumption
  | |- triple _ _ _ acquire _ => eapply triple_acquire; eassumption
  | |- triple _ _ _ (new_dict _) _ => eapply triple_new_dict; eassumption
  | |- triple _ _ _ (setitem _ _ _) _ => eapply triple_setitem; eassumption
  | |- triple _ _ _ _get_session _ => eapply triple_get_session; eassumption
  | |- triple _ _ _ (session_get _ _ _ _) _ => eapply triple_session_get; eassumption
  | |- triple _ _ _ (json _) _ => apply triple_json
  | |- triple _ _ _ (lift _) _ => apply triple_lift
  | |- triple _ _ _ (raise _) _ => apply triple_raise
  | |- triple _ _ _ (if ?b then _ else _) _ => destruct b
  | |- triple _ _ _ (match ?x with _ => _ end) _ => destruct x
  end.

Section Operations.
Context (rt : Runtime) (I : World -> Prop) (pd : bool).
Context (Hst : stable rt I pd).

Lemma triple_make_request rs endpoint params :
  triple I rs pd (_make_request rt endpoint params) (fun _ => True).
Proof. unfold _make_request. repeat triple_step. Qed.

Ltac triple_steps :=
  repeat first
    [ triple_step
    | eapply triple_make_request; eassumption ].

Lemma triple_get_user_profile rs user_id :
  triple I rs pd (get_user_profile rt user_id) (fun _ => True).
Proof. unfold get_user_profile. triple_steps. Qed.

Lemma triple_get_faction_info rs faction_id :
  triple I rs pd (get_faction_info rt faction_id) (fun _ => True).
Proof. unfold get_faction_info. triple_steps. Qed.

Lemma triple_get_faction_members rs faction_id :
  triple I rs pd (get_faction_members rt faction_id) (fun _ => True).
Proof. unfold get_faction_members. triple_steps. Qed.

Lemma triple_get_item_info rs item_id :
  triple I rs pd (get_item_info rt item_id) (fun _ => True).
Proof. unfold get_item_info. triple_steps. Qed.

Lemma triple_get_player_bazaar rs player_id :
  triple I rs pd (get_player_bazaar rt player_id) (fun _ => True).
Proof. unfold get_player_bazaar. triple_steps. Qed.

(** [get_item_market] returns a list whenever it returns. *)
Lemma triple_get_item_market rs item_id :
  triple I rs pd (get_item_market rt item_id) (fun v => is_list v = true).
Proof. unfold get_item_market, get_item_market_try. triple_steps. Qed.

End Operations.

(* ===================================================================== *)
(** * Three stable invariants *)
(* ===================================================================== *)

Lemma stable_True rt : stable rt (fun _ => True) true.
Proof. by split. Qed.

Lemma acquire_self_session w :
  session (self (snd (acquire w))) = session (self w)
  /\ sessions (snd (acquire w)) = sessions w.
Proof.
  unfold acquire. by destruct (RateLimiter.acquire _ _) as [[g|] rl].
Qed.

Lemma _get_session_self_limiter w :
  rate_limiter (self (snd (_get_session w))) = rate_limiter (self w).
Proof.
  unfold _get_session, mbind, M_bind, bind, read_world. simpl.
  destruct (session (self w)) as [h|]; [destruct (is_closed w h)|]; done.
Qed.

Lemma close_self w : self (snd (close w)) = self w.
Proof.
  unfold close, mbind, M_bind, bind, read_world, close_session. simpl.
  destruct (session (self w)) as [h|]; [|done].
  destruct (is_closed w h); [done|]. by destruct (sessions w !! h).
Qed.

Lemma session_get_self rt h url r w :
  self (snd (session_get rt h url r w)) = self w
  /\ sessions (snd (session_get rt h url r w)) = sessions w.
Proof.
  unfold session_get. destruct (is_closed w h); [done|].
  by destruct (network rt _ _ _).
Qed.

Lemma stable_has_tokens rt : stable rt has_tokens false.
Proof.
  split; unfold has_tokens; try done.
  - intros w Hw. unfold acquire.
    pose proof (capacity_acquire (rate_limiter (self w)) (clock w)) as Hc.
    destruct (next_slot_some (rate_limiter (self w)) (clock w) Hw) as [g Hg].
    unfold RateLimiter.acquire in *. rewrite Hg in *. simpl in *.
    split; [lia | done].
  - intros w Hw. by rewrite _get_session_self_limiter.
  - intros h url r w Hw. by rewrite (proj1 (session_get_self rt h url r w)).
  - intros w Hw. by rewrite close_self.
Qed.

Lemma live_lookup w h :
  live w h <-> exists s, sessions w !! h = Some s /\ closed s = false.
Proof.
  unfold live, is_closed. destruct (sessions w !! h) as [s|]; split.
  - eauto.
  - by intros (s' & [= <-] & Hs).
  - done.
  - by intros (s' & [=] & _).
Qed.

(** A new session object is the only live one when the cached one, if
    any, is closed. *)
Lemma one_live_new_session w :
  one_live w ->
  (forall h, session (self w) = Some h -> is_closed w h = true) ->
  one_live (snd ((h' ← new_session; cache_session h';; mret h') w)).
Proof.
  intros Hone Hclosed h Hlive. simpl in *.
  apply live_lookup in Hlive as (s & Hs & Hopen). simpl in Hs.
  destruct (decide (h < length (sessions w))%nat) as [Hlt|Hge].
  - rewrite lookup_app_l in Hs by done.
    assert (Hl : live w h) by (apply live_lookup; eauto).
    pose proof (Hone h Hl) as Hc. apply Hclosed in Hc.
    unfold live in Hl. congruence.
  - f_equal. apply lookup_lt_Some in Hs. rewrite length_app in Hs.
    simpl in Hs. lia.
Qed.

Lemma one_live_get_session w : one_live w -> one_live (snd (_get_session w)).
Proof.
  intros Hone. unfold _get_session.
  change ((read_world ≫= ?k) w) with (k w w); cbv beta.
  destruct (session (self w)) as [h|] eqn:Hs.
  - destruct (is_closed w h) eqn:Hc; [|exact Hone].
    apply one_live_new_session; [done|]. intros h0. rewrite Hs. by intros [= <-].
  - apply one_live_new_session; [done|]. intros h0. by rewrite Hs.
Qed.

Lemma one_live_close w : one_live w -> one_live (snd (close w)).
Proof.
  intros Hone. unfold close.
  change ((read_world ≫= ?k) w) with (k w w); cbv beta.
  destruct (session (self w)) as [h|] eqn:Hs; [|exact Hone].
  destruct (is_closed w h) eqn:Hc; [exact Hone|].
  unfold close_session. destruct (sessions w !! h) as [s|] eqn:Hh; [|exact Hone].
  intros h0 Hlive. simpl. rewrite Hs. f_equal.
  apply live_lookup in Hlive as (s0 & Hs0 & Hopen). simpl in Hs0.
  destruct (decide (h0 = h)) as [->|Hne]; [done|].
  rewrite list_lookup_insert_ne in Hs0 by done.
  assert (Hl : live w h0) by (apply live_lookup; eauto).
  pose proof (Hone h0 Hl). congruence.
Qed.

Lemma stable_one_live rt : stable rt one_live true.
Proof.
  split; try done.
  - intros w Hone. split; [|done]. intros h Hl.
    destruct (acquire_self_session w) as [Hs Hss]. rewrite Hs.
    apply Hone. unfold live, is_closed in *. by rewrite <- Hss.
  - apply one_live_get_session.
  - intros h url r w Hone h0 Hl.
    destruct (session_get_self rt h url r w) as [Hs Hss]. rewrite Hs.
    apply Hone. unfold live, is_closed in *. by rewrite <- Hss.
  - apply one_live_close.
Qed.

(* ===================================================================== *)
(** * What [_make_request] does *)
(* ===================================================================== *)

Lemma lookup_snoc {A} (l : list A) (x : A) : (l ++ [x]) !! length l = Some x.
Proof. rewrite lookup_app_r by lia. by rewrite Nat.sub_diag. Qed.

Lemma insert_snoc {A} (l : list A) (x y : A) :
  <[length l := y]> (l ++ [x]) = l ++ [y].
Proof.
  rewrite insert_app_r_alt by lia. by rewrite Nat.sub_diag.
Qed.

Lemma bind_return {A B} (m : M A) (k : A -> M B) w a w1 :
  m w = (Return a, w1) -> (m ≫= k) w = k a w1.
Proof. intros H. unfold mbind, M_bind, bind. by rewrite H. Qed.

Lemma read_world_bind {A} (k : World -> M A) w : (read_world ≫= k) w = k w w.
Proof. done. Qed.

Lemma _get_session_eq w :
  _get_session w = (Return (request_session w), with_session w).
Proof.
  unfold _get_session. rewrite read_world_bind.
  unfold request_session, with_session, cached_live.
  destruct (session (self w)) as [h|]; [destruct (is_closed w h)|]; done.
Qed.

Lemma with_session_live w : is_closed (with_session w) (request_session w) = false.
Proof.
  unfold request_session, with_session, cached_live.
  destruct (session (self w)) as [h|]; [destruct (is_closed w h) eqn:Hc|];
    simpl; try done; unfold is_closed; simpl; by rewrite lookup_snoc.
Qed.

Lemma with_session_frame w :
  dicts (with_session w) = dicts w /\ sent (with_session w) = sent w
  /\ clock (with_session w) = clock w.
Proof. unfold with_session. by destruct (cached_live w). Qed.

(** The [try] statement of [_make_request], from any world. *)
Lemma request_block_eq rt url r w :
  try_except
    (h ← _get_session;
     resp ← session_get rt h url r;
     if fst resp =? 200 then
       data ← json (snd resp);
       has_error ← lift (contains "error" data);
       if (has_error : bool) then
         detail ← lift (getitem data "error");
         log ERROR ("API error: " +:+ py_str rt detail);;
         mret VNone
       else mret data
     else
       log ERROR ("HTTP error " +:+ py_str rt (VInt (fst resp))
                  +:+ " for " +:+ url);;
       mret VNone)
    (fun e =>
       match e with
       | TimeoutError =>
           log ERROR ("Timeout for API request to " +:+ url);;
           mret VNone
       | _ =>
           log ERROR ("Error making API request to " +:+ url
                      +:+ ": " +:+ exn_str e);;
           mret VNone
       end) w
  = let w1 := with_session w in
    let h := request_session w in
    let p := deref w r in
    let out := outcome_of rt url (network rt (sent w) url p) in
    (Return (fst out),
     {| self := self w1; dicts := dicts w1; sessions := sessions w1;
        clock := clock w1; sent := S (sent w1);
        trace := (trace w1 ++ [Get h url p]) ++ logged (snd out) |}).
Proof.
  cbv zeta. unfold try_except.
  rewrite (bind_return _ _ _ _ _ (_get_session_eq w)).
  pose proof (with_session_live w) as Hlive.
  destruct (with_session_frame w) as (Hd & Hs & _).
  unfold mbind, M_bind, bind, session_get. rewrite Hlive.
  unfold deref. rewrite Hd, Hs.
  destruct (network rt (sent w) url (default ∅ (dicts w !! r))) as [status b|e];
    simpl.
  - destruct (status =? 200); simpl.
    + destruct b as [data|e]; simpl.
      * destruct (contains "error" data) as [[|]|e]; simpl.
        -- destruct (getitem data "error") as [detail|e]; simpl;
             [|destruct e]; by rewrite ?app_nil_r.
        -- by rewrite ?app_nil_r.
        -- destruct e; by rewrite ?app_nil_r.
      * destruct e; by rewrite ?app_nil_r.
    + by rewrite ?app_nil_r.
  - destruct e; by rewrite ?app_nil_r.
Qed.

Lemma _make_request_eq rt endpoint params w g rl :
  no_key (api_key (self w)) = false ->
  valid_params w params ->
  RateLimiter.acquire (rate_limiter (self w)) (clock w) = (RateLimiter.Granted g, rl) ->
  _make_request rt endpoint params w =
    (Return (fst (outcome_of rt (request_url w endpoint)
                    (network rt (sent w) (request_url w endpoint)
                       (request_params w params)))),
     after_request rt endpoint params g rl w).
Proof.
  intros Hkey Hvalid Hacq. unfold _make_request.
  rewrite read_world_bind, Hkey.
  erewrite bind_return; [|unfold acquire; by rewrite Hacq].
  unfold after_request, request_url, request_params.
  destruct params as [r|]; simpl in Hvalid.
  - destruct Hvalid as [d Hd].
    erewrite bind_return; [|reflexivity].
    erewrite bind_return; [|reflexivity].
    rewrite request_block_eq. cbv zeta. unfold deref. simpl.
    assert (Hr : (r < length (dicts w))%nat) by (by eapply lookup_lt_Some).
    repeat f_equal; rewrite ?list_lookup_insert_eq by done; by rewrite Hd.
  - erewrite bind_return; [|reflexivity].
    erewrite bind_return; [|reflexivity].
    rewrite request_block_eq. cbv zeta. unfold deref. simpl.
    rewrite lookup_snoc. simpl. rewrite insert_snoc, lookup_snoc. done.
Qed.

Lemma has_tokens_granted w :
  has_tokens w ->
  exists g rl,
    RateLimiter.acquire (rate_limiter (self w)) (clock w) = (RateLimiter.Granted g, rl)
    /\ RateLimiter.capacity rl = RateLimiter.capacity (rate_limiter (self w)).
Proof.
  intros Hw. destruct (next_slot_some _ (clock w) Hw) as [g Hg].
  unfold RateLimiter.acquire. rewrite Hg. eauto.
Qed.

Lemma _make_request_no_key_eq rt endpoint params w :
  no_key (api_key (self w)) = true ->
  _make_request rt endpoint params w =
    (Return VNone,
     {| self := self w; dicts := dicts w; sessions := sessions w;
        clock := clock w; sent := sent w;
        trace := trace w ++ [Log ERROR "No API key configured"] |}).
Proof.
  intros Hkey. unfold _make_request. by rewrite read_world_bind, Hkey.
Qed.

(** Projections of the world after a request. *)
Lemma after_request_self rt endpoint params g rl w :
  api_key (self (after_request rt endpoint params g rl w)) = api_key (self w)
  /\ base_url (self (after_request rt endpoint params g rl w)) = base_url (self w)
  /\ rate_limiter (self (after_request rt endpoint params g rl w)) = rl.
Proof.
  unfold after_request, with_session. simpl.
  by destruct (cached_live _).
Qed.

Lemma after_request_dicts rt endpoint params g rl w :
  dicts (after_request rt endpoint params g rl w) =
    match params with
    | None => dicts w ++ [request_params w params]
    | Some r => <[r := request_params w params]> (dicts w)
    end.
Proof.
  unfold after_request, with_session. simpl.
  by destruct (cached_live _).
Qed.

Lemma after_request_sent rt endpoint params g rl w :
  sent (after_request rt endpoint params g rl w) = S (sent w).
Proof.
  unfold after_request, with_session. simpl.
  by destruct (cached_live _).
Qed.

Lemma gets_app tr1 tr2 : gets (tr1 ++ tr2) = gets tr1 ++ gets tr2.
Proof.
  induction tr1 as [|ev tr1 IH]; simpl; [done|].
  destruct ev; simpl; by rewrite ?IH.
Qed.

Lemma messages_app tr1 tr2 : messages (tr1 ++ tr2) = messages tr1 ++ messages tr2.
Proof.
  induction tr1 as [|ev tr1 IH]; simpl; [done|].
  destruct ev; simpl; by rewrite ?IH.
Qed.

Lemma gets_logged o : gets (logged o) = [].
Proof. by destruct o. Qed.

Lemma messages_logged o : messages (logged o) = option_list o.
Proof. by destruct o. Qed.

Lemma after_request_gets rt endpoint params g rl w :
  gets (trace (after_request rt endpoint params g rl w)) =
    gets (trace w) ++ [(request_url w endpoint, request_params w params)].
Proof.
  unfold after_request, with_session. simpl.
  destruct (cached_live _); simpl;
    rewrite !gets_app, gets_logged; simpl; by rewrite !app_nil_r.
Qed.

Lemma after_request_messages rt endpoint params g rl w :
  messages (trace (after_request rt endpoint params g rl w)) =
    messages (trace w)
    ++ option_list (snd (outcome_of rt (request_url w endpoint)
                           (network rt (sent w) (request_url w endpoint)
                              (request_params w params)))).
Proof.
  unfold after_request, with_session. simpl.
  destruct (cached_live _); simpl;
    rewrite !messages_app, messages_logged; simpl; by rewrite !app_nil_r.
Qed.

(* ===================================================================== *)
(** * The request pipeline *)
(* ===================================================================== *)

(** An operation that keeps every stable invariant without raising does
    not raise, and returns when the limiter has a token to give. *)
Lemma never_raises {A} rt (m : M A) (R : A -> Prop) w e :
  (forall I pd, stable rt I pd -> triple I false pd m R) ->
  fst (m w) <> Raise e.
Proof.
  intros Hm Hr.
  destruct (Hm _ _ (stable_True rt) w Logic.I) as [_ H].
  rewrite Hr in H. discriminate.
Qed.

Lemma returns {A} rt (m : M A) (R : A -> Prop) w :
  (forall I pd, stable rt I pd -> triple I false pd m R) ->
  has_tokens w -> exists a, fst (m w) = Return a /\ R a.
Proof.
  intros Hm Hw. destruct (Hm _ _ (stable_has_tokens rt) w Hw) as [_ H].
  destruct (fst (m w)); [eauto|discriminate..].
Qed.

(** C3. Without a configured key [_make_request] returns [None] at once:
    the limiter is left as it was (no token is taken), the session and the
    session objects are untouched, nothing is sent, and the only event is
    the logged error. *)
Theorem make_request_without_key rt endpoint params w :
  no_key (api_key (self w)) = true ->
  fst (_make_request rt endpoint params w) = Return VNone
  /\ rate_limiter (self (snd (_make_request rt endpoint params w)))
     = rate_limiter (self w)
  /\ session (self (snd (_make_request rt endpoint params w))) = session (self w)
  /\ sessions (snd (_make_request rt endpoint params w)) = sessions w
  /\ sent (snd (_make_request rt endpoint params w)) = sent w
  /\ clock (snd (_make_request rt endpoint params w)) = clock w
  /\ dicts (snd (_make_request rt endpoint params w)) = dicts w
  /\ trace (snd (_make_request rt endpoint params w))
     = trace w ++ [Log ERROR "No API key configured"].
Proof.
  intros Hkey. by rewrite (_make_request_no_key_eq rt endpoint params w Hkey).
Qed.

(** C4, as the code has it.  When the payload of the response is a
    mapping with a top-level ['error'] key the call ends in [None],
    whatever the status.  With status 200 it is treated as an error the
    provider reports, logged with the error's detail; with another status
    the payload is not looked at, and the call is logged as an HTTP error
    with the status and the URL. *)
Theorem make_request_error_payload rt endpoint params w status d detail :
  no_key (api_key (self w)) = false ->
  valid_params w params ->
  has_tokens w ->
  network rt (sent w) (request_url w endpoint) (request_params w params)
    = Response status (Json (VDict d)) ->
  d !! "error" = Some detail ->
  fst (_make_request rt endpoint params w) = Return VNone
  /\ messages_since w (snd (_make_request rt endpoint params w))
     = [if status =? 200 then "API error: " +:+ py_str rt detail
        else "HTTP error " +:+ py_str rt (VInt status) +:+ " for "
             +:+ request_url w endpoint].
Proof.
  intros Hkey Hvalid Hw Hnet Hd.
  destruct (has_tokens_granted w Hw) as (g & rl & Hacq & _).
  rewrite (_make_request_eq rt endpoint params w g rl Hkey Hvalid Hacq).
  unfold messages_since. cbn [fst snd].
  rewrite after_request_messages, drop_app_length, Hnet. simpl.
  destruct (status =? 200); [|done].
  simpl. rewrite Hd. by rewrite bool_decide_true by eauto.
Qed.

(** C9, as the code has it.  For a request that passes the key check the
    key goes into the query parameters once, under ['key'], next to the
    caller's other entries, and the one GET of the call carries them.  The
    pipeline writes no parameter into a message: what it logs is made of
    the URL (base URL and endpoint), and of the status, the error value or
    the exception text of the answer: the status and the URL for a status
    other than 200, the URL for a timeout, the URL and the text of the
    exception for any other exception, the error value for a payload
    with ['error'], and nothing for a payload without.  So two requests
    to the same URL that get the same answer log the same, whatever
    their keys. *)
Theorem make_request_key_once rt endpoint params w :
  no_key (api_key (self w)) = false ->
  valid_params w params ->
  has_tokens w ->
  let url := request_url w endpoint in
  let p := request_params w params in
  let w' := snd (_make_request rt endpoint params w) in
  gets (trace w') = gets (trace w) ++ [(url, p)]
  /\ p !! "key" = Some (key_text (api_key (self w)))
  /\ (forall k, k <> "key" ->
        p !! k = match params with
                 | None => None
                 | Some r => deref w r !! k
                 end)
  /\ messages_since w w'
     = option_list (snd (outcome_of rt url (network rt (sent w) url p)))
  /\ (forall endpoint2 params2 w2,
        no_key (api_key (self w2)) = false ->
        valid_params w2 params2 ->
        has_tokens w2 ->
        request_url w2 endpoint2 = url ->
        network rt (sent w2) url (request_params w2 params2)
          = network rt (sent w) url p ->
        messages_since w2 (snd (_make_request rt endpoint2 params2 w2))
          = messages_since w w')
  /\ (forall status b,
        network rt (sent w) url p = Response status b -> status <> 200 ->
        messages_since w w'
        = ["HTTP error " +:+ py_str rt (VInt status) +:+ " for " +:+ url])
  /\ (network rt (sent w) url p = Failed TimeoutError
      \/ network rt (sent w) url p = Response 200 (BodyError TimeoutError) ->
      messages_since w w' = ["Timeout for API request to " +:+ url])
  /\ (forall e,
        e <> TimeoutError ->
        network rt (sent w) url p = Failed e
        \/ network rt (sent w) url p = Response 200 (BodyError e) ->
        messages_since w w'
        = ["Error making API request to " +:+ url +:+ ": " +:+ exn_str e])
  /\ (forall d detail,
        network rt (sent w) url p = Response 200 (Json (VDict d)) ->
        d !! "error" = Some detail ->
        messages_since w w' = ["API error: " +:+ py_str rt detail])
  /\ (forall data,
        network rt (sent w) url p = Response 200 (Json data) ->
        contains "error" data = Ok false ->
        messages_since w w' = []).
Proof.
  intros Hkey Hvalid Hw url p w'.
  assert (Hmsg : forall ep ps v,
    no_key (api_key (self v)) = false -> valid_params v ps -> has_tokens v ->
    messages_since v (snd (_make_request rt ep ps v))
    = option_list (snd (outcome_of rt (request_url v ep)
                          (network rt (sent v) (request_url v ep)
                             (request_params v ps))))).
  { intros ep ps v Hk Hv Ht.
    destruct (has_tokens_granted v Ht) as (g & rl & Hacq & _).
    rewrite (_make_request_eq rt ep ps v g rl Hk Hv Hacq).
    unfold messages_since. cbn [fst snd].
    by rewrite after_request_messages, drop_app_length. }
  destruct (has_tokens_granted w Hw) as (g & rl & Hacq & _).
  pose proof (Hmsg endpoint params w Hkey Hvalid Hw) as Hm.
  fold url p w' in Hm.
  split; [|split; [|split; [|split; [|split; [|split; [|split; [|split; [|split]]]]]]]].
  - unfold w'. rewrite (_make_request_eq rt endpoint params w g rl Hkey Hvalid Hacq).
    apply after_request_gets.
  - unfold p, request_params. apply lookup_insert_eq.
  - intros k Hk. unfold p, request_params. rewrite lookup_insert_ne by done.
    by destruct params.
  - by apply Hmsg.
  - intros endpoint2 params2 w2 Hkey2 Hvalid2 Hw2 Hurl Hnet.
    rewrite (Hmsg _ _ _ Hkey2 Hvalid2 Hw2), Hurl, Hnet.
    symmetry. by apply Hmsg.
  - intros status b Hn Hs. rewrite Hm, Hn. simpl.
    apply Z.eqb_neq in Hs. by rewrite Hs.
  - intros [Hn|Hn]; by rewrite Hm, Hn.
  - intros e He [Hn|Hn]; rewrite Hm, Hn; simpl; by destruct e.
  - intros d detail Hn Hd. rewrite Hm, Hn. simpl.
    rewrite bool_decide_true by (by eexists). by rewrite Hd.
  - intros data Hn Hc. rewrite Hm, Hn. simpl. by rewrite Hc.
Qed.

(** C10, as the code has it.  The caller's dict is updated in place: when
    a key is configured and the call returns, the dict the caller passed
    holds the key under ['key'], its other entries are as before, and so
    are the other dicts; when no key is configured the dict is left as it
    was. *)
Theorem make_request_updates_caller_dict rt endpoint r d w :
  dicts w !! r = Some d ->
  let w' := snd (_make_request rt endpoint (Some r) w) in
  (no_key (api_key (self w)) = true -> dicts w' = dicts w)
  /\ (no_key (api_key (self w)) = false -> has_tokens w ->
        (exists v, fst (_make_request rt endpoint (Some r) w) = Return v)
        /\ dicts w' !! r = Some (<["key" := key_text (api_key (self w))]> d)
        /\ deref w' r !! "key" = Some (key_text (api_key (self w)))
        /\ (forall k, k <> "key" -> deref w' r !! k = d !! k)
        /\ (forall r', r' <> r -> dicts w' !! r' = dicts w !! r')).
Proof.
  intros Hd w'. split.
  - intros Hkey. unfold w'.
    by rewrite (_make_request_no_key_eq rt endpoint (Some r) w Hkey).
  - intros Hkey Hw.
    destruct (has_tokens_granted w Hw) as (g & rl & Hacq & _).
    assert (Hvalid : valid_params w (Some r)) by (simpl; eauto).
    assert (Hr : (r < length (dicts w))%nat) by (by eapply lookup_lt_Some).
    assert (Hdw : dicts w' !! r = Some (<["key" := key_text (api_key (self w))]> d)).
    { unfold w'.
      rewrite (_make_request_eq rt endpoint (Some r) w g rl Hkey Hvalid Hacq).
      cbn [fst snd]. rewrite after_request_dicts.
      rewrite list_lookup_insert_eq by done.
      unfold request_params, deref. by rewrite Hd. }
    split; [|split; [done|split; [|split]]].
    + rewrite (_make_request_eq rt endpoint (Some r) w g rl Hkey Hvalid Hacq).
      eauto.
    + unfold deref. rewrite Hdw. simpl. apply lookup_insert_eq.
    + intros k Hk. unfold deref. rewrite Hdw. simpl.
      by rewrite lookup_insert_ne.
    + intros r' Hr'. unfold w'.
      rewrite (_make_request_eq rt endpoint (Some r) w g rl Hkey Hvalid Hacq).
      cbn [fst snd]. rewrite after_request_dicts.
      by rewrite list_lookup_insert_ne.
Qed.

(* ===================================================================== *)
(** * The market lookup *)
(* ===================================================================== *)

Lemma try_bind_return {A B} (m : M A) (k : A -> M B) h w a w1 :
  m w = (Return a, w1) -> try_except (m ≫= k) h w = try_except (k a) h w1.
Proof. intros H. unfold try_except. by rewrite (bind_return m k w a w1 H). Qed.

Lemma filter_bazaar_strings item_id (l : list pyval) :
  Forall (fun v => is_dict v = false) l ->
  List.filter (bazaar_match item_id) l = [].
Proof.
  induction 1 as [|v l Hv _ IH]; simpl; [done|].
  destruct v; try discriminate; done.
Qed.

Lemma chars_not_dict s : Forall (fun v => is_dict v = false) (chars s).
Proof. induction s; simpl; constructor; done. Qed.

Lemma keys_not_dict (d : gmap string pyval) :
  Forall (fun v => is_dict v = false)
    ((fun kv : string * pyval => VStr (fst kv)) <$> map_to_list d).
Proof. apply Forall_fmap, Forall_forall. done. Qed.

Ltac done_block :=
  eexists; split; [reflexivity | simpl; rewrite ?gets_app; simpl;
                                 by rewrite ?app_nil_r].

(** The lines after the second request, 142-156, under the handler of
    [get_item_market]: the result is the filtered bazaar, and nothing is
    sent. *)
Lemma bazaar_block rt item_id data w :
  exists w',
    try_except
      (has_bazaar ← (if truthy data then lift (contains "bazaar" data)
                     else mret false);
       if (has_bazaar : bool) then
         bazaar_items ← lift (get_method data "bazaar" (VList []));
         items ← lift (iterate bazaar_items);
         match List.filter (bazaar_match item_id) items with
         | (_ :: _) as item_listings =>
             log INFO ("Found "
                       +:+ py_str rt (VInt (Z.of_nat (length item_listings)))
                       +:+ " bazaar listings for item "
                       +:+ py_str rt (VInt item_id));;
             mret (VList item_listings)
         | [] =>
             log INFO ("No market data found for item "
                       +:+ py_str rt (VInt item_id));;
             mret (VList [])
         end
       else
         log INFO ("No market data found for item "
                   +:+ py_str rt (VInt item_id));;
         mret (VList []))
      (fun e =>
         log ERROR ("Error getting item market for " +:+ py_str rt (VInt item_id)
                    +:+ ": " +:+ exn_str e);;
         mret (VList [])) w
    = (Return (VList (bazaar_listings item_id data)), w')
    /\ gets (trace w') = gets (trace w) /\ sent w' = sent w.
Proof.
  unfold try_except, mbind, M_bind, bind.
  destruct data as [|b|z|f|s|l|d]; simpl.
  - done_block.
  - destruct b; simpl; done_block.
  - destruct (negb (z =? 0)); simpl; done_block.
  - destruct (float_truthy f); simpl; done_block.
  - destruct (negb (String.eqb s "")); simpl; [|done_block].
    destruct (is_substring "bazaar" s); simpl; done_block.
  - destruct l as [|x l]; simpl; [done_block|].
    destruct (eq_str x "bazaar" || existsb _ l); simpl; done_block.
  - destruct (bool_decide (d = ∅)) eqn:He; simpl.
    { apply bool_decide_eq_true in He as ->. rewrite lookup_empty. done_block. }
    unfold dict_get.
    destruct (d !! "bazaar") as [v|] eqn:Hv; simpl.
    2:{ done_block. }
    destruct v as [|b|z|f|s|items|keys]; simpl; try done_block.
    + rewrite (filter_bazaar_strings _ _ (chars_not_dict s)). simpl. done_block.
    + destruct (List.filter (bazaar_match item_id) items); simpl; done_block.
    + rewrite (filter_bazaar_strings _ _ (keys_not_dict keys)). simpl. done_block.
Qed.

Lemma new_dict_eq d w :
  new_dict d w =
    (Return (length (dicts w)),
     {| self := self w; dicts := dicts w ++ [d]; sessions := sessions w;
        clock := clock w; sent := sent w; trace := trace w |}).
Proof. done. Qed.

(** A request with a fresh dict [d] as its parameters. *)
Lemma request_with_new_dict rt endpoint d w :
  no_key (api_key (self w)) = false ->
  has_tokens w ->
  let p := <["key" := key_text (api_key (self w))]> d in
  let url := request_url w endpoint in
  exists w',
    _make_request rt endpoint (Some (length (dicts w))) (snd (new_dict d w))
    = (Return (fst (outcome_of rt url (network rt (sent w) url p))), w')
    /\ gets (trace w') = gets (trace w) ++ [(url, p)]
    /\ sent w' = S (sent w)
    /\ api_key (self w') = api_key (self w)
    /\ base_url (self w') = base_url (self w)
    /\ has_tokens w'.
Proof.
  intros Hkey Hw p url.
  destruct (has_tokens_granted w Hw) as (g & rl & Hacq & Hcap).
  set (w0 := snd (new_dict d w)).
  assert (Hp : request_params w0 (Some (length (dicts w))) = p).
  { unfold request_params, deref, w0. simpl. by rewrite lookup_snoc. }
  assert (Hvalid : valid_params w0 (Some (length (dicts w)))).
  { unfold w0. simpl. rewrite lookup_snoc. eauto. }
  exists (after_request rt endpoint (Some (length (dicts w))) g rl w0).
  rewrite (_make_request_eq rt endpoint _ w0 g rl Hkey Hvalid Hacq).
  rewrite after_request_gets, after_request_sent, Hp.
  destruct (after_request_self rt endpoint (Some (length (dicts w))) g rl w0)
    as (Hk & Hb & Hrl).
  repeat split; try done.
  unfold has_tokens. rewrite Hrl, Hcap. exact Hw.
Qed.

(** What [get_item_market] returns and sends, with a key and a token. *)
Lemma get_item_market_spec rt item_id w :
  no_key (api_key (self w)) = false ->
  has_tokens w ->
  exists w',
    get_item_market rt item_id w
    = (Return (VList (match primary_listings item_id (primary_data rt w) with
                      | [] => bazaar_listings item_id (secondary_data rt w)
                      | l => l
                      end)), w')
    /\ gets (trace w')
       = gets (trace w)
         ++ (request_url w "itemmarket", primary_params w)
         :: match primary_listings item_id (primary_data rt w) with
            | [] => [(request_url w "market", secondary_params w)]
            | _ => []
            end.
Proof.
  intros Hkey Hw. unfold get_item_market, get_item_market_try.
  rewrite (try_bind_return _ _ _ _ _ _ (new_dict_eq ∅ w)).
  destruct (request_with_new_dict rt "itemmarket" ∅ w Hkey Hw)
    as (w1 & Hreq1 & Hgets1 & Hsent1 & Hkey1 & Hurl1 & Hw1).
  rewrite (try_bind_return _ _ _ _ _ _ Hreq1).
  fold (primary_params w). fold (primary_data rt w).
  destruct (primary_listings item_id (primary_data rt w)) as [|x l] eqn:Hl.
  - rewrite (try_bind_return _ _ _ _ _ _ (new_dict_eq _ w1)).
    rewrite <- Hkey1 in Hkey.
    destruct (request_with_new_dict rt "market" {[ "selections" := "bazaar" ]}
                w1 Hkey Hw1)
      as (w2 & Hreq2 & Hgets2 & Hsent2 & _).
    rewrite (try_bind_return _ _ _ _ _ _ Hreq2).
    unfold request_url in *. rewrite Hurl1, Hsent1, Hkey1 in *.
    fold (request_url w "market") in *. fold (secondary_params w) in *.
    fold (secondary_data rt w).
    destruct (bazaar_block rt item_id (secondary_data rt w) w2)
      as (w3 & Heq & Hgets3 & _).
    exists w3. split; [exact Heq|].
    rewrite Hgets3, Hgets2, Hgets1. by rewrite <- app_assoc.
  - eexists. split; [reflexivity|]. simpl.
    rewrite gets_app, Hgets1. simpl. by rewrite app_nil_r.
Qed.

(** C2. With a key and a token, [get_item_market] first sends the GET to
    the itemmarket endpoint and filters its listings by the requested
    identifier.  If some listing is left it returns exactly those and
    sends nothing else; only otherwise does it send the GET to the market
    endpoint, selection bazaar, and return the listings of the bazaar
    whose ['ID'] equals the identifier.  A listing of the primary feed is
    kept exactly when it is a dict whose identifier, the first truthy of
    ['item_id'], ['ID'] and ['itemID'], is a number equal to the requested
    one; a listing of the bazaar exactly when it is a dict whose ['ID']
    is such a number. *)
Theorem get_item_market_two_tier rt item_id w :
  no_key (api_key (self w)) = false ->
  has_tokens w ->
  let primary := primary_listings item_id (primary_data rt w) in
  let w' := snd (get_item_market rt item_id w) in
  (primary <> [] ->
     fst (get_item_market rt item_id w) = Return (VList primary)
     /\ gets (trace w')
        = gets (trace w) ++ [(request_url w "itemmarket", primary_params w)])
  /\ (primary = [] ->
     fst (get_item_market rt item_id w)
       = Return (VList (bazaar_listings item_id (secondary_data rt w)))
     /\ gets (trace w')
        = gets (trace w) ++ [(request_url w "itemmarket", primary_params w);
                             (request_url w "market", secondary_params w)])
  /\ (forall d market_items,
        primary_data rt w = VDict d ->
        d !! "itemmarket" = Some (VList market_items) ->
        primary = List.filter (primary_match item_id) market_items)
  /\ (forall d bazaar_items,
        secondary_data rt w = VDict d ->
        d !! "bazaar" = Some (VList bazaar_items) ->
        bazaar_listings item_id (secondary_data rt w)
          = List.filter (bazaar_match item_id) bazaar_items)
  /\ (forall d market_items item,
        primary_data rt w = VDict d ->
        d !! "itemmarket" = Some (VList market_items) ->
        item ∈ primary <-> item ∈ market_items /\ identified item_id item)
  /\ (forall d bazaar_items item,
        secondary_data rt w = VDict d ->
        d !! "bazaar" = Some (VList bazaar_items) ->
        item ∈ bazaar_listings item_id (secondary_data rt w)
        <-> item ∈ bazaar_items /\ field_equals "ID" item_id item)
  /\ (forall item,
        (primary_match item_id item = true <-> identified item_id item)
        /\ (bazaar_match item_id item = true
            <-> field_equals "ID" item_id item)).
Proof.
  intros Hkey Hw primary w'.
  destruct (get_item_market_spec rt item_id w Hkey Hw) as (w1 & Heq & Hgets).
  unfold w'. rewrite Heq. cbn [fst snd]. fold primary in Hgets |- *.
  assert (Hprimary : forall d market_items,
            primary_data rt w = VDict d ->
            d !! "itemmarket" = Some (VList market_items) ->
            primary = List.filter (primary_match item_id) market_items).
  { intros d market_items Hd Hm. unfold primary, primary_listings.
    rewrite Hd. unfold dict_get. rewrite Hm. simpl.
    rewrite bool_decide_false; [done|].
    intros ->. by rewrite lookup_empty in Hm. }
  assert (Hbazaar : forall d bazaar_items,
            secondary_data rt w = VDict d ->
            d !! "bazaar" = Some (VList bazaar_items) ->
            bazaar_listings item_id (secondary_data rt w)
            = List.filter (bazaar_match item_id) bazaar_items).
  { intros d bazaar_items Hd Hb. unfold bazaar_listings. by rewrite Hd, Hb. }
  split; [|split; [|split; [|split; [|split; [|split]]]]].
  - intros Hne. destruct primary; [done|]. by rewrite Hgets.
  - intros He. rewrite He in *. by rewrite Hgets.
  - exact Hprimary.
  - exact Hbazaar.
  - intros d market_items item Hd Hm.
    rewrite (Hprimary d market_items Hd Hm), elem_of_filter_bool.
    by rewrite primary_match_spec.
  - intros d bazaar_items item Hd Hb.
    rewrite (Hbazaar d bazaar_items Hd Hb), elem_of_filter_bool.
    by rewrite bazaar_match_spec.
  - intros item. split; [apply primary_match_spec|apply bazaar_match_spec].
Qed.

(** C6, as the code has it.  The identifier of a primary listing is the
    first truthy value among ['item_id'], ['ID'], ['itemID'], in this
    order, and the value under ['itemID'] (or [None]) when none is truthy.
    Where these fields hold only null or truthy values it is the first
    non-null one.  A listing is matched exactly when it is a dict and
    this identifier is a number equal to the requested one: by its
    ['item_id'] when that is truthy, whatever the other fields hold; else
    by its ['ID'] when that is truthy; else by its ['itemID'].  So a
    listing that has only ['ID'], with a truthy value, is matched exactly
    when that value equals the requested identifier. *)
Theorem item_market_id_first_truthy (d : gmap string pyval) (item_id : Z) :
  (truthy (dict_get d "item_id" VNone) = true ->
     item_market_id d = dict_get d "item_id" VNone)
  /\ (truthy (dict_get d "item_id" VNone) = false ->
      truthy (dict_get d "ID" VNone) = true ->
      item_market_id d = dict_get d "ID" VNone)
  /\ (truthy (dict_get d "item_id" VNone) = false ->
      truthy (dict_get d "ID" VNone) = false ->
      item_market_id d = dict_get d "itemID" VNone)
  /\ (null_or_truthy (dict_get d "item_id" VNone) ->
      null_or_truthy (dict_get d "ID" VNone) ->
      item_market_id d = first_non_null d)
  /\ (forall v,
        d !! "item_id" = None -> d !! "itemID" = None ->
        d !! "ID" = Some v -> truthy v = true ->
        item_market_id d = v
        /\ primary_match item_id (VDict d) = eq_int v item_id)
  /\ item_market_id d = identifier d
  /\ (forall item,
        primary_match item_id item = true <-> identified item_id item)
  /\ (forall v,
        d !! "item_id" = Some v -> truthy v = true ->
        primary_match item_id (VDict d) = true <-> is_int v item_id)
  /\ (forall v,
        truthy (default VNone (d !! "item_id")) = false ->
        d !! "ID" = Some v -> truthy v = true ->
        primary_match item_id (VDict d) = true <-> is_int v item_id)
  /\ (truthy (default VNone (d !! "item_id")) = false ->
      truthy (default VNone (d !! "ID")) = false ->
      primary_match item_id (VDict d) = true
      <-> is_int (default VNone (d !! "itemID")) item_id).
Proof.
  assert (Hid : forall v, identifier d = v ->
            primary_match item_id (VDict d) = true <-> is_int v item_id).
  { intros v <-. rewrite primary_match_spec. split.
    - by intros (d' & [= <-] & H).
    - intros H. by exists d. }
  unfold item_market_id, py_or, first_non_null, primary_match.
  split; [|split; [|split; [|split; [|split; [|split; [|split; [|split; [|split]]]]]]]].
  - intros H. by rewrite !H.
  - intros H1 H2. by rewrite H1, H2.
  - intros H1 H2. by rewrite H1, H2.
  - intros Ha Hb.
    destruct Ha as [Ha|Ha].
    + rewrite Ha. simpl. destruct Hb as [Hb|Hb].
      * by rewrite Hb.
      * rewrite Hb. revert Hb.
        destruct (dict_get d "ID" VNone); simpl; congruence.
    + rewrite !Ha. revert Ha.
      destruct (dict_get d "item_id" VNone); simpl; congruence.
  - intros v H1 H2 H3 Hv. unfold item_market_id, py_or, dict_get.
    rewrite H1, H3. simpl. by rewrite Hv.
  - apply item_market_id_identifier.
  - intros item. apply primary_match_spec.
  - intros v H1 Hv. apply Hid. unfold identifier. rewrite H1. simpl.
    by rewrite Hv.
  - intros v H1 H2 Hv. apply Hid. unfold identifier. rewrite H2. simpl.
    by rewrite H1, Hv.
  - intros H1 H2. apply Hid. unfold identifier. simpl. by rewrite H1, H2.
Qed.

(** C7. [get_item_market] never raises and what it returns is a list,
    never [None]; it returns when the limiter has a token to give.  An
    exception inside its [try] block ends in the empty list, and so does a
    lookup in which neither endpoint yields a matching listing. *)
Theorem get_item_market_returns_list rt item_id w :
  (forall e, fst (get_item_market rt item_id w) <> Raise e)
  /\ (forall v, fst (get_item_market rt item_id w) = Return v -> is_list v = true)
  /\ (has_tokens w -> exists l, fst (get_item_market rt item_id w) = Return (VList l))
  /\ (forall e, fst (get_item_market_try rt item_id w) = Raise e ->
        fst (get_item_market rt item_id w) = Return (VList []))
  /\ (no_key (api_key (self w)) = false -> has_tokens w ->
      primary_listings item_id (primary_data rt w) = [] ->
      bazaar_listings item_id (secondary_data rt w) = [] ->
      fst (get_item_market rt item_id w) = Return (VList [])).
Proof.
  assert (Ht : forall I pd, stable rt I pd ->
            triple I false pd (get_item_market rt item_id) (fun v => is_list v = true)).
  { intros I pd H. by apply (triple_get_item_market rt I pd H). }
  split; [|split; [|split; [|split]]].
  - intros e. by apply (never_raises rt _ _ w e Ht).
  - intros v Hv. destruct (Ht _ _ (stable_True rt) w Logic.I) as [_ H].
    by rewrite Hv in H.
  - intros Hw. destruct (returns rt _ _ w Ht Hw) as (v & Hv & Hl).
    destruct v; try discriminate. eauto.
  - intros e He. unfold get_item_market, try_except.
    destruct (get_item_market_try rt item_id w) as [r w1]. simpl in He.
    by rewrite He.
  - intros Hkey Hw H1 H2.
    destruct (get_item_market_spec rt item_id w Hkey Hw) as (w1 & Heq & _).
    by rewrite Heq, H1, H2.
Qed.

(* ===================================================================== *)
(** * The session *)
(* ===================================================================== *)

Lemma one_live_initial cfg : one_live (initial cfg).
Proof. intros h Hl. unfold live, is_closed in Hl. simpl in Hl. discriminate. Qed.

Lemma one_live_perform rt c w : one_live w -> one_live (perform rt c w).
Proof.
  intros Hone. pose proof (stable_one_live rt) as Hst.
  destruct c; simpl.
  - by apply one_live_get_session.
  - by apply one_live_close.
  - by apply (triple_make_request rt _ _ Hst true endpoint params w).
  - by apply (triple_get_user_profile rt _ _ Hst true user_id w).
  - by apply (triple_get_faction_info rt _ _ Hst true faction_id w).
  - by apply (triple_get_faction_members rt _ _ Hst true faction_id w).
  - by apply (triple_get_item_info rt _ _ Hst true item_id w).
  - by apply (triple_get_item_market rt _ _ Hst true item_id w).
  - by apply (triple_get_player_bazaar rt _ _ Hst true player_id w).
Qed.

Lemma one_live_perform_all rt cs : forall w, one_live w -> one_live (perform_all rt cs w).
Proof.
  induction cs as [|c cs IH]; intros w Hone; simpl; [done|].
  by apply IH, one_live_perform.
Qed.

Lemma cached_live_some w h :
  session (self w) = Some h -> live w h -> cached_live w = Some h.
Proof. unfold cached_live, live. intros -> ->. done. Qed.

(** C8. [_get_session] returns the cached session object when there is
    one and it is not closed, and leaves the world as it is; when there is
    none, or the cached one is closed, it creates a new object, caches it
    and returns it.  The object it returns is never closed.  After
    [close()] the next [_get_session] gives a new object, distinct from
    the closed one.  Whatever calls are made on a new client, at most one
    session object is live. *)
Theorem get_session_one_live (rt : Runtime) :
  (forall w h, session (self w) = Some h -> live w h ->
      _get_session w = (Return h, w))
  /\ (forall w, cached_live w = None ->
        let h' := length (sessions w) in
        let w' := snd (_get_session w) in
        fst (_get_session w) = Return h'
        /\ sessions w !! h' = None
        /\ live w' h'
        /\ session (self w') = Some h'
        /\ (forall h, (h < h')%nat -> sessions w' !! h = sessions w !! h))
  /\ (forall w h, fst (_get_session w) = Return h -> live (snd (_get_session w)) h)
  /\ (forall w h, session (self w) = Some h -> live w h ->
        let w1 := snd (close w) in
        is_closed w1 h = true
        /\ exists h', fst (_get_session w1) = Return h' /\ h' <> h
                      /\ live (snd (_get_session w1)) h')
  /\ (forall cfg calls h1 h2,
        let w := perform_all rt calls (initial cfg) in
        live w h1 -> live w h2 -> h1 = h2).
Proof.
  split; [|split; [|split; [|split]]].
  - intros w h Hs Hl. rewrite _get_session_eq.
    unfold request_session, with_session.
    by rewrite (cached_live_some w h Hs Hl).
  - intros w Hc. cbv zeta. rewrite _get_session_eq.
    unfold request_session, with_session. rewrite Hc. simpl.
    split; [done|]. split; [by apply lookup_ge_None|].
    split; [unfold live, is_closed; simpl; by rewrite lookup_snoc|].
    split; [done|].
    intros h Hh. by rewrite lookup_app_l.
  - intros w h. rewrite _get_session_eq. simpl. intros [= <-].
    apply with_session_live.
  - intros w h Hs Hl w1.
    assert (Hw1 : exists s, sessions w !! h = Some s /\ closed s = false)
      by (by apply live_lookup).
    destruct Hw1 as (s & Hh & Hopen).
    assert (Hlt : (h < length (sessions w))%nat) by (by eapply lookup_lt_Some).
    assert (Hclose : w1 = {| self := self w; dicts := dicts w;
                             sessions := <[h := {| closed := true;
                                                   timeout_total := timeout_total s;
                                                   headers := headers s |}]> (sessions w);
                             clock := clock w; sent := sent w;
                             trace := trace w ++ [Closed h] |}).
    { unfold w1, close. rewrite read_world_bind, Hs.
      unfold live in Hl. rewrite Hl. unfold close_session. by rewrite Hh. }
    assert (Hc : is_closed w1 h = true).
    { rewrite Hclose. unfold is_closed. simpl.
      by rewrite list_lookup_insert_eq. }
    split; [done|].
    assert (Hnone : cached_live w1 = None).
    { unfold cached_live.
      replace (session (self w1)) with (Some h) by (by rewrite Hclose).
      by rewrite Hc. }
    exists (length (sessions w1)). rewrite _get_session_eq.
    unfold request_session. rewrite Hnone. simpl.
    split; [done|]. split.
    + rewrite Hclose. simpl. rewrite length_insert. lia.
    + pose proof (with_session_live w1) as Hlive.
      unfold request_session in Hlive. by rewrite Hnone in Hlive.
  - intros cfg calls h1 h2 w Hl1 Hl2.
    assert (Hone : one_live w) by apply one_live_perform_all, one_live_initial.
    pose proof (Hone h1 Hl1) as H1. pose proof (Hone h2 Hl2) as H2. congruence.
Qed.

(* ===================================================================== *)
(** * The limiter of the client *)
(* ===================================================================== *)

Lemma stable_limiter_of rt cfg : stable rt (limiter_of cfg) true.
Proof.
  split; unfold limiter_of; try done.
  - intros w (Hwf & Hcap & Hwin). split; [|done].
    unfold acquire.
    pose proof (wf_acquire (rate_limiter (self w)) (clock w) Hwf) as Hwf'.
    pose proof (capacity_acquire (rate_limiter (self w)) (clock w)) as Hc.
    pose proof (window_acquire (rate_limiter (self w)) (clock w)) as Hw.
    destruct (RateLimiter.acquire _ _) as [[g|] rl]; simpl in *;
      [|done]. by rewrite Hc, Hw.
  - intros w H. by rewrite _get_session_self_limiter.
  - intros h url r w H. by rewrite (proj1 (session_get_self rt h url r w)).
  - intros w H. by rewrite close_self.
Qed.

Lemma limiter_of_perform rt cfg c w :
  limiter_of cfg w -> limiter_of cfg (perform rt c w).
Proof.
  intros Hl. pose proof (stable_limiter_of rt cfg) as Hst.
  destruct c; simpl.
  - by apply (stable_get_session _ _ _ Hst).
  - by apply (stable_close _ _ _ Hst).
  - by apply (triple_make_request rt _ _ Hst true endpoint params w).
  - by apply (triple_get_user_profile rt _ _ Hst true user_id w).
  - by apply (triple_get_faction_info rt _ _ Hst true faction_id w).
  - by apply (triple_get_faction_members rt _ _ Hst true faction_id w).
  - by apply (triple_get_item_info rt _ _ Hst true item_id w).
  - by apply (triple_get_item_market rt _ _ Hst true item_id w).
  - by apply (triple_get_player_bazaar rt _ _ Hst true player_id w).
Qed.

Lemma limiter_of_perform_all rt cfg cs :
  forall w, limiter_of cfg w -> limiter_of cfg (perform_all rt cs w).
Proof.
  induction cs as [|c cs IH]; intros w Hl; simpl; [done|].
  by apply IH, limiter_of_perform.
Qed.

(** C5. For every sequence of [acquire()] calls on a limiter built with a
    capacity and a window, no window of that length holds more than
    [capacity] completed acquisitions; and [acquire()] has no failure
    outcome: with a positive capacity every call is granted, at an instant
    not before the call (it only delays), an instant at which a token is
    available.  The client builds its limiter with [API_RATE_LIMIT] and a
    window of 60, and whatever calls are made on the client, no window of
    60 holds more than [API_RATE_LIMIT] acquisitions. *)
Theorem acquire_window_bound_never_fails :
  (forall (cap : nat) (w : Z) (arrivals : list Z),
     let rl := RateLimiter.run (RateLimiter.init cap w) arrivals in
     (forall a, (RateLimiter.completed_in rl a <= cap)%nat)
     /\ (forall now, (0 < cap)%nat ->
           exists g, fst (RateLimiter.acquire rl now) = RateLimiter.Granted g
                     /\ now <= g /\ (0 < RateLimiter.tokens rl g)%nat))
  /\ (forall cfg,
        rate_limiter (TornAPI_init cfg) = RateLimiter.init (API_RATE_LIMIT cfg) 60)
  /\ (forall rt cfg calls a,
        let rl := rate_limiter (self (perform_all rt calls (initial cfg))) in
        RateLimiter.capacity rl = API_RATE_LIMIT cfg
        /\ RateLimiter.window rl = 60
        /\ (length (List.filter (RateLimiter.in_window a 60) (RateLimiter.grants rl))
            <= API_RATE_LIMIT cfg)%nat).
Proof.
  split; [exact run_window_bound|]. split; [done|].
  intros rt cfg calls a rl.
  assert (Hl : limiter_of cfg (perform_all rt calls (initial cfg))).
  { apply limiter_of_perform_all. split; [apply wf_init|done]. }
  destruct Hl as ([Hord Hsp] & Hcap & Hwin). fold rl in Hord, Hsp, Hcap, Hwin.
  split; [done|]. split; [done|].
  rewrite Hcap, Hwin in Hsp. by apply spaced_window_bound.
Qed.

(* ===================================================================== *)
(** * The theorems at concrete worlds *)
(* ===================================================================== *)

Lemma example_has_tokens : has_tokens Example.world.
Proof. unfold has_tokens. simpl. lia. Defined.

(** Two feeds that hold other listings too.  Item 7 is found in the
    primary feed, under ['ID'] and under ['itemID'], not in the listing
    whose ['item_id'] is 9 and whose ['ID'] is 7, and nothing else is
    sent; item 42 is found in the secondary one, where the listings of
    item 8, the listing without ['ID'] and the str are left out. *)
Lemma get_item_market_two_tier_witness :
  (fst (get_item_market (Example.runtime Sample.net_market_mixed) 7 Example.world)
   = Return (VList [Example.listing 7 100; VDict {[ "itemID" := VInt 7 ]}])
   /\ gets (trace (snd (get_item_market (Example.runtime Sample.net_market_mixed) 7
                          Example.world)))
      = [("https://api.torn.com/itemmarket", {[ "key" := "SECRET" ]})])
  /\ (fst (get_item_market (Example.runtime Sample.net_market_mixed) 42
            Example.world)
      = Return (VList [Example.listing 42 50; Example.listing 42 60])
      /\ gets (trace (snd (get_item_market (Example.runtime Sample.net_market_mixed)
                             42 Example.world)))
         = [("https://api.torn.com/itemmarket", {[ "key" := "SECRET" ]});
            ("https://api.torn.com/market",
             {[ "selections" := "bazaar"; "key" := "SECRET" ]})]).
Proof.
  split.
  - apply (proj1 (get_item_market_two_tier (Example.runtime Sample.net_market_mixed)
                    7 Example.world eq_refl example_has_tokens)).
    vm_compute. discriminate.
  - apply (proj1 (proj2 (get_item_market_two_tier
                           (Example.runtime Sample.net_market_mixed) 42
                           Example.world eq_refl example_has_tokens))).
    vm_compute. reflexivity.
Defined.

Lemma make_request_without_key_witness :
  fst (_make_request (Example.runtime Example.net_error) "user/1" None
         Example.world_no_key) = Return VNone
  /\ trace (snd (_make_request (Example.runtime Example.net_error) "user/1" None
                   Example.world_no_key))
     = [Log ERROR "No API key configured"].
Proof.
  destruct (make_request_without_key (Example.runtime Example.net_error)
              "user/1" None Example.world_no_key eq_refl)
    as (H1 & _ & _ & _ & _ & _ & _ & H2).
  split; [exact H1 | exact H2].
Defined.

(** The example of the spec: 200 with [{"error": {"code": 2}}]. *)
Lemma make_request_error_payload_witness :
  fst (_make_request (Example.runtime Example.net_error) "user/1" None Example.world)
  = Return VNone.
Proof.
  exact (proj1 (make_request_error_payload (Example.runtime Example.net_error)
                  "user/1" None Example.world 200
                  {[ "error" := VDict {[ "code" := VInt 2 ]} ]}
                  (VDict {[ "code" := VInt 2 ]})
                  eq_refl Logic.I example_has_tokens eq_refl eq_refl)).
Defined.

(** Three callers at once on a bucket of two: the third waits a window. *)
Lemma acquire_window_bound_never_fails_witness :
  RateLimiter.grants (RateLimiter.run (RateLimiter.init 2 60) [0; 0; 0]) = [60; 0; 0]
  /\ exists g,
       fst (RateLimiter.acquire (RateLimiter.run (RateLimiter.init 2 60) [0; 0; 0]) 5)
       = RateLimiter.Granted g /\ 5 <= g.
Proof.
  split; [reflexivity|].
  destruct (proj2 (proj1 acquire_window_bound_never_fails 2%nat 60 [0; 0; 0]) 5
              ltac:(lia))
    as (g & Hg & Hle & _).
  exists g. split; [exact Hg | exact Hle].
Defined.

(** A listing that has only ['ID']; and a listing with ['item_id'] 9 and
    ['ID'] 7, which is matched for 9 and not for 7. *)
Lemma item_market_id_first_truthy_witness :
  (item_market_id {[ "ID" := VInt 7; "price" := VInt 100 ]} = VInt 7
   /\ primary_match 7 (Example.listing 7 100) = true)
  /\ (primary_match 9 Sample.both_ids = true <-> is_int (VInt 9) 9)
  /\ (primary_match 7 Sample.both_ids = true <-> is_int (VInt 9) 7).
Proof.
  split; [|split].
  - exact (proj1 (proj2 (proj2 (proj2 (proj2 (item_market_id_first_truthy
             {[ "ID" := VInt 7; "price" := VInt 100 ]} 7)))))
             (VInt 7) eq_refl eq_refl eq_refl eq_refl).
  - exact (proj1 (proj2 (proj2 (proj2 (proj2 (proj2 (proj2 (proj2
             (item_market_id_first_truthy
                {[ "item_id" := VInt 9; "ID" := VInt 7 ]} 9))))))))
             (VInt 9) eq_refl eq_refl).
  - exact (proj1 (proj2 (proj2 (proj2 (proj2 (proj2 (proj2 (proj2
             (item_market_id_first_truthy
                {[ "item_id" := VInt 9; "ID" := VInt 7 ]} 7))))))))
             (VInt 9) eq_refl eq_refl).
Defined.

(** A [null] bazaar: the loop raises [TypeError], the result is [[]]. *)
Lemma get_item_market_returns_list_witness :
  fst (get_item_market_try (Example.runtime Example.net_null_bazaar) 42 Example.world)
  = Raise (TypeError "'NoneType' object is not iterable")
  /\ fst (get_item_market (Example.runtime Example.net_null_bazaar) 42 Example.world)
     = Return (VList []).
Proof.
  assert (H : fst (get_item_market_try (Example.runtime Example.net_null_bazaar) 42
                     Example.world)
              = Raise (TypeError "'NoneType' object is not iterable"))
    by (vm_compute; reflexivity).
  split; [exact H|].
  exact (proj1 (proj2 (proj2 (proj2 (get_item_market_returns_list
           (Example.runtime Example.net_null_bazaar) 42 Example.world)))) _ H).
Defined.

(** Get a session, close it, get a session: the second is another one. *)
Lemma get_session_one_live_witness :
  fst (_get_session Example.world) = Return 0%nat
  /\ exists h',
       fst (_get_session (snd (close (snd (_get_session Example.world)))))
       = Return h' /\ h' <> 0%nat.
Proof.
  split; [reflexivity|].
  destruct (proj1 (proj2 (proj2 (proj2 (get_session_one_live
              (Example.runtime Example.net_error)))))
              (snd (_get_session Example.world)) 0%nat eq_refl eq_refl)
    as (_ & h' & H1 & H2 & _).
  exists h'. split; [exact H1 | exact H2].
Defined.

Lemma make_request_key_once_witness :
  gets (trace (snd (_make_request (Example.runtime Example.net_503) "user/1"
                      (Some 0%nat) (Example.with_caller_dict Example.world))))
  = [("https://api.torn.com/user/1",
      {[ "selections" := "basic"; "key" := "SECRET" ]})].
Proof.
  etransitivity.
  - exact (proj1 (make_request_key_once (Example.runtime Example.net_503) "user/1"
                    (Some 0%nat) (Example.with_caller_dict Example.world)
                    eq_refl (ex_intro _ _ eq_refl) example_has_tokens)).
  - vm_compute. reflexivity.
Defined.

Lemma make_request_updates_caller_dict_witness :
  dicts (snd (_make_request (Example.runtime Example.net_503) "user/1"
                (Some 0%nat) (Example.with_caller_dict Example.world))) !! 0%nat
  = Some {[ "selections" := "basic"; "key" := "SECRET" ]}.
Proof.
  etransitivity.
  - exact (proj1 (proj2 (proj2 (make_request_updates_caller_dict
             (Example.runtime Example.net_503) "user/1" 0%nat
             {[ "selections" := "basic" ]}
             (Example.with_caller_dict Example.world) eq_refl)
             eq_refl example_has_tokens))).
  - vm_compute. reflexivity.
Defined.

(* ===================================================================== *)
(** * Where the spec and the code part *)
(* ===================================================================== *)

(** C4: with a status other than 200 a payload that holds an ['error'] key
    is not treated as an error of the provider: the call is logged as an
    HTTP error, and the error's detail is not. *)
Lemma make_request_error_payload_counterexample :
  network (Example.runtime Example.net_503_error) 0
    "https://api.torn.com/user/1" {[ "key" := "SECRET" ]}
  = Response 503 (Json (VDict {[ "error" := VDict {[ "code" := VInt 2 ]} ]}))
  /\ messages (trace (snd (_make_request (Example.runtime Example.net_503_error)
                             "user/1" None Example.world)))
     = ["HTTP error 503 for https://api.torn.com/user/1"]
  /\ existsb (String.prefix "API error")
       (messages (trace (snd (_make_request (Example.runtime Example.net_503_error)
                                "user/1" None Example.world))))
     = false.
Proof. vm_compute. repeat split. Qed.

(** C6: the first non-null value is not what the code takes when it is
    falsy.  A listing with ['item_id'] 0 and ['ID'] 7 is matched for the
    identifier 7; a listing that has only ['ID'], with value 0, is not
    matched for the identifier 0. *)
Lemma item_market_id_counterexample :
  first_non_null {[ "item_id" := VInt 0; "ID" := VInt 7 ]} = VInt 0
  /\ item_market_id {[ "item_id" := VInt 0; "ID" := VInt 7 ]} = VInt 7
  /\ primary_match 7 (VDict {[ "item_id" := VInt 0; "ID" := VInt 7 ]}) = true
  /\ first_non_null {[ "ID" := VInt 0 ]} = VInt 0
  /\ primary_match 0 (VDict {[ "ID" := VInt 0 ]}) = false.
Proof. vm_compute. repeat split. Qed.

(** C9: when the body of the response is not JSON, the text of the
    exception that [response.json()] raises names the requested URL with
    its query string; [_make_request] logs that text, and the key with
    it. *)
Lemma make_request_logs_key_counterexample :
  api_key (self Example.world) = Some "SECRET"
  /\ messages (trace (snd (_make_request (Example.runtime Example.net_not_json)
                             "itemmarket" None Example.world)))
     = ["Error making API request to https://api.torn.com/itemmarket: 200, message='Attempt to decode JSON with unexpected mimetype: text/html', url='https://api.torn.com/itemmarket?key=SECRET'"]
  /\ existsb (is_substring "SECRET")
       (messages (trace (snd (_make_request (Example.runtime Example.net_not_json)
                                "itemmarket" None Example.world))))
     = true.
Proof. vm_compute. repeat split. Qed.

(** C10: without a configured key the call returns (a failure) and the
    caller's dict does not hold the key. *)
Lemma make_request_no_key_dict_counterexample :
  fst (_make_request (Example.runtime Example.net_error) "user/1" (Some 0%nat)
         (Example.with_caller_dict Example.world_no_key)) = Return VNone
  /\ deref (snd (_make_request (Example.runtime Example.net_error) "user/1"
                   (Some 0%nat) (Example.with_caller_dict Example.world_no_key)))
       0%nat !! "key" = None.
Proof. vm_compute. repeat split. Qed.

(* ===================================================================== *)
(** * More on the client *)
(* ===================================================================== *)

(** The three ways a call of [_make_request] can go, for any parameters:
    no key; no token; or a request, with [p] what the GET carries. *)
Lemma _make_request_cases rt endpoint params w :
  (no_key (api_key (self w)) = true
   /\ _make_request rt endpoint params w =
        (Return VNone,
         {| self := self w; dicts := dicts w; sessions := sessions w;
            clock := clock w; sent := sent w;
            trace := trace w ++ [Log ERROR "No API key configured"] |}))
  \/ (no_key (api_key (self w)) = false
      /\ fst (RateLimiter.acquire (rate_limiter (self w)) (clock w))
         = RateLimiter.Suspended
      /\ _make_request rt endpoint params w = (Pending, w))
  \/ (no_key (api_key (self w)) = false
      /\ exists g rl p ds,
           RateLimiter.acquire (rate_limiter (self w)) (clock w)
           = (RateLimiter.Granted g, rl)
           /\ let url := request_url w endpoint in
              let out := outcome_of rt url (network rt (sent w) url p) in
              let w1 := {| self := set_rate_limiter rl (self w); dicts := ds;
                           sessions := sessions w; clock := g; sent := sent w;
                           trace := trace w ++ [Acquired g] |} in
              _make_request rt endpoint params w =
                (Return (fst out),
                 {| self := self (with_session w1); dicts := ds;
                    sessions := sessions (with_session w1); clock := g;
                    sent := S (sent w);
                    trace := (trace (with_session w1)
                              ++ [Get (request_session w1) url p])
                             ++ logged (snd out) |})).
Proof.
  destruct (no_key (api_key (self w))) eqn:Hkey.
  { left. split; [done|]. by apply _make_request_no_key_eq. }
  right.
  destruct (RateLimiter.acquire (rate_limiter (self w)) (clock w))
    as [[g|] rl] eqn:Hacq.
  - right. split; [done|].
    unfold _make_request. rewrite read_world_bind, Hkey.
    erewrite bind_return; [|unfold acquire; by rewrite Hacq].
    destruct params as [r|].
    + erewrite bind_return; [|reflexivity].
      erewrite bind_return; [|reflexivity].
      rewrite request_block_eq. cbv zeta.
      match goal with
      | |- context [with_session ?v] =>
          destruct (with_session_frame v) as (Hd & Hs & Hc)
      end.
      rewrite Hd, Hs, Hc. cbn [self dicts sessions clock sent trace].
      eexists g, rl, _, _. split; [done|]. reflexivity.
    + erewrite bind_return; [|reflexivity].
      erewrite bind_return; [|reflexivity].
      rewrite request_block_eq. cbv zeta.
      match goal with
      | |- context [with_session ?v] =>
          destruct (with_session_frame v) as (Hd & Hs & Hc)
      end.
      rewrite Hd, Hs, Hc. cbn [self dicts sessions clock sent trace].
      eexists g, rl, _, _. split; [done|]. reflexivity.
  - left. split; [done|]. split; [done|].
    unfold _make_request. rewrite read_world_bind, Hkey.
    unfold mbind, M_bind, bind, acquire. by rewrite Hacq.
Qed.

(* ===================================================================== *)
(** * Invariants of the worlds a client reaches *)
(* ===================================================================== *)

Lemma stable_adapter_stable rt I pd : stable rt I pd -> adapter_stable rt I pd.
Proof.
  intros Hst. split.
  - intros lv msg w Hw. by apply (stable_emit _ _ _ Hst).
  - apply (stable_new_dict _ _ _ Hst).
  - intros rs endpoint params. by apply triple_make_request.
Qed.

Section Adapters.
Context (rt : Runtime) (I : World -> Prop) (pd : bool).
Context (Had : adapter_stable rt I pd).

Lemma adapter_triple_log rs lv msg : triple I rs pd (log lv msg) (fun _ => True).
Proof. intros w Hw. split; [by apply (adapter_log _ _ _ Had)|done]. Qed.

Lemma adapter_triple_new_dict rs d : triple I rs pd (new_dict d) (fun _ => True).
Proof. intros w Hw. split; [by apply (adapter_new_dict _ _ _ Had)|done]. Qed.

Ltac adapter_steps :=
  repeat first
    [ lazymatch goal with
      | |- triple _ _ _ (_ ≫= _) _ => eapply triple_bind; [|intros ? _]
      | |- triple _ _ _ (try_except _ _) _ => apply triple_try; [|intros ?]
      | |- triple _ _ _ (mret _) _ =>
          first [by apply triple_ret
                | by apply triple_ret with (R := fun _ => True)]
      | |- triple _ _ _ (log _ _) _ => apply adapter_triple_log
      | |- triple _ _ _ (new_dict _) _ => apply adapter_triple_new_dict
      | |- triple _ _ _ (_make_request _ _ _) _ =>
          apply (adapter_request _ _ _ Had)
      | |- triple _ _ _ (lift _) _ => apply triple_lift
      | |- triple _ _ _ (if ?b then _ else _) _ => destruct b
      | |- triple _ _ _ (match ?x with _ => _ end) _ => destruct x
      end ].

Lemma adapter_perform c w :
  (forall v, I v -> I (snd (_get_session v))) ->
  (forall v, I v -> I (snd (close v))) ->
  I w -> I (perform rt c w).
Proof.
  intros Hget Hclose Hw.
  assert (Hop : forall (m : M pyval),
            triple I true pd m (fun _ => True) -> I (snd (m w)))
    by (intros m Hm; apply (Hm w Hw)).
  destruct c; simpl; [by apply Hget | by apply Hclose | apply Hop..].
  - apply (adapter_request _ _ _ Had).
  - unfold get_user_profile. adapter_steps.
  - unfold get_faction_info. adapter_steps.
  - unfold get_faction_members. adapter_steps.
  - unfold get_item_info. adapter_steps.
  - unfold get_item_market, get_item_market_try. adapter_steps.
  - unfold get_player_bazaar. adapter_steps.
Qed.

Lemma adapter_perform_all cs :
  (forall v, I v -> I (snd (_get_session v))) ->
  (forall v, I v -> I (snd (close v))) ->
  forall w, I w -> I (perform_all rt cs w).
Proof.
  intros Hget Hclose. induction cs as [|c cs IH]; intros w Hw; simpl; [done|].
  by apply IH, adapter_perform.
Qed.

End Adapters.

Lemma acquire_granted rl0 now g rl :
  RateLimiter.acquire rl0 now = (RateLimiter.Granted g, rl) ->
  RateLimiter.grants rl = g :: RateLimiter.grants rl0
  /\ RateLimiter.capacity rl = RateLimiter.capacity rl0
  /\ now <= g.
Proof.
  unfold RateLimiter.acquire.
  destruct (RateLimiter.next_slot rl0 now) as [g0|] eqn:Hslot; [|done].
  intros [= <- <-]. simpl. repeat split. by eapply next_slot_ge.
Qed.

Lemma with_session_limiter w :
  rate_limiter (self (with_session w)) = rate_limiter (self w)
  /\ api_key (self (with_session w)) = api_key (self w)
  /\ base_url (self (with_session w)) = base_url (self w).
Proof. unfold with_session. by destruct (cached_live w). Qed.

Lemma cached_live_with_session w :
  cached_live (with_session w) = Some (request_session w).
Proof.
  pose proof (with_session_live w) as Hl.
  unfold cached_live, request_session, with_session in *.
  unfold cached_live in *.
  destruct (session (self w)) as [h|] eqn:Hs.
  - destruct (is_closed w h) eqn:Hc; simpl in *.
    + by rewrite Hl.
    + by rewrite Hs, Hc.
  - simpl in *. by rewrite Hl.
Qed.

Lemma cached_live_ext w v :
  session (self w) = session (self v) -> sessions w = sessions v ->
  cached_live w = cached_live v.
Proof. unfold cached_live, is_closed. by intros -> ->. Qed.

Lemma opened_app tr1 tr2 : opened (tr1 ++ tr2) = (opened tr1 + opened tr2)%nat.
Proof.
  induction tr1 as [|ev tr1 IH]; simpl; [done|]. destruct ev; simpl; lia.
Qed.

Lemma closings_app tr1 tr2 :
  closings (tr1 ++ tr2) = (closings tr1 + closings tr2)%nat.
Proof.
  induction tr1 as [|ev tr1 IH]; simpl; [done|]. destruct ev; simpl; lia.
Qed.

Lemma opened_logged o : opened (logged o) = 0%nat.
Proof. by destruct o. Qed.

Lemma closings_logged o : closings (logged o) = 0%nat.
Proof. by destruct o. Qed.

Lemma with_session_accounted w :
  sessions_accounted w -> sessions_accounted (with_session w).
Proof.
  unfold sessions_accounted. intros H.
  rewrite cached_live_with_session. unfold with_session.
  destruct (cached_live w); simpl; [done|].
  rewrite opened_app, closings_app. simpl. lia.
Qed.

Lemma adapter_stable_balanced rt : adapter_stable rt balanced true.
Proof.
  split; try done.
  intros rs endpoint params w Hw. unfold balanced, tokens_taken in *.
  destruct (_make_request_cases rt endpoint params w)
    as [(_ & ->)|[(_ & _ & ->)|(_ & g & rl & p & ds & Hacq & ->)]]; simpl;
    [done..|].
  split; [|done].
  rewrite (proj1 (with_session_limiter _)). simpl.
  destruct (acquire_granted _ _ _ _ Hacq) as (-> & _). simpl. by rewrite Hw.
Qed.

Lemma adapter_stable_sessions rt : adapter_stable rt sessions_accounted true.
Proof.
  split.
  - intros lv msg w Hw. unfold sessions_accounted in *. simpl.
    rewrite opened_app, closings_app. simpl.
    rewrite (cached_live_ext _ w) by done. lia.
  - intros d w Hw. unfold sessions_accounted in *. simpl.
    by rewrite (cached_live_ext _ w).
  - intros rs endpoint params w Hw.
    destruct (_make_request_cases rt endpoint params w)
      as [(_ & ->)|[(_ & _ & ->)|(_ & g & rl & p & ds & Hacq & ->)]];
      cbn [fst snd]; [|done|].
    + split; [|done]. unfold sessions_accounted in *. simpl.
      rewrite opened_app, closings_app. simpl.
      rewrite (cached_live_ext _ w) by done. lia.
    + split; [|done].
      set (w1 := {| self := set_rate_limiter rl (self w); dicts := ds;
                    sessions := sessions w; clock := g; sent := sent w;
                    trace := trace w ++ [Acquired g] |}).
      assert (H1 : sessions_accounted w1).
      { unfold sessions_accounted in *. simpl.
        rewrite opened_app, closings_app. simpl.
        rewrite (cached_live_ext w1 w) by done. lia. }
      apply with_session_accounted in H1.
      unfold sessions_accounted in *. cbn [trace].
      rewrite !opened_app, !closings_app, opened_logged, closings_logged.
      simpl. rewrite (cached_live_ext _ (with_session w1)) by done. lia.
Qed.

Lemma close_eq w :
  close w =
    match cached_live w with
    | Some h =>
        match sessions w !! h with
        | Some s =>
            (Return tt,
             {| self := self w; dicts := dicts w;
                sessions := <[h := {| closed := true;
                                      timeout_total := timeout_total s;
                                      headers := headers s |}]> (sessions w);
                clock := clock w; sent := sent w;
                trace := trace w ++ [Closed h] |})
        | None => (Return tt, w)
        end
    | None => (Return tt, w)
    end.
Proof.
  unfold close, cached_live. rewrite read_world_bind.
  destruct (session (self w)) as [h|]; [|done].
  destruct (is_closed w h); [done|]. done.
Qed.

Lemma cached_live_lookup w h :
  cached_live w = Some h ->
  session (self w) = Some h
  /\ exists s, sessions w !! h = Some s /\ closed s = false.
Proof.
  unfold cached_live. destruct (session (self w)) as [h0|]; [|done].
  destruct (is_closed w h0) eqn:Hc; [done|]. intros [= ->].
  split; [done|]. by apply live_lookup.
Qed.

Lemma close_accounted w : sessions_accounted w -> sessions_accounted (snd (close w)).
Proof.
  intros Hw. rewrite close_eq.
  destruct (cached_live w) as [h|] eqn:Hc; [|done].
  destruct (cached_live_lookup w h Hc) as (Hs & s & Hh & Hopen).
  rewrite Hh. unfold sessions_accounted in *. simpl.
  rewrite opened_app, closings_app, Hc in *. simpl.
  assert (Hnone : cached_live
            {| self := self w; dicts := dicts w;
               sessions := <[h := {| closed := true;
                                     timeout_total := timeout_total s;
                                     headers := headers s |}]> (sessions w);
               clock := clock w; sent := sent w;
               trace := trace w ++ [Closed h] |} = None).
  { unfold cached_live, is_closed. simpl. rewrite Hs.
    rewrite list_lookup_insert_eq by (by eapply lookup_lt_Some). done. }
  rewrite Hnone. lia.
Qed.

(* ===================================================================== *)
(** * More properties of the client *)
(* ===================================================================== *)

(** X1. [close()] always returns.  It closes the cached session object if
    that is open, and then only that: the client, the dicts and the count
    of GETs are as before; with no session, or one already closed, it
    does nothing.  Afterwards no open session is cached, so a second
    [close()] does nothing. *)
Theorem close_closes_once (w : World) :
  fst (close w) = Return tt
  /\ cached_live (snd (close w)) = None
  /\ close (snd (close w)) = (Return tt, snd (close w))
  /\ (cached_live w = None -> close w = (Return tt, w))
  /\ (forall h, cached_live w = Some h ->
        is_closed (snd (close w)) h = true
        /\ trace (snd (close w)) = trace w ++ [Closed h]
        /\ self (snd (close w)) = self w
        /\ dicts (snd (close w)) = dicts w
        /\ sent (snd (close w)) = sent w
        /\ forall h', h' <> h -> sessions (snd (close w)) !! h' = sessions w !! h').
Proof.
  assert (Hnone : cached_live (snd (close w)) = None).
  { rewrite close_eq. destruct (cached_live w) as [h|] eqn:Hc; [|done].
    destruct (cached_live_lookup w h Hc) as (Hs & s & Hh & Hopen).
    rewrite Hh. unfold cached_live, is_closed. simpl. rewrite Hs.
    by rewrite list_lookup_insert_eq by (by eapply lookup_lt_Some). }
  split; [|split; [done|split; [|split]]].
  - rewrite close_eq. destruct (cached_live w) as [h|]; [|done].
    by destruct (sessions w !! h).
  - rewrite (close_eq (snd (close w))). by rewrite Hnone.
  - intros Hc. rewrite close_eq. by rewrite Hc.
  - intros h Hc. rewrite close_eq, Hc.
    destruct (cached_live_lookup w h Hc) as (Hs & s & Hh & Hopen).
    rewrite Hh. simpl. repeat split.
    + unfold is_closed. simpl.
      by rewrite list_lookup_insert_eq by (by eapply lookup_lt_Some).
    + intros h' Hne. by rewrite list_lookup_insert_ne.
Qed.

(** X2. A request that passes the key check and gets its token takes
    exactly one token and sends exactly one GET, whatever the network
    answers: nothing is sent twice and no token is given back.  In every
    world a client reaches there are as many GETs as acquisitions. *)
Theorem make_request_one_token_one_get (rt : Runtime) :
  (forall endpoint params w,
     no_key (api_key (self w)) = false -> has_tokens w ->
     let w' := snd (_make_request rt endpoint params w) in
     sent w' = S (sent w)
     /\ exists g,
          RateLimiter.grants (rate_limiter (self w'))
          = g :: RateLimiter.grants (rate_limiter (self w))
          /\ clock w <= g /\ clock w' = g)
  /\ (forall cfg calls,
        sent (perform_all rt calls (initial cfg))
        = tokens_taken (perform_all rt calls (initial cfg))).
Proof.
  split.
  - intros endpoint params w Hkey Hw.
    destruct (has_tokens_granted w Hw) as (g0 & rl0 & Hacq0 & _).
    destruct (_make_request_cases rt endpoint params w)
      as [(Hk & _)|[(_ & Hsusp & _)|(_ & g & rl & p & ds & Hacq & ->)]].
    + congruence.
    + rewrite Hacq0 in Hsusp. discriminate.
    + simpl. split; [done|]. exists g.
      rewrite (proj1 (with_session_limiter _)). simpl.
      destruct (acquire_granted _ _ _ _ Hacq) as (Hg & _ & Hle).
      destruct (with_session_frame
                  {| self := set_rate_limiter rl (self w); dicts := ds;
                     sessions := sessions w; clock := g; sent := sent w;
                     trace := trace w ++ [Acquired g] |}) as (_ & _ & Hc).
      done.
  - intros cfg calls.
    apply (adapter_perform_all rt balanced true (adapter_stable_balanced rt)).
    + intros v Hv. unfold balanced, tokens_taken in *.
      rewrite _get_session_self_limiter.
      rewrite _get_session_eq. simpl.
      by rewrite (proj1 (proj2 (with_session_frame v))).
    + intros v Hv. unfold balanced, tokens_taken in *.
      rewrite close_self. rewrite close_eq.
      destruct (cached_live v) as [h|]; [|done].
      by destruct (sessions v !! h).
    + done.
Qed.

Lemma sessions_used_app tr1 tr2 :
  sessions_used (tr1 ++ tr2) = sessions_used tr1 ++ sessions_used tr2.
Proof.
  induction tr1 as [|ev tr1 IH]; simpl; [done|].
  destruct ev; simpl; by rewrite ?IH.
Qed.

Lemma sessions_used_logged o : sessions_used (logged o) = [].
Proof. by destruct o. Qed.

Lemma sessions_used_with_session w :
  sessions_used (trace (with_session w)) = sessions_used (trace w).
Proof.
  unfold with_session. destruct (cached_live w); simpl; [done|].
  rewrite sessions_used_app. simpl. apply app_nil_r.
Qed.

(** X3. After a request that passes the key check and gets its token, an
    open session is cached, and it is the one the GET of the request went
    through; the next request will go through it too, and a request that
    finds an open session cached opens none.  In every world a client
    reaches, the session objects opened are as many as those closed, plus
    the one that is cached and open: a session is opened at first use and
    after a [close()] only. *)
Theorem requests_share_the_session (rt : Runtime) :
  (forall endpoint params w,
     no_key (api_key (self w)) = false -> has_tokens w ->
     let w' := snd (_make_request rt endpoint params w) in
     cached_live w' = Some (request_session w)
     /\ (forall h, cached_live w = Some h ->
           request_session w = h /\ sessions w' = sessions w
           /\ opened (trace w') = opened (trace w))
     /\ sessions_used (trace w') = sessions_used (trace w) ++ [request_session w]
     /\ request_session w' = request_session w
     /\ (cached_live w = None ->
         request_session w = length (sessions w)
         /\ sessions w !! request_session w = None
         /\ opened (trace w') = S (opened (trace w))))
  /\ (forall cfg calls,
        let w := perform_all rt calls (initial cfg) in
        sessions_accounted w
        /\ (opened (trace w) <= closings (trace w) + 1)%nat).
Proof.
  split.
  - intros endpoint params w Hkey Hw.
    destruct (has_tokens_granted w Hw) as (g0 & rl0 & Hacq0 & _).
    destruct (_make_request_cases rt endpoint params w)
      as [(Hk & _)|[(_ & Hsusp & _)|(_ & g & rl & p & ds & Hacq & ->)]].
    + congruence.
    + rewrite Hacq0 in Hsusp. discriminate.
    + cbn [snd].
      set (w1 := {| self := set_rate_limiter rl (self w); dicts := ds;
                    sessions := sessions w; clock := g; sent := sent w;
                    trace := trace w ++ [Acquired g] |}).
      assert (Hc1 : cached_live w1 = cached_live w) by (by apply cached_live_ext).
      assert (Hr1 : request_session w1 = request_session w).
      { unfold request_session. by rewrite Hc1. }
      assert (Hlive : cached_live
                        {| self := self (with_session w1); dicts := ds;
                           sessions := sessions (with_session w1); clock := g;
                           sent := S (sent w);
                           trace := (trace (with_session w1)
                                     ++ [Get (request_session w1)
                                           (request_url w endpoint) p])
                                    ++ logged
                                         (snd (outcome_of rt (request_url w endpoint)
                                                 (network rt (sent w)
                                                    (request_url w endpoint) p))) |}
                      = Some (request_session w)).
      { rewrite (cached_live_ext _ (with_session w1)) by done.
        by rewrite cached_live_with_session. }
      split; [exact Hlive|]. split; [|split; [|split]].
      * intros h Hc. unfold request_session. rewrite Hc. simpl.
        split; [done|]. unfold with_session. rewrite Hc1, Hc. simpl.
        split; [done|].
        rewrite !opened_app, opened_logged. simpl. lia.
      * cbn [trace].
        rewrite !sessions_used_app, sessions_used_logged,
          sessions_used_with_session.
        unfold w1 at 1. cbn [trace]. rewrite sessions_used_app. simpl.
        by rewrite !app_nil_r, Hr1.
      * unfold request_session at 1. by rewrite Hlive.
      * intros Hc. unfold request_session. rewrite Hc. simpl.
        split; [done|]. split; [by apply lookup_ge_None|].
        cbn [trace]. unfold with_session. rewrite Hc1, Hc. simpl.
        rewrite !opened_app, opened_logged. simpl. lia.
  - intros cfg calls w.
    assert (H : sessions_accounted w).
    { apply (adapter_perform_all rt sessions_accounted true
               (adapter_stable_sessions rt)).
      - intros v Hv. rewrite _get_session_eq. by apply with_session_accounted.
      - apply close_accounted.
      - done. }
    split; [done|]. unfold sessions_accounted in H.
    destruct (cached_live w); lia.
Qed.

Lemma outcome_of_cases rt url rep :
  (fst (outcome_of rt url rep) = VNone
   /\ exists msg, snd (outcome_of rt url rep) = Some msg)
  \/ (snd (outcome_of rt url rep) = None
      /\ contains "error" (fst (outcome_of rt url rep)) = Ok false).
Proof.
  unfold outcome_of. destruct rep as [status [data|e]|e]; simpl; eauto.
  - destruct (status =? 200); simpl; eauto.
    destruct (contains "error" data) as [[|]|e] eqn:Hc; simpl; eauto.
    destruct (getitem data "error"); simpl; eauto.
  - destruct (status =? 200); simpl; eauto.
Qed.

Lemma contains_ok_shape k v b :
  contains k v = Ok b -> is_dict v || is_list v || is_str v = true.
Proof. by destruct v. Qed.

Lemma messages_with_session w :
  messages (trace (with_session w)) = messages (trace w).
Proof.
  unfold with_session. destruct (cached_live w); simpl; [done|].
  rewrite messages_app. simpl. apply app_nil_r.
Qed.

(** X4. Whenever [_make_request] returns [None] it has logged exactly one
    message, the reason; whenever it returns anything else it has logged
    nothing, and the value is a dict, a list or a str of which ['error']
    is no key, element or part. *)
Theorem make_request_none_iff_logged rt endpoint params w v :
  fst (_make_request rt endpoint params w) = Return v ->
  (v = VNone
   /\ exists msg,
        messages_since w (snd (_make_request rt endpoint params w)) = [msg])
  \/ (v <> VNone
      /\ messages_since w (snd (_make_request rt endpoint params w)) = []
      /\ contains "error" v = Ok false
      /\ is_dict v || is_list v || is_str v = true).
Proof.
  unfold messages_since.
  destruct (_make_request_cases rt endpoint params w)
    as [(_ & ->)|[(_ & _ & ->)|(_ & g & rl & p & ds & Hacq & ->)]];
    cbn [fst snd]; [| done |].
  - intros [= <-]. left. split; [done|]. eexists. simpl.
    rewrite messages_app, drop_app_length. done.
  - intros [= <-]. cbn [trace].
    rewrite !messages_app, messages_with_session, messages_logged. simpl.
    rewrite messages_app. simpl. rewrite !app_nil_r, drop_app_length.
    destruct (outcome_of_cases rt (request_url w endpoint)
                (network rt (sent w) (request_url w endpoint) p))
      as [(-> & msg & ->)|(-> & Hc)].
    + left. split; [done|]. by exists msg.
    + right. split; [|split; [done|split; [done|by eapply contains_ok_shape]]].
      intros Hn. by rewrite Hn in Hc.
Qed.

(* ===================================================================== *)
(** * The endpoint adapters *)
(* ===================================================================== *)

Lemma make_request_no_raise rt endpoint params w e :
  fst (_make_request rt endpoint params w) <> Raise e.
Proof.
  apply (never_raises rt _ (fun _ => True)). intros I pd H.
  by apply (triple_make_request rt I pd H).
Qed.

(** An adapter's request, with a key and a token. *)
Lemma adapter_request_eq rt endpoint selections w :
  no_key (api_key (self w)) = false ->
  has_tokens w ->
  exists w',
    _make_request rt endpoint (Some (length (dicts w)))
      (snd (new_dict {[ "selections" := selections ]} w))
    = (Return (fetched rt w endpoint selections), w')
    /\ gets (trace w')
       = gets (trace w)
         ++ [(request_url w endpoint, selection_params w selections)].
Proof.
  intros Hkey Hw.
  destruct (request_with_new_dict rt endpoint {[ "selections" := selections ]}
              w Hkey Hw) as (w' & Heq & Hgets & _).
  exists w'. split; [exact Heq | exact Hgets].
Qed.

(** The adapters whose [try] block is the request alone: the [except]
    clause never runs. *)
Lemma adapter_pass_through rt endpoint d handler w :
  try_except (p ← new_dict d; data ← _make_request rt endpoint (Some p);
              mret data) handler w
  = _make_request rt endpoint (Some (length (dicts w))) (snd (new_dict d w)).
Proof.
  rewrite (try_bind_return _ _ _ _ _ _ (new_dict_eq d w)).
  unfold try_except, mbind, M_bind, bind. simpl.
  pose proof (make_request_no_raise rt endpoint (Some (length (dicts w)))
                {| self := self w; dicts := dicts w ++ [d];
                   sessions := sessions w; clock := clock w; sent := sent w;
                   trace := trace w |}) as Hnr.
  destruct (_make_request rt endpoint _ _) as [[a|e|] w1]; simpl in *;
    [done| |done].
  by destruct (Hnr e).
Qed.

Lemma get_user_profile_fetch rt (user_id : pyval) w :
  no_key (api_key (self w)) = false ->
  has_tokens w ->
  fst (get_user_profile rt user_id w)
  = Return (fetched rt w ("user/" +:+ py_str rt user_id) "basic,profile")
  /\ gets (trace (snd (get_user_profile rt user_id w)))
     = gets (trace w)
       ++ [(request_url w ("user/" +:+ py_str rt user_id),
            selection_params w "basic,profile")].
Proof.
  intros Hkey Hw. unfold get_user_profile. rewrite adapter_pass_through.
  destruct (adapter_request_eq rt ("user/" +:+ py_str rt user_id)
              "basic,profile" w Hkey Hw) as (w' & -> & Hg). done.
Qed.

Lemma get_faction_info_fetch rt (faction_id : pyval) w :
  no_key (api_key (self w)) = false ->
  has_tokens w ->
  fst (get_faction_info rt faction_id w)
  = Return (fetched rt w ("faction/" +:+ py_str rt faction_id) "basic")
  /\ gets (trace (snd (get_faction_info rt faction_id w)))
     = gets (trace w)
       ++ [(request_url w ("faction/" +:+ py_str rt faction_id),
            selection_params w "basic")].
Proof.
  intros Hkey Hw. unfold get_faction_info. rewrite adapter_pass_through.
  destruct (adapter_request_eq rt ("faction/" +:+ py_str rt faction_id)
              "basic" w Hkey Hw) as (w' & -> & Hg). done.
Qed.

(** X5. [get_user_profile] and [get_faction_info] add nothing to the
    pipeline: each is its one request (their [except] clauses never run),
    a GET to user/<id> with selections basic,profile, or to faction/<id>
    with selections basic, and returns what the pipeline returns. *)
Theorem profile_and_faction_info_pass_through rt (user_id faction_id : pyval) w :
  get_user_profile rt user_id w
  = _make_request rt ("user/" +:+ py_str rt user_id) (Some (length (dicts w)))
      (snd (new_dict {[ "selections" := "basic,profile" ]} w))
  /\ get_faction_info rt faction_id w
     = _make_request rt ("faction/" +:+ py_str rt faction_id)
         (Some (length (dicts w)))
         (snd (new_dict {[ "selections" := "basic" ]} w))
  /\ (no_key (api_key (self w)) = false -> has_tokens w ->
      (fst (get_user_profile rt user_id w)
       = Return (fetched rt w ("user/" +:+ py_str rt user_id) "basic,profile")
       /\ gets (trace (snd (get_user_profile rt user_id w)))
          = gets (trace w)
            ++ [(request_url w ("user/" +:+ py_str rt user_id),
                 selection_params w "basic,profile")])
      /\ (fst (get_faction_info rt faction_id w)
          = Return (fetched rt w ("faction/" +:+ py_str rt faction_id) "basic")
          /\ gets (trace (snd (get_faction_info rt faction_id w)))
             = gets (trace w)
               ++ [(request_url w ("faction/" +:+ py_str rt faction_id),
                    selection_params w "basic")])).
Proof.
  split; [apply adapter_pass_through|]. split; [apply adapter_pass_through|].
  intros Hkey Hw. split.
  - by apply get_user_profile_fetch.
  - by apply get_faction_info_fetch.
Qed.

Ltac quiet_block :=
  eexists; split; [reflexivity | simpl; rewrite ?gets_app; simpl;
                                 by rewrite ?app_nil_r].

Lemma members_block rt (faction_id : pyval) data w' :
  exists v,
  try_except
    (if truthy data then lift (get_method data "members" (VDict ∅))
     else mret (VDict ∅))
    (fun e =>
       log ERROR ("Error getting faction members for "
                  +:+ py_str rt faction_id +:+ ": " +:+ exn_str e);;
       mret (VDict ∅)) w'
  = (Return (members_of data), v) /\ gets (trace v) = gets (trace w').
Proof.
  unfold try_except, mbind, M_bind, bind.
  destruct data as [|b|z|f|s|l|d]; simpl.
  - quiet_block.
  - destruct b; quiet_block.
  - destruct (negb (z =? 0)); quiet_block.
  - destruct (float_truthy f); quiet_block.
  - destruct (negb (String.eqb s "")); quiet_block.
  - destruct l; quiet_block.
  - destruct (bool_decide (d = ∅)) eqn:He; simpl; [|quiet_block].
    apply bool_decide_eq_true in He as ->. unfold dict_get.
    rewrite lookup_empty. quiet_block.
Qed.

Lemma get_faction_members_fetch rt (faction_id : pyval) w :
  no_key (api_key (self w)) = false ->
  has_tokens w ->
  fst (get_faction_members rt faction_id w)
  = Return (members_of (fetched rt w ("faction/" +:+ py_str rt faction_id)
                          "members"))
  /\ gets (trace (snd (get_faction_members rt faction_id w)))
     = gets (trace w)
       ++ [(request_url w ("faction/" +:+ py_str rt faction_id),
            selection_params w "members")].
Proof.
  intros Hkey Hw. unfold get_faction_members.
  rewrite (try_bind_return _ _ _ _ _ _ (new_dict_eq _ w)).
  destruct (adapter_request_eq rt ("faction/" +:+ py_str rt faction_id)
              "members" w Hkey Hw) as (w' & Heq & Hg).
  rewrite (try_bind_return _ _ _ _ _ _ Heq). rewrite <- Hg.
  generalize (fetched rt w ("faction/" +:+ py_str rt faction_id) "members").
  intros data.
  pose proof (members_block rt faction_id data w') as H.
  destruct H as (v & -> & Hv). done.
Qed.

(** X6. [get_faction_members] sends one GET, to faction/<id> with
    selections members, and returns the value under ['members'] of the
    payload when that is a dict, as it is; for a failed request, a dict
    without ['members'], and for a payload that is no dict (the [except]
    clause), it returns the empty dict. *)
Theorem get_faction_members_result rt (faction_id : pyval) w :
  no_key (api_key (self w)) = false ->
  has_tokens w ->
  fst (get_faction_members rt faction_id w)
  = Return (members_of (fetched rt w ("faction/" +:+ py_str rt faction_id)
                          "members"))
  /\ gets (trace (snd (get_faction_members rt faction_id w)))
     = gets (trace w)
       ++ [(request_url w ("faction/" +:+ py_str rt faction_id),
            selection_params w "members")].
Proof. apply get_faction_members_fetch. Qed.

Lemma player_bazaar_block rt (player_id : pyval) data w' :
  exists v,
  try_except
    (has_bazaar ← (if truthy data then lift (contains "bazaar" data)
                   else mret false);
     if (has_bazaar : bool) then
       bazaar_items ← lift (get_method data "bazaar" (VList []));
       n ← lift (len bazaar_items);
       log INFO ("Found " +:+ py_str rt (VInt n) +:+ " bazaar items for player "
                 +:+ py_str rt player_id);;
       mret bazaar_items
     else
       log INFO ("No bazaar data found for player " +:+ py_str rt player_id);;
       mret (VList []))
    (fun e =>
       log ERROR ("Error getting bazaar for player " +:+ py_str rt player_id
                  +:+ ": " +:+ exn_str e);;
       mret (VList [])) w'
  = (Return (bazaar_of data), v) /\ gets (trace v) = gets (trace w').
Proof.
  unfold try_except, mbind, M_bind, bind.
  destruct data as [|b|z|f|s|l|d]; simpl.
  - quiet_block.
  - destruct b; quiet_block.
  - destruct (negb (z =? 0)); quiet_block.
  - destruct (float_truthy f); quiet_block.
  - destruct (negb (String.eqb s "")); simpl; [|quiet_block].
    destruct (is_substring "bazaar" s); quiet_block.
  - destruct l as [|x l]; simpl; [quiet_block|].
    destruct (eq_str x "bazaar" || existsb _ l); quiet_block.
  - destruct (bool_decide (d = ∅)) eqn:He; simpl.
    { apply bool_decide_eq_true in He as ->. rewrite lookup_empty.
      quiet_block. }
    unfold dict_get.
    destruct (d !! "bazaar") as [x|] eqn:Hx; simpl; [|quiet_block].
    destruct x; simpl; quiet_block.
Qed.

Lemma get_player_bazaar_fetch rt (player_id : pyval) w :
  no_key (api_key (self w)) = false ->
  has_tokens w ->
  fst (get_player_bazaar rt player_id w)
  = Return (bazaar_of (fetched rt w ("user/" +:+ py_str rt player_id) "bazaar"))
  /\ gets (trace (snd (get_player_bazaar rt player_id w)))
     = gets (trace w)
       ++ [(request_url w ("user/" +:+ py_str rt player_id),
            selection_params w "bazaar")].
Proof.
  intros Hkey Hw. unfold get_player_bazaar.
  rewrite (try_bind_return _ _ _ _ _ _ (new_dict_eq _ w)).
  destruct (adapter_request_eq rt ("user/" +:+ py_str rt player_id)
              "bazaar" w Hkey Hw) as (w' & Heq & Hg).
  rewrite (try_bind_return _ _ _ _ _ _ Heq). rewrite <- Hg.
  generalize (fetched rt w ("user/" +:+ py_str rt player_id) "bazaar").
  intros data.
  pose proof (player_bazaar_block rt player_id data w') as H.
  destruct H as (v & -> & Hv). done.
Qed.

(** X7. [get_player_bazaar] sends one GET, to user/<id> with selections
    bazaar, and returns the value under ['bazaar'] of the payload as it
    is, unfiltered, when that has a length: a list, but also a dict or a
    str.  In every other case it returns the empty list. *)
Theorem get_player_bazaar_result rt (player_id : pyval) w :
  no_key (api_key (self w)) = false ->
  has_tokens w ->
  fst (get_player_bazaar rt player_id w)
  = Return (bazaar_of (fetched rt w ("user/" +:+ py_str rt player_id) "bazaar"))
  /\ gets (trace (snd (get_player_bazaar rt player_id w)))
     = gets (trace w)
       ++ [(request_url w ("user/" +:+ py_str rt player_id),
            selection_params w "bazaar")].
Proof. apply get_player_bazaar_fetch. Qed.

Lemma get_item_info_fetch rt (item_id : pyval) w :
  no_key (api_key (self w)) = false ->
  has_tokens w ->
  fst (get_item_info rt item_id w)
  = Return (item_of rt item_id (fetched rt w "torn" "items"))
  /\ gets (trace (snd (get_item_info rt item_id w)))
     = gets (trace w) ++ [(request_url w "torn", selection_params w "items")].
Proof.
  intros Hkey Hw. unfold get_item_info.
  rewrite (try_bind_return _ _ _ _ _ _ (new_dict_eq _ w)).
  destruct (adapter_request_eq rt "torn" "items" w Hkey Hw) as (w' & Heq & Hg).
  rewrite (try_bind_return _ _ _ _ _ _ Heq). rewrite <- Hg.
  unfold item_of. generalize (fetched rt w "torn" "items"). intros data.
  unfold try_except, mbind, M_bind, bind.
  destruct (safe_get rt data "items" (VDict ∅)) as [items|e]; simpl.
  - destruct items; simpl; rewrite ?gets_app; simpl; by rewrite ?app_nil_r.
  - rewrite ?gets_app; simpl; by rewrite ?app_nil_r.
Qed.

(** X8. [get_item_info] sends one GET, to torn with selections items, the
    whole catalogue, on every call.  It returns the entry of [safe_get]'s
    result under [str(item_id)], the empty dict when there is no such
    entry, and [None] when [safe_get] raises or gives no dict. *)
Theorem get_item_info_result rt (item_id : pyval) w :
  no_key (api_key (self w)) = false ->
  has_tokens w ->
  fst (get_item_info rt item_id w)
  = Return (item_of rt item_id (fetched rt w "torn" "items"))
  /\ gets (trace (snd (get_item_info rt item_id w)))
     = gets (trace w) ++ [(request_url w "torn", selection_params w "items")].
Proof. apply get_item_info_fetch. Qed.

Lemma no_key_request rt endpoint d w :
  no_key (api_key (self w)) = true ->
  _make_request rt endpoint (Some (length (dicts w)))
    {| self := self w; dicts := dicts w ++ [d]; sessions := sessions w;
       clock := clock w; sent := sent w; trace := trace w |}
  = (Return VNone,
     {| self := self w; dicts := dicts w ++ [d]; sessions := sessions w;
        clock := clock w; sent := sent w;
        trace := trace w ++ [Log ERROR "No API key configured"] |}).
Proof. intros Hkey. by rewrite _make_request_no_key_eq. Qed.

Ltac no_key_op Hkey :=
  rewrite (try_bind_return _ _ _ _ _ _ (new_dict_eq _ _));
  rewrite (try_bind_return _ _ _ _ _ _ (no_key_request _ _ _ _ Hkey));
  unfold try_except, mbind, M_bind, bind, quiet; simpl;
  rewrite ?gets_app; simpl; rewrite ?app_nil_r.

(** X9. Without a configured key no operation sends a GET, takes a token
    or opens a session, and each returns its empty value: [None] for the
    profile and the faction info, the empty dict for the members, the
    empty list for the market and the bazaar; the item info is what
    [safe_get] makes of [None]. *)
Theorem operations_without_key rt (x : pyval) (item_id : Z) w :
  no_key (api_key (self w)) = true ->
  (fst (get_user_profile rt x w) = Return VNone
   /\ quiet w (snd (get_user_profile rt x w)))
  /\ (fst (get_faction_info rt x w) = Return VNone
      /\ quiet w (snd (get_faction_info rt x w)))
  /\ (fst (get_faction_members rt x w) = Return (VDict ∅)
      /\ quiet w (snd (get_faction_members rt x w)))
  /\ (fst (get_item_info rt x w) = Return (item_of rt x VNone)
      /\ quiet w (snd (get_item_info rt x w)))
  /\ (fst (get_item_market rt item_id w) = Return (VList [])
      /\ quiet w (snd (get_item_market rt item_id w)))
  /\ (fst (get_player_bazaar rt x w) = Return (VList [])
      /\ quiet w (snd (get_player_bazaar rt x w))).
Proof.
  intros Hkey. split; [|split; [|split; [|split; [|split]]]].
  - unfold get_user_profile. no_key_op Hkey. done.
  - unfold get_faction_info. no_key_op Hkey. done.
  - unfold get_faction_members. no_key_op Hkey. done.
  - unfold get_item_info, item_of. no_key_op Hkey.
    destruct (safe_get rt VNone "items" (VDict ∅)) as [[]|]; simpl;
      rewrite ?gets_app; simpl; rewrite ?gets_app; simpl;
      by rewrite ?app_nil_r.
  - unfold get_item_market, get_item_market_try.
    rewrite (try_bind_return _ _ _ _ _ _ (new_dict_eq _ _)).
    rewrite (try_bind_return _ _ _ _ _ _ (no_key_request _ _ _ _ Hkey)).
    cbn beta iota delta [primary_listings].
    rewrite (try_bind_return _ _ _ _ _ _ (new_dict_eq _ _)).
    cbn [self dicts sessions clock sent trace].
    erewrite try_bind_return;
      [|apply _make_request_no_key_eq; exact Hkey].
    unfold try_except, mbind, M_bind, bind, quiet. simpl.
    rewrite ?gets_app. simpl. by rewrite ?app_nil_r.
  - unfold get_player_bazaar. no_key_op Hkey. done.
Qed.

Lemma Forall_filter_true {A} (P : A -> bool) (l : list A) :
  Forall (fun x => P x = true) (List.filter P l).
Proof.
  induction l as [|x l IH]; simpl; [constructor|].
  destruct (P x) eqn:Hx; [by constructor | done].
Qed.

Lemma primary_listings_match item_id data :
  Forall (fun x => primary_match item_id x = true) (primary_listings item_id data).
Proof.
  unfold primary_listings. destruct data; try constructor.
  destruct (truthy (VDict d)); [|constructor].
  destruct (dict_get d "itemmarket" (VDict d)); try constructor.
  apply Forall_filter_true.
Qed.

Lemma primary_listings_from item_id data :
  primary_listings item_id data <> [] ->
  exists d items,
    data = VDict d /\ d !! "itemmarket" = Some (VList items)
    /\ primary_listings item_id data = List.filter (primary_match item_id) items.
Proof.
  unfold primary_listings. destruct data as [| | | | | |d]; try done.
  destruct (truthy (VDict d)); [|done]. unfold dict_get.
  destruct (d !! "itemmarket") as [[| | | | |items|]|] eqn:Hm; simpl; try done.
  intros _. by exists d, items.
Qed.

Lemma bazaar_listings_from item_id data :
  bazaar_listings item_id data <> [] ->
  exists d items,
    data = VDict d /\ d !! "bazaar" = Some (VList items)
    /\ bazaar_listings item_id data = List.filter (bazaar_match item_id) items.
Proof.
  unfold bazaar_listings. destruct data as [| | | | | |d]; try done.
  destruct (d !! "bazaar") as [[| | | | |items|]|] eqn:Hm; simpl; try done.
  intros _. by exists d, items.
Qed.

(** X10. Whatever the network answers, every listing [get_item_market]
    returns is a dict that matches the requested identifier, and all of
    them by the same test: either the first truthy of ['item_id'], ['ID']
    and ['itemID'] of each is a number equal to it, or the ['ID'] of each
    is.  With a key and a token, a result that is not empty holds exactly
    the matching listings of the feed it came from: those of the
    itemmarket payload, by the first test, or, when these are none, those
    of the bazaar payload, by the second. *)
Theorem get_item_market_only_matches rt item_id w v :
  fst (get_item_market rt item_id w) = Return v ->
  exists l,
    v = VList l
    /\ (Forall (identified item_id) l \/ Forall (field_equals "ID" item_id) l)
    /\ (no_key (api_key (self w)) = false -> has_tokens w -> l <> [] ->
        (exists d items,
           primary_data rt w = VDict d
           /\ d !! "itemmarket" = Some (VList items)
           /\ forall x, x ∈ l <-> x ∈ items /\ identified item_id x)
        \/ (primary_listings item_id (primary_data rt w) = []
            /\ exists d items,
                 secondary_data rt w = VDict d
                 /\ d !! "bazaar" = Some (VList items)
                 /\ forall x,
                      x ∈ l <-> x ∈ items /\ field_equals "ID" item_id x)).
Proof.
  pose proof (stable_True rt) as Hst.
  set (R := fun v : pyval =>
              exists l, v = VList l
                /\ (Forall (identified item_id) l
                    \/ Forall (field_equals "ID" item_id) l)).
  assert (Hnil : R (VList [])) by (exists []; split; [done|left; constructor]).
  assert (Ht : triple (fun _ => True) false true (get_item_market rt item_id) R).
  { unfold get_item_market, get_item_market_try.
    apply triple_try;
      [|intros e; eapply triple_bind;
        [eapply triple_log; eassumption | intros ? _; by apply triple_ret]].
    eapply triple_bind; [eapply triple_new_dict; eassumption|intros p _].
    eapply triple_bind; [eapply triple_make_request; eassumption|intros data _].
    destruct (primary_listings item_id data) as [|x l] eqn:E.
    - eapply triple_bind; [eapply triple_new_dict; eassumption|intros q _].
      eapply triple_bind; [eapply triple_make_request; eassumption|intros data2 _].
      eapply triple_bind with (R1 := fun _ => True).
      { destruct (truthy data2); [apply triple_lift | by apply triple_ret]. }
      intros [|] _.
      + eapply triple_bind; [apply triple_lift|intros bazaar_items _].
        eapply triple_bind; [apply triple_lift|intros items _].
        destruct (List.filter (bazaar_match item_id) items) as [|y l'] eqn:F.
        * eapply triple_bind; [eapply triple_log; eassumption|intros ? _].
          by apply triple_ret.
        * eapply triple_bind; [eapply triple_log; eassumption|intros ? _].
          apply triple_ret. eexists. split; [done|right].
          rewrite <- F. eapply Forall_impl; [apply Forall_filter_true|].
          intros z Hz. by apply bazaar_match_spec.
      + eapply triple_bind; [eapply triple_log; eassumption|intros ? _].
        by apply triple_ret.
    - eapply triple_bind; [eapply triple_log; eassumption|intros ? _].
      apply triple_ret. eexists. split; [done|left].
      rewrite <- E. eapply Forall_impl; [apply primary_listings_match|].
      intros z Hz. by apply primary_match_spec. }
  intros Hv. destruct (Ht w Logic.I) as [_ H]. rewrite Hv in H.
  destruct H as (l & -> & Hl). exists l. split; [done|]. split; [exact Hl|].
  intros Hkey Hw Hne.
  destruct (get_item_market_spec rt item_id w Hkey Hw) as (w' & Heq & _).
  rewrite Heq in Hv. cbn [fst] in Hv. injection Hv as Hv.
  destruct (primary_listings item_id (primary_data rt w)) as [|x xs] eqn:Hp.
  - right. split; [done|]. subst l.
    destruct (bazaar_listings_from item_id _ Hne) as (d & items & Hd & Hb & Hf).
    exists d, items. split; [done|]. split; [done|]. intros y.
    by rewrite Hf, elem_of_filter_bool, bazaar_match_spec.
  - left. subst l. rewrite <- Hp in *.
    destruct (primary_listings_from item_id _ Hne) as (d & items & Hd & Hm & Hf).
    exists d, items. split; [done|]. split; [done|]. intros y.
    by rewrite Hf, elem_of_filter_bool, primary_match_spec.
Qed.

(* ===================================================================== *)
(** * The order of numbers, and the stable sort *)
(* ===================================================================== *)


Module NumberFacts.
Import QArith.

Lemma qlt_true a b : Number.qlt a b = true <-> (a < b)%Q.
Proof. unfold Number.qlt, Qlt. apply Z.ltb_lt. Qed.

Lemma qlt_false a b : Number.qlt a b = false <-> (b <= a)%Q.
Proof. unfold Number.qlt, Qle. rewrite Z.ltb_ge. done. Qed.

Lemma lt_asym a b : Number.lt a b = true -> Number.lt b a = false.
Proof.
  destruct a as [x| | |], b as [y| | |]; simpl; try done.
  rewrite qlt_true, qlt_false. apply Qlt_le_weak.
Qed.


Lemma total a b : Number.lt a b = false \/ Number.lt b a = false.
Proof.
  destruct (Number.lt a b) eqn:H; [right; by apply lt_asym | by left].
Qed.

End NumberFacts.

Lemma gt0_true v :
  gt0 v = Ok true ->
  exists n, Number.of_val v = Some n
            /\ Number.lt (Number.Fin (QArith_base.inject_Z 0)) n = true
            /\ Number.ordered n = true.
Proof.
  unfold gt0. destruct (Number.of_val v) as [n|]; [|done].
  intros [= H]. exists n. repeat split; [done|]. by destruct n.
Qed.

Section Sorting.
Context {A : Type} (key : A -> Number.t).






End Sorting.

(* ===================================================================== *)
(** * The commands *)
(* ===================================================================== *)

Section CommandFacts.
Context (rt : Runtime).

Lemma member_status_cases member_id member_info :
  match member_status rt member_id member_info with
  | Healthy _ => is_dict member_info = true /\ in_hospital member_info = false
  | Hospitalized _ => is_dict member_info = true /\ in_hospital member_info = true
  | NoLine => is_dict member_info = false /\ in_hospital member_info = false
  end.
Proof.
  unfold member_status, in_hospital, dict_get.
  destruct member_info as [| | | | | |info]; try done.
  destruct (info !! "status") as [[| | | | | |status]|]; simpl; try done.
  destruct (status !! "state") as [[| | | |s| |]|]; simpl; try done.
  by destruct (String.eqb s "Hospital").
Qed.

Lemma hospitalized_count items :
  length (hospitalized_members rt items)
  = length (List.filter (fun x => in_hospital (snd x)) items).
Proof.
  induction items as [|[member_id member_info] items IH]; simpl; [done|].
  pose proof (member_status_cases member_id member_info) as H.
  destruct (member_status rt member_id member_info);
    destruct H as [_ ->]; simpl; lia.
Qed.

Lemma healthy_count items :
  length (healthy_members rt items)
  = length (List.filter (fun x => is_dict (snd x) && negb (in_hospital (snd x)))
              items).
Proof.
  induction items as [|[member_id member_info] items IH]; simpl; [done|].
  pose proof (member_status_cases member_id member_info) as H.
  destruct (member_status rt member_id member_info);
    destruct H as [-> ->]; simpl; lia.
Qed.

Lemma dicts_count (items : list (string * pyval)) :
  (length (List.filter (fun x => is_dict (snd x) && negb (in_hospital (snd x))) items)
   + length (List.filter (fun x => in_hospital (snd x)) items))%nat
  = length (List.filter (fun x => is_dict (snd x)) items).
Proof.
  induction items as [|[member_id member_info] items IH]; simpl; [done|].
  pose proof (member_status_cases "" member_info) as H.
  destruct (member_status rt "" member_info);
    destruct H as [-> ->]; simpl; lia.
Qed.

Lemma member_list_length members : (length (member_list rt members) <= 11)%nat.
Proof.
  unfold member_list. destruct (10 <? length members)%nat;
    rewrite ?length_app, length_take; cbn [length]; lia.
Qed.

Lemma member_status_line member_id member_info :
  member_status rt member_id member_info
  = if in_hospital member_info
    then Hospitalized ("🔴 " +:+ member_name rt (member_id, member_info))
    else if is_dict member_info
         then Healthy ("🟢 " +:+ member_name rt (member_id, member_info))
         else NoLine.
Proof.
  unfold member_status, in_hospital, member_name, dict_get.
  destruct member_info as [| | | | | |info]; try done. cbn [snd fst is_dict].
  destruct (info !! "status") as [[| | | | | |status]|]; simpl; try done.
  by destruct (status !! "state") as [[| | | |s| |]|].
Qed.

Lemma hospitalized_lines items :
  hospitalized_members rt items
  = (fun m => "🔴 " +:+ member_name rt m)
      <$> List.filter (fun x => in_hospital (snd x)) items.
Proof.
  induction items as [|[member_id member_info] items IH]; [done|].
  cbn [hospitalized_members List.filter snd].
  rewrite member_status_line, IH.
  destruct (in_hospital member_info); [done|].
  by destruct (is_dict member_info).
Qed.

Lemma healthy_lines items :
  healthy_members rt items
  = (fun m => "🟢 " +:+ member_name rt m)
      <$> List.filter (fun x => is_dict (snd x) && negb (in_hospital (snd x)))
            items.
Proof.
  induction items as [|[member_id member_info] items IH]; [done|].
  cbn [healthy_members List.filter snd].
  rewrite member_status_line, IH.
  destruct (in_hospital member_info); [by rewrite andb_false_r|].
  by destruct (is_dict member_info).
Qed.

(** X11. In the faction command every member whose entry is a dict is
    listed once, as hospitalized when its ['status'] is a dict with
    ['state'] equal to ['Hospital'] and as healthy otherwise (also when
    the status is missing or no dict); entries that are no dicts are left
    out.  The hospitalized list holds, in the order of the entries, one
    line for each member in hospital, a red mark and the member's name,
    and the healthy list one line for each other dict, a green mark and
    the name; the name is the member's ['name'], or User and its id.  Each list is shown by its first ten lines, in order, and one
    more line when there are more than ten. *)
Theorem faction_members_partition (items : list (string * pyval)) :
  length (hospitalized_members rt items)
  = length (List.filter (fun x => in_hospital (snd x)) items)
  /\ length (healthy_members rt items)
     = length (List.filter (fun x => is_dict (snd x) && negb (in_hospital (snd x)))
                 items)
  /\ (length (healthy_members rt items) + length (hospitalized_members rt items))%nat
     = length (List.filter (fun x => is_dict (snd x)) items)
  /\ (forall members : list string,
        (length (member_list rt members) <= 11)%nat
        /\ take 10 (member_list rt members) = take 10 members
        /\ ((length members <= 10)%nat -> member_list rt members = members)
        /\ ((10 < length members)%nat ->
            length (member_list rt members) = 11%nat))
  /\ hospitalized_members rt items
     = (fun m => "🔴 " +:+ member_name rt m)
         <$> List.filter (fun x => in_hospital (snd x)) items
  /\ healthy_members rt items
     = (fun m => "🟢 " +:+ member_name rt m)
         <$> List.filter (fun x => is_dict (snd x) && negb (in_hospital (snd x)))
               items.
Proof.
  split; [apply hospitalized_count|]. split; [apply healthy_count|].
  split; [rewrite hospitalized_count, healthy_count; apply dicts_count|].
  split; [|split; [apply hospitalized_lines|apply healthy_lines]].
  intros members. split; [apply member_list_length|].
  unfold member_list.
  destruct (10 <? length members)%nat eqn:Hlen.
  - apply Nat.ltb_lt in Hlen. split; [|split; [lia|]].
    + rewrite take_app_le by (rewrite length_take; lia).
      rewrite take_take. by rewrite Nat.min_id.
    + intros _. rewrite length_app, length_take. cbn [length]. lia.
  - apply Nat.ltb_ge in Hlen. split; [|split; [|lia]].
    + rewrite take_take. by rewrite Nat.min_id.
    + intros _. by apply take_ge.
Qed.

End CommandFacts.

Lemma valid_listings_cons listing rest :
  valid_listings (listing :: rest) =
    match listing with
    | VDict d =>
        if truthy (price (listing_of d)) then
          match gt0 (price (listing_of d)) with
          | Ok true =>
              match valid_listings rest with
              | Ok ls => Ok (listing_of d :: ls)
              | Err e => Err e
              end
          | Ok false => valid_listings rest
          | Err e => Err e
          end
        else valid_listings rest
    | _ => valid_listings rest
    end.
Proof. by destruct listing. Qed.

Lemma gt0_err v e : gt0 v = Err e -> Number.of_val v = None.
Proof. unfold gt0. by destruct (Number.of_val v). Qed.

Lemma gt0_ok v b : gt0 v = Ok b -> is_Some (Number.of_val v).
Proof. unfold gt0. destruct (Number.of_val v); [by eexists|done]. Qed.

Lemma valid_listings_kept market_data ls :
  valid_listings market_data = Ok ls -> ls = omap kept market_data.
Proof.
  revert ls. induction market_data as [|listing rest IH]; intros ls.
  - by intros [= <-].
  - rewrite valid_listings_cons. cbn [omap list_omap]. unfold kept at 1.
    destruct listing; try (intros H; by apply IH).
    destruct (truthy _); [|intros H; by apply IH].
    destruct (gt0 _) as [[|]|e]; [| intros H; by apply IH | done].
    destruct (valid_listings rest) as [ls'|e]; [|done].
    intros [= <-]. f_equal. by apply IH.
Qed.

Lemma kept_valid listing l :
  kept listing = Some l <->
  exists d, listing = VDict d /\ l = listing_of d /\ valid_price l.
Proof.
  unfold kept, valid_price. split.
  - destruct listing; try done.
    destruct (truthy _) eqn:Ht; [|done].
    destruct (gt0 _) as [[|]|e] eqn:Hg; try done.
    intros [= <-]. by eexists.
  - intros (d & -> & -> & Ht & Hg). by rewrite Ht, Hg.
Qed.

Lemma valid_listings_err market_data :
  (exists e, valid_listings market_data = Err e) <-> Exists bad_price market_data.
Proof.
  induction market_data as [|listing rest IH].
  - split; [by intros [e [=]] | by intros ?%Exists_nil].
  - rewrite valid_listings_cons, Exists_cons, <- IH. unfold bad_price.
    destruct listing as [| ? | ? | ? | ? | ? | d0];
      try (split; [by right | by intros [(d & [=] & _)|]]).
    destruct (truthy _) eqn:Ht.
    + destruct (gt0 _) as [[|]|e] eqn:Hg.
      * apply gt0_ok in Hg as [n Hn].
        destruct (valid_listings rest) as [ls|e].
        -- split; [by intros [e [=]]|].
           intros [(d & [= <-] & _ & Hd)|[e [=]]]. congruence.
        -- split; [by right; eexists|by eexists].
      * apply gt0_ok in Hg as [n Hn].
        split; [by right|]. intros [(d & [= <-] & _ & Hd)|]; [congruence|done].
      * split; [|by eexists]. intros _. left. eexists. split; [done|].
        split; [done|]. by eapply gt0_err.
    + split; [by right|]. intros [(d & [= <-] & Hd & _)|]; [congruence|done].
Qed.


Lemma length_omap_le {A B} (f : A -> option B) (l : list A) :
  (length (omap f l) <= length l)%nat.
Proof.
  induction l as [|x l IH]; [done|]. cbn [omap list_omap].
  destruct (f x); simpl; lia.
Qed.

Lemma omap_sublist {A} (f : A -> option A) (g : A -> A) (l : list A) :
  (forall x y, f x = Some y -> y = g x) -> omap f l `sublist_of` (g <$> l).
Proof.
  intros Hf. induction l as [|x l IH]; [done|]. cbn [omap list_omap].
  rewrite fmap_cons. destruct (f x) as [y|] eqn:Hx.
  - rewrite (Hf _ _ Hx). by constructor.
  - by constructor.
Qed.

(** X12. The listings the prices command keeps are those read from the
    dicts of the market data whose price, ['cost'] or else ['price'], is
    truthy and greater than 0: each of them has a number above 0 as its
    price, it keeps every such dict and nothing else, in the order of the
    market data, so never more than the market data has elements. *)
Theorem valid_listings_positive (market_data : list pyval) (ls : list Listing)
    (Hvalid : valid_listings market_data = Ok ls) :
  Forall (fun l => exists n, Number.of_val (price l) = Some n
                             /\ Number.lt (Number.Fin (QArith_base.inject_Z 0)) n = true)
    ls
  /\ (forall l, l ∈ ls <->
                exists d, VDict d ∈ market_data /\ l = listing_of d /\ valid_price l)
  /\ ls = omap kept market_data
  /\ (length ls <= length market_data)%nat.
Proof.
  apply valid_listings_kept in Hvalid as ->.
  assert (Hmem : forall l, l ∈ omap kept market_data <->
            exists d, VDict d ∈ market_data /\ l = listing_of d /\ valid_price l).
  { intros l. rewrite list_elem_of_omap. split.
    - intros (v & Hv & (d & -> & -> & Hp)%kept_valid). by exists d.
    - intros (d & Hd & -> & Hp). exists (VDict d). split; [done|].
      apply kept_valid. by exists d. }
  split; [|split; [exact Hmem|split; [done|apply length_omap_le]]].
  apply Forall_forall. intros l (d & _ & _ & _ & Hg)%Hmem.
  apply gt0_true in Hg as (n & Hn & Hlt & _). by exists n.
Qed.

(** X13. Collecting the listings raises exactly when some dict of the
    market data has a truthy price that is no number (a str, a list or a
    dict); elements that are no dicts, and prices that are None, 0 or
    not above 0, are passed over. *)
Theorem valid_listings_raises_iff (market_data : list pyval) :
  (exists e, valid_listings market_data = Err e)
  <-> (exists listing, listing ∈ market_data /\ bad_price listing).
Proof. rewrite valid_listings_err. apply Exists_exists. Qed.

Section SortingFacts.
Context {A : Type} (key : A -> Number.t).






End SortingFacts.



Lemma cost_key_err x : (exists e, cost_key x = Err e) <-> bad_cost x.
Proof.
  unfold cost_key, bad_cost. destruct x; try (split; [done|by eexists]).
  destruct (gt0 _) as [[|]|e] eqn:Hg.
  - apply gt0_ok in Hg as [n Hn]. split; [by intros [e [=]]|congruence].
  - apply gt0_ok in Hg as [n Hn]. split; [by intros [e [=]]|congruence].
  - split; [intros _; by eapply gt0_err|by eexists].
Qed.


Lemma with_keys_err bazaar_items :
  (exists e, with_keys bazaar_items = Err e) <-> Exists bad_cost bazaar_items.
Proof.
  induction bazaar_items as [|x rest IH]; simpl.
  - split; [by intros [e [=]] | by intros ?%Exists_nil].
  - rewrite Exists_cons, <- IH, <- cost_key_err.
    destruct (cost_key x) as [k|e].
    + destruct (with_keys rest) as [l|e].
      * split; [by intros [e [=]]|by intros [[e [=]]|[e [=]]]].
      * split; [by right; eexists|by eexists].
    + split; [by left; eexists|by eexists].
Qed.


(** X16. Sorting the bazaar items raises exactly when some item is no
    dict or has a ['cost'] that is no number; then nothing is sorted or
    shown. *)
Theorem sorted_items_raises_iff (bazaar_items : list pyval) :
  ((exists e, sorted_items bazaar_items = Err e)
   <-> (exists x, x ∈ bazaar_items /\ bad_cost x))
  /\ ((exists e, sorted_items bazaar_items = Err e)
      <-> (exists e, items_to_show bazaar_items = Err e)).
Proof.
  rewrite <- Exists_exists, <- with_keys_err.
  unfold items_to_show, sorted_items.
  destruct (with_keys bazaar_items) as [l|e].
  - split; (split; intros [e [=]]).
  - split; (split; intros _; by eexists).
Qed.

Lemma chunks_concat {A : Type} (l : list A) n :
  concat ((fun k => take chunk_size (drop (k * chunk_size) l)) <$> seq 0 n)
  = take (n * chunk_size) l.
Proof.
  induction n as [|n IH]; [done|].
  rewrite seq_S, fmap_app, concat_app, IH. cbn [fmap list_fmap concat].
  rewrite app_nil_r, take_take_drop. f_equal. lia.
Qed.

Lemma chunk_count n :
  let m := ((n + (chunk_size - 1)) / chunk_size)%nat in
  (n <= m * chunk_size)%nat /\ (m * chunk_size < n + chunk_size)%nat.
Proof.
  unfold chunk_size. cbn zeta.
  pose proof (Nat.div_mod_eq (n + (10 - 1)) 10) as H.
  pose proof (Nat.mod_upper_bound (n + (10 - 1)) 10) as H'.
  lia.
Qed.

Lemma item_fields_lookup (item_list : list string) i name chunk :
  item_fields item_list !! i = Some (name, chunk) <->
  (i * chunk_size < length item_list)%nat
  /\ name = field_name (i * chunk_size)
  /\ chunk = take chunk_size (drop (i * chunk_size) item_list).
Proof.
  unfold item_fields, chunk_starts.
  rewrite <- list_fmap_compose, list_lookup_fmap.
  destruct (chunk_count (length item_list)) as [Hlo Hhi].
  set (m := ((length item_list + (chunk_size - 1)) / chunk_size)%nat) in *.
  unfold chunk_size in *.
  destruct (seq 0 m !! i) as [k|] eqn:Hk; simpl.
  - apply lookup_seq in Hk as [-> Hi]. simpl. split.
    + intros [= <- <-]. split; [lia|done].
    + by intros (_ & -> & ->).
  - apply lookup_ge_None in Hk. rewrite length_seq in Hk.
    split; [done|]. intros (Hi & _). lia.
Qed.

(** X17. The lines of the bazaar items are cut into fields of ten: the
    fields, one after the other, give back all the lines in their order,
    every field has between one and ten lines, the k-th field holds the
    lines from 10k on, only the first one has the plain title and the
    others the title with (continued), and the at most 15 lines of the
    items shown make at most two fields. *)
Theorem item_fields_chunks (item_list : list string) :
  concat (snd <$> item_fields item_list) = item_list
  /\ Forall (fun f => (1 <= length (snd f) <= 10)%nat) (item_fields item_list)
  /\ (forall i name chunk,
        item_fields item_list !! i = Some (name, chunk) ->
        chunk = take 10 (drop (i * 10) item_list)
        /\ name = if (i =? 0)%nat then "🏪 Bazaar Items"
                  else "🏪 Bazaar Items (continued)")
  /\ (length (item_fields item_list) * 10 < length item_list + 10)%nat
  /\ (length item_list <= length (item_fields item_list) * 10)%nat
  /\ ((length item_list <= 15)%nat -> (length (item_fields item_list) <= 2)%nat).
Proof.
  destruct (chunk_count (length item_list)) as [Hlo Hhi].
  assert (Hlen : length (item_fields item_list)
                 = ((length item_list + (chunk_size - 1)) / chunk_size)%nat).
  { unfold item_fields, chunk_starts. by rewrite !length_fmap, length_seq. }
  rewrite <- Hlen in Hlo, Hhi. unfold chunk_size in Hlo, Hhi.
  split.
  { unfold item_fields, chunk_starts.
    rewrite <- !list_fmap_compose.
    erewrite (list_fmap_ext _ (fun k => take chunk_size (drop (k * chunk_size) item_list)));
      [|done].
    rewrite chunks_concat. apply take_ge.
    destruct (chunk_count (length item_list)) as [H _]. exact H. }
  split.
  { apply Forall_forall. intros [name chunk] Hf.
    apply list_elem_of_lookup_1 in Hf as [i Hi].
    apply item_fields_lookup in Hi as (Hi & _ & ->). cbn [snd].
    rewrite length_take, length_drop. unfold chunk_size in *. lia. }
  split.
  { intros i name chunk (Hi & -> & ->)%item_fields_lookup.
    split; [done|]. unfold field_name, chunk_size.
    destruct i as [|i]; [done|]. done. }
  split; [exact Hhi|]. split; [exact Hlo|]. lia.
Qed.

(* ===================================================================== *)
(** * The requests of the commands *)
(* ===================================================================== *)

Lemma fetch_pair {A B} (m1 : M A) (m2 : M B) w a b :
  fst (m1 w) = Return a -> fst (m2 (snd (m1 w))) = Return b ->
  (x ← m1; y ← m2; mret (x, y)) w = (Return (a, b), snd (m2 (snd (m1 w)))).
Proof.
  unfold mbind, M_bind, bind, mret, M_ret, ret.
  destruct (m1 w) as [r1 w1]. simpl. intros ->.
  destruct (m2 w1) as [r2 w2]. simpl. by intros ->.
Qed.

Lemma pass_through_world rt endpoint selections handler w :
  no_key (api_key (self w)) = false ->
  has_tokens w ->
  next_world w
    (snd (try_except
            (p ← new_dict {[ "selections" := selections ]};
             data ← _make_request rt endpoint (Some p); mret data) handler w)).
Proof.
  intros Hkey Hw. rewrite adapter_pass_through.
  destruct (request_with_new_dict rt endpoint {[ "selections" := selections ]}
              w Hkey Hw) as (w' & -> & _ & Hs & Hk & Hb & Ht).
  by repeat split.
Qed.

Lemma get_faction_info_world rt (faction_id : pyval) w :
  no_key (api_key (self w)) = false ->
  has_tokens w ->
  next_world w (snd (get_faction_info rt faction_id w)).
Proof. intros Hkey Hw. unfold get_faction_info. by apply pass_through_world. Qed.

Lemma get_user_profile_world rt (user_id : pyval) w :
  no_key (api_key (self w)) = false ->
  has_tokens w ->
  next_world w (snd (get_user_profile rt user_id w)).
Proof. intros Hkey Hw. unfold get_user_profile. by apply pass_through_world. Qed.

Lemma get_item_info_world rt (item_id : pyval) w :
  no_key (api_key (self w)) = false ->
  has_tokens w ->
  next_world w (snd (get_item_info rt item_id w)).
Proof.
  intros Hkey Hw. unfold get_item_info.
  rewrite (try_bind_return _ _ _ _ _ _ (new_dict_eq _ w)).
  destruct (request_with_new_dict rt "torn" {[ "selections" := "items" ]}
              w Hkey Hw) as (w' & Heq & _ & Hs & Hk & Hb & Ht).
  rewrite (try_bind_return _ _ _ _ _ _ Heq).
  match goal with
  | |- context [lift (safe_get rt ?d _ _)] => generalize d
  end.
  intros data. unfold next_world. rewrite <- Hs, <- Hk, <- Hb.
  unfold has_tokens in *.
  unfold try_except, mbind, M_bind, bind.
  destruct (safe_get rt data "items" (VDict ∅)) as [items|e]; simpl.
  - by destruct items.
  - done.
Qed.

Lemma next_world_requests w w' endpoint selections :
  next_world w w' ->
  request_url w' endpoint = request_url w endpoint
  /\ selection_params w' selections = selection_params w selections
  /\ primary_params w' = primary_params w
  /\ secondary_params w' = secondary_params w.
Proof.
  intros (_ & Hk & Hb & _).
  unfold request_url, selection_params, primary_params, secondary_params.
  by rewrite Hk, Hb.
Qed.

Lemma fetched_next_world rt w w' endpoint selections :
  next_world w w' ->
  fetched rt w' endpoint selections = fetched_next rt w endpoint selections.
Proof.
  intros H. unfold fetched, fetched_next.
  destruct (next_world_requests w w' endpoint selections H) as (-> & -> & _).
  by destruct H as (-> & _).
Qed.

(** X18. Each of the commands faction and bazaar costs two GETs, sent
    one after the other to the same endpoint with different selections
    (faction/<id>: basic, then members; user/<id>: basic,profile, then
    bazaar); the second is made whatever the first returned.  The prices
    command first downloads the whole catalogue (torn, selections items)
    and then makes the one or two GETs of the market lookup, so it costs
    two or three. *)
Theorem commands_fetch_in_order (rt : Runtime) (id : Z) (w : World) :
  no_key (api_key (self w)) = false ->
  has_tokens w ->
  (let e := "faction/" +:+ py_str rt (VInt id) in
   fst (faction_fetch rt id w)
   = Return (fetched rt w e "basic", members_of (fetched_next rt w e "members"))
   /\ gets (trace (snd (faction_fetch rt id w)))
      = gets (trace w)
        ++ [(request_url w e, selection_params w "basic");
            (request_url w e, selection_params w "members")])
  /\ (let e := "user/" +:+ py_str rt (VInt id) in
      fst (bazaar_fetch rt id w)
      = Return (fetched rt w e "basic,profile",
                bazaar_of (fetched_next rt w e "bazaar"))
      /\ gets (trace (snd (bazaar_fetch rt id w)))
         = gets (trace w)
           ++ [(request_url w e, selection_params w "basic,profile");
               (request_url w e, selection_params w "bazaar")])
  /\ (exists market rest,
        fst (prices_fetch rt id w)
        = Return (item_of rt (VInt id) (fetched rt w "torn" "items"), VList market)
        /\ gets (trace (snd (prices_fetch rt id w)))
           = gets (trace w)
             ++ (request_url w "torn", selection_params w "items")
             :: (request_url w "itemmarket", primary_params w) :: rest
        /\ (rest = [] \/ rest = [(request_url w "market", secondary_params w)])).
Proof.
  intros Hkey Hw. split; [|split].
  - cbn zeta. set (e := "faction/" +:+ py_str rt (VInt id)).
    destruct (get_faction_info_fetch rt (VInt id) w Hkey Hw) as [H1 G1].
    pose proof (get_faction_info_world rt (VInt id) w Hkey Hw) as Hn.
    set (w1 := snd (get_faction_info rt (VInt id) w)) in *.
    pose proof Hn as (Hs & Hk & Hb & Ht).
    assert (Hkey1 : no_key (api_key (self w1)) = false) by by rewrite Hk.
    destruct (get_faction_members_fetch rt (VInt id) w1 Hkey1 Ht) as [H2 G2].
    unfold faction_fetch. rewrite (fetch_pair _ _ w _ _ H1 H2). cbn [fst snd].
    fold w1. rewrite G2, G1, <- app_assoc. fold e.
    rewrite (fetched_next_world rt w w1 e "members" Hn).
    by destruct (next_world_requests w w1 e "members" Hn) as (-> & -> & _).
  - cbn zeta. set (e := "user/" +:+ py_str rt (VInt id)).
    destruct (get_user_profile_fetch rt (VInt id) w Hkey Hw) as [H1 G1].
    pose proof (get_user_profile_world rt (VInt id) w Hkey Hw) as Hn.
    set (w1 := snd (get_user_profile rt (VInt id) w)) in *.
    pose proof Hn as (Hs & Hk & Hb & Ht).
    assert (Hkey1 : no_key (api_key (self w1)) = false) by by rewrite Hk.
    destruct (get_player_bazaar_fetch rt (VInt id) w1 Hkey1 Ht) as [H2 G2].
    unfold bazaar_fetch. rewrite (fetch_pair _ _ w _ _ H1 H2). cbn [fst snd].
    fold w1. rewrite G2, G1, <- app_assoc. fold e.
    rewrite (fetched_next_world rt w w1 e "bazaar" Hn).
    by destruct (next_world_requests w w1 e "bazaar" Hn) as (-> & -> & _).
  - destruct (get_item_info_fetch rt (VInt id) w Hkey Hw) as [H1 G1].
    pose proof (get_item_info_world rt (VInt id) w Hkey Hw) as Hn.
    set (w1 := snd (get_item_info rt (VInt id) w)) in *.
    assert (Hkey1 : no_key (api_key (self w1)) = false).
    { destruct Hn as (_ & -> & _). done. }
    assert (Ht : has_tokens w1) by apply Hn.
    destruct (get_item_market_spec rt id w1 Hkey1 Ht) as (w2 & Heq & G2).
    destruct (next_world_requests w w1 "itemmarket" "" Hn) as (Hu1 & _ & Hp & Hq).
    destruct (next_world_requests w w1 "market" "" Hn) as (Hu2 & _).
    rewrite Hu1, Hu2, Hp, Hq, G1 in G2.
    assert (H2 : fst (get_item_market rt id w1)
                 = Return (VList match primary_listings id (primary_data rt w1) with
                                 | [] => bazaar_listings id (secondary_data rt w1)
                                 | l => l
                                 end)) by by rewrite Heq.
    eexists _, _. unfold prices_fetch.
    rewrite (fetch_pair _ _ w _ _ H1 H2). fold w1. rewrite Heq. cbn [fst snd].
    split; [reflexivity|]. rewrite G2, <- app_assoc. split; [reflexivity|].
    destruct (primary_listings id (primary_data rt w1)); [by right|by left].
Qed.

Lemma sorted_items_str s rest :
  sorted_items (VStr s :: rest)
  = Err (AttributeError "'str' object has no attribute 'get'").
Proof. done. Qed.

(** X19. What [get_player_bazaar] hands to the bazaar command is a list,
    a dict or a str.  The command sorts a list that is not empty and
    shows nothing for an empty value; a dict or a str that is not empty,
    which [get_player_bazaar] lets through, makes the sort raise an
    AttributeError, since it iterates over keys or characters. *)
Theorem bazaar_sorts_lists_only (data : pyval) :
  let bazaar_items := bazaar_of data in
  is_list bazaar_items || is_dict bazaar_items || is_str bazaar_items = true
  /\ (truthy bazaar_items = false -> bazaar_sorted bazaar_items = Ok None)
  /\ (forall x l, bazaar_items = VList (x :: l) ->
        bazaar_sorted bazaar_items
        = match sorted_items (x :: l) with
          | Ok sorted => Ok (Some sorted)
          | Err e => Err e
          end)
  /\ (is_list bazaar_items = false -> truthy bazaar_items = true ->
      bazaar_sorted bazaar_items
      = Err (AttributeError "'str' object has no attribute 'get'")).
Proof.
  cbn zeta.
  assert (Hshape : is_list (bazaar_of data) || is_dict (bazaar_of data)
                   || is_str (bazaar_of data) = true).
  { unfold bazaar_of. destruct data; try done.
    destruct (_ !! "bazaar") as [v|]; [|done].
    by destruct v. }
  split; [exact Hshape|split; [|split]].
  - intros Ht. unfold bazaar_sorted. by rewrite Ht.
  - intros x l ->. unfold bazaar_sorted. cbn [truthy len iterate length].
    destruct (0 <? Z.of_nat (S (length l)))%Z eqn:Hn; [done|].
    apply Z.ltb_ge in Hn. lia.
  - revert Hshape. generalize (bazaar_of data). intros v Hshape Hl Ht.
    unfold bazaar_sorted.
    rewrite Ht. destruct v as [|b|z|f|s|l|d]; try done.
    + destruct s as [|c s]; [done|]. cbn [len iterate chars String.length].
      destruct (0 <? Z.of_nat (S (String.length s)))%Z eqn:Hn;
        [by rewrite sorted_items_str|].
      apply Z.ltb_ge in Hn. lia.
    + cbn [len iterate]. simpl in Ht.
      apply negb_true_iff, bool_decide_eq_false in Ht.
      rewrite <- length_map_to_list.
      destruct (map_to_list d) as [|[k v] rest] eqn:Hd.
      { by apply map_to_list_empty_iff in Hd. }
      rewrite fmap_cons. cbn [fst length].
      destruct (0 <? Z.of_nat (S (length rest)))%Z eqn:Hn;
        [by rewrite sorted_items_str|].
      apply Z.ltb_ge in Hn. lia.
Qed.

(* ===================================================================== *)
(** * These theorems at concrete worlds and payloads *)
(* ===================================================================== *)

(** After a request a session is open; [close()] closes it. *)
Lemma close_closes_once_witness :
  is_closed (snd (close Sample.after_one)) 0 = true
  /\ trace (snd (close Sample.after_one)) = trace Sample.after_one ++ [Closed 0].
Proof.
  destruct (proj2 (proj2 (proj2 (proj2 (close_closes_once Sample.after_one))))
              0%nat ltac:(vm_compute; reflexivity)) as (H1 & H2 & _).
  split; [exact H1|exact H2].
Defined.

(** The first request of a client is its first GET. *)
Lemma make_request_one_token_one_get_witness :
  sent (snd (_make_request (Example.runtime Example.net_503) "user/1" None
               Example.world)) = 1%nat.
Proof.
  exact (proj1 (proj1 (make_request_one_token_one_get
                         (Example.runtime Example.net_503))
                  "user/1" None Example.world eq_refl example_has_tokens)).
Defined.

(** The first request opens session 0 and leaves it cached; after a
    [close()] the next request goes through a new session, 1. *)
Lemma requests_share_the_session_witness :
  cached_live (snd (_make_request (Example.runtime Example.net_503) "user/1" None
                      Example.world)) = Some 0%nat
  /\ sessions_used
       (trace (snd (_make_request (Example.runtime Example.net_503) "user/2" None
                      Sample.after_close)))
     = [0%nat; 1%nat].
Proof.
  split.
  - exact (proj1 (proj1 (requests_share_the_session
                           (Example.runtime Example.net_503))
                    "user/1" None Example.world eq_refl example_has_tokens)).
  - rewrite (proj1 (proj2 (proj2 (proj1 (requests_share_the_session
                                           (Example.runtime Example.net_503))
                                    "user/2" None Sample.after_close
                                    ltac:(vm_compute; reflexivity)
                                    ltac:(vm_compute; lia))))).
    vm_compute. reflexivity.
Defined.

(** A 503 answer: [None], and one message. *)
Lemma make_request_none_iff_logged_witness :
  exists msg,
    messages_since Example.world
      (snd (_make_request (Example.runtime Example.net_503) "user/1" None
              Example.world)) = [msg].
Proof.
  destruct (make_request_none_iff_logged (Example.runtime Example.net_503)
              "user/1" None Example.world VNone ltac:(vm_compute; reflexivity))
    as [[_ H]|[H _]]; [exact H|by destruct H].
Defined.

(** The profile of user 1 when the server answers 503. *)
Lemma profile_and_faction_info_pass_through_witness :
  fst (get_user_profile (Example.runtime Example.net_503) (VInt 1) Example.world)
  = Return VNone.
Proof.
  rewrite (proj1 (proj1 (proj2 (proj2 (profile_and_faction_info_pass_through
                                         (Example.runtime Example.net_503)
                                         (VInt 1) (VInt 1) Example.world))
                           eq_refl example_has_tokens))).
  vm_compute. reflexivity.
Defined.

(** The members of faction 5. *)
Lemma get_faction_members_result_witness :
  fst (get_faction_members (Example.runtime Sample.net_members) (VInt 5)
         Example.world)
  = Return Sample.members.
Proof.
  rewrite (proj1 (get_faction_members_result (Example.runtime Sample.net_members)
                    (VInt 5) Example.world eq_refl example_has_tokens)).
  vm_compute. reflexivity.
Defined.

(** The bazaar of player 5. *)
Lemma get_player_bazaar_result_witness :
  fst (get_player_bazaar (Example.runtime Sample.net_bazaar) (VInt 5)
         Example.world)
  = Return (VList [Example.listing 3 10]).
Proof.
  rewrite (proj1 (get_player_bazaar_result (Example.runtime Sample.net_bazaar)
                    (VInt 5) Example.world eq_refl example_has_tokens)).
  vm_compute. reflexivity.
Defined.

(** Item 7 of the catalogue. *)
Lemma get_item_info_result_witness :
  fst (get_item_info (Example.runtime Sample.net_items) (VInt 7) Example.world)
  = Return (VDict {[ "name" := VStr "Sword" ]}).
Proof.
  rewrite (proj1 (get_item_info_result (Example.runtime Sample.net_items)
                    (VInt 7) Example.world eq_refl example_has_tokens)).
  vm_compute. reflexivity.
Defined.

(** The market of item 7 for a client without a key. *)
Lemma operations_without_key_witness :
  fst (get_item_market (Example.runtime Example.net_market) 7 Example.world_no_key)
  = Return (VList [])
  /\ quiet Example.world_no_key
       (snd (get_item_market (Example.runtime Example.net_market) 7
               Example.world_no_key)).
Proof.
  exact (proj1 (proj2 (proj2 (proj2 (proj2
           (operations_without_key (Example.runtime Example.net_market)
              (VInt 1) 7 Example.world_no_key eq_refl)))))).
Defined.

(** Of a primary feed with a listing under ['item_id'] 9 and ['ID'] 7, a
    listing of item 7, a str and a listing under ['itemID'] 7, the two
    that are identified as item 7 are returned. *)
Lemma get_item_market_only_matches_witness :
  Forall (identified 7) [Example.listing 7 100; VDict {[ "itemID" := VInt 7 ]}]
  \/ Forall (field_equals "ID" 7)
       [Example.listing 7 100; VDict {[ "itemID" := VInt 7 ]}].
Proof.
  assert (Hv : fst (get_item_market (Example.runtime Sample.net_market_mixed) 7
                      Example.world)
               = Return (VList [Example.listing 7 100;
                                VDict {[ "itemID" := VInt 7 ]}]))
    by (vm_compute; reflexivity).
  destruct (get_item_market_only_matches _ _ _ _ Hv) as (l & Hl & H & _).
  injection Hl as <-. exact H.
Defined.

(** Of four entries the one in hospital and the two other dicts are
    listed, each under its name, and the number is left out; twelve
    members are shown as ten and one more line. *)
Lemma faction_members_partition_witness :
  hospitalized_members (Example.runtime Example.net_503) Sample.member_items
  = ["🔴 Ann"]
  /\ healthy_members (Example.runtime Example.net_503) Sample.member_items
     = ["🟢 Bob"; "🟢 User 4"]
  /\ length (member_list (Example.runtime Example.net_503) (replicate 12 "x"))
     = 11%nat.
Proof.
  split; [|split].
  - rewrite (proj1 (proj2 (proj2 (proj2 (proj2
               (faction_members_partition (Example.runtime Example.net_503)
                  Sample.member_items)))))).
    vm_compute. reflexivity.
  - rewrite (proj2 (proj2 (proj2 (proj2 (proj2
               (faction_members_partition (Example.runtime Example.net_503)
                  Sample.member_items)))))).
    vm_compute. reflexivity.
  - apply (proj1 (proj2 (proj2 (proj2 (faction_members_partition
                                         (Example.runtime Example.net_503) []))))
             (replicate 12 "x")).
    vm_compute. lia.
Defined.

(** The three listings kept of the five elements have prices above 0. *)
Lemma valid_listings_positive_witness :
  Forall (fun l => exists n, Number.of_val (price l) = Some n
                             /\ Number.lt (Number.Fin (QArith_base.inject_Z 0)) n = true)
    Sample.listings.
Proof.
  exact (proj1 (valid_listings_positive Sample.market_data Sample.listings
                  ltac:(vm_compute; reflexivity))).
Defined.

(** A cost that is a str makes the loop raise. *)
Lemma valid_listings_raises_iff_witness :
  exists e, valid_listings Sample.bad_market_data = Err e.
Proof.
  apply (proj2 (valid_listings_raises_iff Sample.bad_market_data)).
  exists (VDict {[ "cost" := VStr "1,000" ]}). split.
  - apply elem_of_cons. right. apply elem_of_cons. by left.
  - eexists. split; [reflexivity|]. split; vm_compute; reflexivity.
Defined.



(** An item that is a str makes the sort raise. *)
Lemma sorted_items_raises_iff_witness :
  exists e, sorted_items [VStr "x"] = Err e.
Proof.
  apply (proj2 (proj1 (sorted_items_raises_iff [VStr "x"]))).
  exists (VStr "x"). split; [apply elem_of_cons; by left|exact Logic.I].
Defined.

(** Twelve lines make two fields. *)
Lemma item_fields_chunks_witness :
  (length (item_fields (replicate 12 "x")) <= 2)%nat.
Proof.
  apply (proj2 (proj2 (proj2 (proj2 (proj2
           (item_fields_chunks (replicate 12 "x"))))))).
  vm_compute. lia.
Defined.

(** The faction command for faction 5: two GETs to faction/5. *)
Lemma commands_fetch_in_order_witness :
  gets (trace (snd (faction_fetch (Example.runtime Sample.net_members) 5
                      Example.world)))
  = [("https://api.torn.com/faction/5",
      {[ "selections" := "basic"; "key" := "SECRET" ]});
     ("https://api.torn.com/faction/5",
      {[ "selections" := "members"; "key" := "SECRET" ]})].
Proof.
  rewrite (proj2 (proj1 (commands_fetch_in_order
                           (Example.runtime Sample.net_members) 5 Example.world
                           eq_refl example_has_tokens))).
  vm_compute. reflexivity.
Defined.

(** A bazaar that is a dict keyed by item is let through, and the sort
    raises on its first key. *)
Lemma bazaar_sorts_lists_only_witness :
  bazaar_sorted (bazaar_of Sample.keyed_bazaar)
  = Err (AttributeError "'str' object has no attribute 'get'").
Proof.
  apply (proj2 (proj2 (proj2 (bazaar_sorts_lists_only Sample.keyed_bazaar))));
    vm_compute; reflexivity.
Defined.
(* ===================================================================== *)
(** * What the public operations return *)
(* ===================================================================== *)

Lemma try_bind_pending {A B} (m : M A) (k : A -> M B) (h : exn -> M B) w w1 :
  m w = (Pending, w1) -> try_except (m ≫= k) h w = (Pending, w1).
Proof.
  intros Hm. unfold try_except, mbind, M_bind, bind. by rewrite Hm.
Qed.

Lemma make_request_shape rt endpoint params w v :
  fst (_make_request rt endpoint params w) = Return v -> payload_or_none v.
Proof.
  unfold payload_or_none.
  destruct (_make_request_cases rt endpoint params w)
    as [(_ & ->)|[(_ & _ & ->)|(_ & g & rl & p & ds & Hacq & ->)]];
    cbn [fst snd]; [| done |].
  - intros [= <-]. by left.
  - intros [= <-].
    destruct (outcome_of_cases rt (request_url w endpoint)
                (network rt (sent w) (request_url w endpoint) p))
      as [(-> & _)|(_ & Hc)]; [by left|right].
    split; [by eapply contains_ok_shape|done].
Qed.

(** An adapter returns what its block makes of the value of its
    request. *)
Lemma adapter_value {A} rt endpoint selections (k : pyval -> M A)
    (h : exn -> M A) (f : pyval -> A) w v :
  (forall data w', fst (try_except (k data) h w') = Return (f data)) ->
  fst (try_except
         (p ← new_dict {[ "selections" := selections ]};
          data ← _make_request rt endpoint (Some p); k data) h w) = Return v ->
  exists data,
    fst (_make_request rt endpoint (Some (length (dicts w)))
           (snd (new_dict {[ "selections" := selections ]} w))) = Return data
    /\ v = f data.
Proof.
  intros Hk. rewrite (try_bind_return _ _ _ _ _ _ (new_dict_eq _ w)).
  change {| self := self w; dicts := dicts w ++ [{[ "selections" := selections ]}];
            sessions := sessions w; clock := clock w; sent := sent w;
            trace := trace w |}
    with (snd (new_dict {[ "selections" := selections ]} w)).
  pose proof (make_request_no_raise rt endpoint (Some (length (dicts w)))
                (snd (new_dict {[ "selections" := selections ]} w))) as Hnr.
  destruct (_make_request rt endpoint (Some (length (dicts w)))
              (snd (new_dict {[ "selections" := selections ]} w)))
    as [[data|e|] w'] eqn:Heq.
  - rewrite (try_bind_return _ _ _ _ _ _ Heq), Hk. intros [= <-]. by exists data.
  - by destruct (Hnr e).
  - by rewrite (try_bind_pending _ _ _ _ _ Heq).
Qed.

Lemma get_faction_members_value rt (x : pyval) w v :
  fst (get_faction_members rt x w) = Return v ->
  exists data,
    fst (_make_request rt ("faction/" +:+ py_str rt x) (Some (length (dicts w)))
           (snd (new_dict {[ "selections" := "members" ]} w))) = Return data
    /\ v = members_of data.
Proof.
  unfold get_faction_members. apply adapter_value. intros data w'.
  by destruct (members_block rt x data w') as (v' & -> & _).
Qed.

Lemma get_player_bazaar_value rt (x : pyval) w v :
  fst (get_player_bazaar rt x w) = Return v ->
  exists data,
    fst (_make_request rt ("user/" +:+ py_str rt x) (Some (length (dicts w)))
           (snd (new_dict {[ "selections" := "bazaar" ]} w))) = Return data
    /\ v = bazaar_of data.
Proof.
  unfold get_player_bazaar. apply adapter_value. intros data w'.
  by destruct (player_bazaar_block rt x data w') as (v' & -> & _).
Qed.

Lemma get_item_info_value rt (x : pyval) w v :
  fst (get_item_info rt x w) = Return v ->
  exists data,
    fst (_make_request rt "torn" (Some (length (dicts w)))
           (snd (new_dict {[ "selections" := "items" ]} w))) = Return data
    /\ v = item_of rt x data.
Proof.
  unfold get_item_info. apply adapter_value. intros data w'.
  unfold item_of, try_except, mbind, M_bind, bind.
  destruct (safe_get rt data "items" (VDict ∅)) as [items|e]; simpl; [|done].
  by destruct items.
Qed.

(** C1, as the code has it.  [_make_request] never raises, whatever the
    endpoint and the parameters; with a token to get it returns; a status
    other than 200, a timeout and any other exception of the dispatch
    each end in [None]; and no public operation raises: each returns a
    value when the limiter has a token to give.  What they return:
    [_make_request], [get_user_profile] and [get_faction_info] [None] or
    the decoded payload, a dict, a list or a str without ['error'];
    [get_item_market] a list; [get_player_bazaar] the empty list or what
    the payload holds under ['bazaar'], a list, a dict or a str;
    [get_faction_members] the empty dict or what the payload holds under
    ['members'], and [get_item_info] [None], the empty dict or what the
    items hold under the identifier, whatever these values are;
    [close()] nothing. *)
Theorem make_request_never_raises (rt : Runtime) (w : World) :
  (forall endpoint params e, fst (_make_request rt endpoint params w) <> Raise e)
  /\ (forall endpoint params,
        has_tokens w -> exists v, fst (_make_request rt endpoint params w) = Return v)
  /\ (forall endpoint params,
        no_key (api_key (self w)) = false -> valid_params w params ->
        has_tokens w ->
        match network rt (sent w) (request_url w endpoint)
                (request_params w params) with
        | Response status (Json _) =>
            status <> 200 -> fst (_make_request rt endpoint params w) = Return VNone
        | Response status (BodyError _) =>
            fst (_make_request rt endpoint params w) = Return VNone
        | Failed _ => fst (_make_request rt endpoint params w) = Return VNone
        end)
  /\ (forall e,
        (forall x, fst (get_user_profile rt x w) <> Raise e)
        /\ (forall x, fst (get_faction_info rt x w) <> Raise e)
        /\ (forall x, fst (get_faction_members rt x w) <> Raise e)
        /\ (forall x, fst (get_item_info rt x w) <> Raise e)
        /\ (forall x, fst (get_item_market rt x w) <> Raise e)
        /\ (forall x, fst (get_player_bazaar rt x w) <> Raise e)
        /\ fst (close w) <> Raise e)
  /\ (has_tokens w ->
        (forall x, exists v, fst (get_user_profile rt x w) = Return v)
        /\ (forall x, exists v, fst (get_faction_info rt x w) = Return v)
        /\ (forall x, exists v, fst (get_faction_members rt x w) = Return v)
        /\ (forall x, exists v, fst (get_item_info rt x w) = Return v)
        /\ (forall x, exists v, fst (get_item_market rt x w) = Return v)
        /\ (forall x, exists v, fst (get_player_bazaar rt x w) = Return v)
        /\ (exists v, fst (close w) = Return v))
  /\ (let request := fun endpoint selections =>
        fst (_make_request rt endpoint (Some (length (dicts w)))
               (snd (new_dict {[ "selections" := selections ]} w))) in
      (forall endpoint params v,
         fst (_make_request rt endpoint params w) = Return v -> payload_or_none v)
      /\ (forall x v,
            fst (get_user_profile rt x w) = Return v -> payload_or_none v)
      /\ (forall x v,
            fst (get_faction_info rt x w) = Return v -> payload_or_none v)
      /\ (forall x v,
            fst (get_faction_members rt x w) = Return v ->
            v = VDict ∅
            \/ exists d,
                 request ("faction/" +:+ py_str rt x) "members" = Return (VDict d)
                 /\ d !! "members" = Some v)
      /\ (forall x v,
            fst (get_item_info rt x w) = Return v ->
            v = VNone
            \/ exists data items,
                 request "torn" "items" = Return data
                 /\ safe_get rt data "items" (VDict ∅) = Ok (VDict items)
                 /\ v = default (VDict ∅) (items !! py_str rt x))
      /\ (forall x v,
            fst (get_item_market rt x w) = Return v -> is_list v = true)
      /\ (forall x v,
            fst (get_player_bazaar rt x w) = Return v ->
            is_list v || is_dict v || is_str v = true
            /\ (v = VList []
                \/ exists d,
                     request ("user/" +:+ py_str rt x) "bazaar" = Return (VDict d)
                     /\ d !! "bazaar" = Some v))
      /\ fst (close w) = Return tt).
Proof.
  split; [|split; [|split; [|split; [|split]]]].
  - intros endpoint params e.
    apply (never_raises rt _ (fun _ => True)). intros I pd H.
    by apply (triple_make_request rt I pd H).
  - intros endpoint params Hw.
    destruct (returns rt (_make_request rt endpoint params) (fun _ => True) w)
      as (v & Hv & _); [|done|eauto].
    intros I pd H. by apply (triple_make_request rt I pd H).
  - intros endpoint params Hkey Hvalid Hw.
    destruct (has_tokens_granted w Hw) as (g & rl & Hacq & _).
    rewrite (_make_request_eq rt endpoint params w g rl Hkey Hvalid Hacq). simpl.
    destruct (network rt _ _ _) as [status [data|e]|e]; simpl; try done.
    + intros Hs. apply Z.eqb_neq in Hs. by rewrite Hs.
    + by destruct (status =? 200).
  - intros e. repeat split; intros.
    + apply (never_raises rt _ (fun _ => True)); intros I pd H.
      by apply (triple_get_user_profile rt I pd H).
    + apply (never_raises rt _ (fun _ => True)); intros I pd H.
      by apply (triple_get_faction_info rt I pd H).
    + apply (never_raises rt _ (fun _ => True)); intros I pd H.
      by apply (triple_get_faction_members rt I pd H).
    + apply (never_raises rt _ (fun _ => True)); intros I pd H.
      by apply (triple_get_item_info rt I pd H).
    + apply (never_raises rt _ (fun v => is_list v = true)); intros I pd H.
      by apply (triple_get_item_market rt I pd H).
    + apply (never_raises rt _ (fun _ => True)); intros I pd H.
      by apply (triple_get_player_bazaar rt I pd H).
    + apply (never_raises rt _ (fun _ => True)); intros I pd H.
      by apply (triple_close rt I pd H).
  - intros Hw. repeat split; intros.
    + destruct (returns rt (get_user_profile rt x) (fun _ => True) w)
        as (v & Hv & _); [|done|eauto].
      intros I pd H. by apply (triple_get_user_profile rt I pd H).
    + destruct (returns rt (get_faction_info rt x) (fun _ => True) w)
        as (v & Hv & _); [|done|eauto].
      intros I pd H. by apply (triple_get_faction_info rt I pd H).
    + destruct (returns rt (get_faction_members rt x) (fun _ => True) w)
        as (v & Hv & _); [|done|eauto].
      intros I pd H. by apply (triple_get_faction_members rt I pd H).
    + destruct (returns rt (get_item_info rt x) (fun _ => True) w)
        as (v & Hv & _); [|done|eauto].
      intros I pd H. by apply (triple_get_item_info rt I pd H).
    + destruct (returns rt (get_item_market rt x) (fun v => is_list v = true) w)
        as (v & Hv & _); [|done|eauto].
      intros I pd H. by apply (triple_get_item_market rt I pd H).
    + destruct (returns rt (get_player_bazaar rt x) (fun _ => True) w)
        as (v & Hv & _); [|done|eauto].
      intros I pd H. by apply (triple_get_player_bazaar rt I pd H).
    + destruct (returns rt close (fun _ => True) w)
        as (v & Hv & _); [|done|eauto].
      intros I pd H. by apply (triple_close rt I pd H).
  - cbn zeta. split; [|split; [|split; [|split; [|split; [|split; [|split]]]]]].
    + intros endpoint params v. apply make_request_shape.
    + intros x v. unfold get_user_profile. rewrite adapter_pass_through.
      apply make_request_shape.
    + intros x v. unfold get_faction_info. rewrite adapter_pass_through.
      apply make_request_shape.
    + intros x v (data & Hd & ->)%get_faction_members_value.
      unfold members_of. destruct data as [| | | | | |d]; try by left.
      unfold dict_get. destruct (d !! "members") as [m|] eqn:Hm; simpl;
        [right; by exists d|by left].
    + intros x v (data & Hd & ->)%get_item_info_value.
      unfold item_of.
      destruct (safe_get rt data "items" (VDict ∅)) as [items|e] eqn:Hs;
        [|by left].
      destruct items as [| | | | | |items]; try by left.
      right. by exists data, items.
    + intros x v Hv.
      destruct (triple_get_item_market rt _ _ (stable_True rt) false x w Logic.I)
        as [_ H].
      by rewrite Hv in H.
    + intros x v (data & Hd & ->)%get_player_bazaar_value.
      unfold bazaar_of. destruct data as [| | | | | |d]; try (split; [done|by left]).
      destruct (d !! "bazaar") as [b|] eqn:Hb; [|split; [done|by left]].
      destruct (is_list b || is_dict b || is_str b) eqn:Hshape.
      * split; [done|]. right. by exists d.
      * split; [done|by left].
    + rewrite close_eq. destruct (cached_live w) as [h|]; [|done].
      by destruct (sessions w !! h).
Qed.

(** A 503 answer: [None], no exception. *)
Lemma make_request_never_raises_witness :
  fst (_make_request (Example.runtime Example.net_503) "user/1" None Example.world)
  = Return VNone.
Proof.
  exact (proj1 (proj2 (proj2 (make_request_never_raises
                                (Example.runtime Example.net_503) Example.world)))
           "user/1" None eq_refl Logic.I example_has_tokens).
Defined.

(** C1: [get_faction_members] hands on what the payload holds under
    ['members'] and [get_item_info] what the items hold under the
    identifier, unchecked: a number and a bool here, which are neither a
    mapping or a sequence nor the empty or [None] value. *)
Lemma public_operations_shape_counterexample :
  fst (get_faction_members (Example.runtime Sample.net_members_int) (VInt 1)
         Example.world) = Return (VInt 5)
  /\ fst (get_item_info (Example.runtime Sample.net_items_bool) (VInt 7)
            Example.world) = Return (VBool true).
Proof. vm_compute. repeat split. Qed.
